(** * Daily Effectiveness Logger: metrics engine and entity store

    A shallow embedding of the metrics engine ([calculateDailyMetrics] in
    [src/lib/calculations.ts]), of the calendar colouring of the monthly
    overview ([getScoreColor]) and of the two variants of the IndexedDB
    wrapper ([DatabaseManager]) found in the repository.

    JavaScript numbers are modelled as exact rationals ([Q]): sums, products
    and quotients are the mathematical ones, rounding is not modelled, and
    equality of computed numbers is [Qeq] ([==]).  A JavaScript [Map] built
    from a list of pairs is a [gmap] filled left to right (the last binding
    of a key wins), and an IndexedDB object store with key path [id] is a
    [gmap] from the key to the stored record. *)

From Stdlib Require Import QArith Qfield Lqa ZArith.
From Stdlib Require Import Ascii.
From Stdlib Require DecimalString DecimalZ DecimalPos.
From stdpp Require Import base strings gmap list.

(** ** Numbers *)

(** [x > y] and [x >= y] on JavaScript numbers, as booleans. *)
Definition Qgtb (x y : Q) : bool :=
  match (x ?= y)%Q with Gt => true | _ => false end.

Definition Qgeb (x y : Q) : bool :=
  match (x ?= y)%Q with Lt => false | _ => true end.

(** ** Data model (the interfaces of [database.ts]) *)

Inductive EnergyLevel := High | Medium | Low.

Module ActivityCategory.
Record t := mk {
  id : string;
  name : string;
  points : Q;
  color : string;
  description : string }.
End ActivityCategory.

Module VitalityBonus.
Record t := mk {
  id : string;
  name : string;
  points : Q;
  description : string }.
End VitalityBonus.

(** [startTime] and [endTime] are [Date] values: milliseconds since the
    epoch. *)
Module ActivityLog.
Record t := mk {
  id : string;
  name : string;
  categoryId : string;
  startTime : Z;
  endTime : Z;
  date : string;
  energyLevel : EnergyLevel;
  duration : Q;
  points : Q }.
End ActivityLog.

Module VitalityEntry.
Record t := mk {
  id : string;
  date : string;
  bonusId : string;
  completed : bool }.
End VitalityEntry.

Module DailyGoal.
Record t := mk {
  id : string;
  date : string;
  categoryId : string;
  targetMinutes : Q }.
End DailyGoal.

(** The [DailyMetrics] interface of [database.ts] (the record kept in the
    [metrics] object store, keyed by [date]). *)
Module StoredMetrics.
Record t := mk {
  date : string;
  totalScore : Q;
  focusRatio : Q;
  distractionRatio : Q;
  productivityThroughput : Q;
  totalTimeLogged : Q }.
End StoredMetrics.

(** ** The metrics engine ([calculations.ts]) *)

Module EnergyFocus.
Record t := mk { high : Q; medium : Q; low : Q }.
End EnergyFocus.

Module DailyMetrics.
Record t := mk {
  totalScore : Q;
  focusRatio : Q;
  distractionRatio : Q;
  productivityThroughput : Q;
  totalTimeLogged : Q;
  energyFocusCorrelation : EnergyFocus.t }.
End DailyMetrics.

(** The mutable locals of [calculateDailyMetrics] that the loop over the
    activities updates. *)
Module Acc.
Record t := mk {
  totalActivityScore : Q;
  totalTimeLogged : Q;
  deepWorkTime : Q;
  distractionTime : Q;
  positivePoints : Q;
  energyFocusCorrelation : EnergyFocus.t }.
End Acc.

(** [new Map(xs.map(x => [x.id, x]))]: entries are set from left to right. *)
Definition js_map_of {A} (key : A → string) (xs : list A) : gmap string A :=
  foldl (λ m x, <[key x := x]> m) ∅ xs.

Section MetricsEngine.
Local Open Scope Q_scope.

Definition acc0 : Acc.t :=
  Acc.mk 0 0 0 0 0 (EnergyFocus.mk 0 0 0).

(** The body of [activities.forEach(activity => ...)]. *)
Definition activity_step (categoryMap : gmap string ActivityCategory.t)
    (acc : Acc.t) (activity : ActivityLog.t) : Acc.t :=
  match categoryMap !! ActivityLog.categoryId activity with
  | None => acc
  | Some category =>
    let totalActivityScore :=
      Acc.totalActivityScore acc + ActivityLog.points activity in
    let totalTimeLogged :=
      Acc.totalTimeLogged acc + ActivityLog.duration activity in
    let positivePoints :=
      if Qgtb (ActivityLog.points activity) 0
      then Acc.positivePoints acc + ActivityLog.points activity
      else Acc.positivePoints acc in
    let efc := Acc.energyFocusCorrelation acc in
    if String.eqb (ActivityCategory.name category) "Deep Work" then
      Acc.mk totalActivityScore totalTimeLogged
        (Acc.deepWorkTime acc + ActivityLog.duration activity)
        (Acc.distractionTime acc)
        positivePoints
        (match ActivityLog.energyLevel activity with
         | High =>
           EnergyFocus.mk
             (EnergyFocus.high efc + ActivityLog.duration activity)
             (EnergyFocus.medium efc) (EnergyFocus.low efc)
         | Medium =>
           EnergyFocus.mk (EnergyFocus.high efc)
             (EnergyFocus.medium efc + ActivityLog.duration activity)
             (EnergyFocus.low efc)
         | Low =>
           EnergyFocus.mk (EnergyFocus.high efc) (EnergyFocus.medium efc)
             (EnergyFocus.low efc + ActivityLog.duration activity)
         end)
    else if String.eqb (ActivityCategory.name category) "Distraction" then
      Acc.mk totalActivityScore totalTimeLogged
        (Acc.deepWorkTime acc)
        (Acc.distractionTime acc + ActivityLog.duration activity)
        positivePoints efc
    else
      Acc.mk totalActivityScore totalTimeLogged
        (Acc.deepWorkTime acc) (Acc.distractionTime acc)
        positivePoints efc
  end.

(** The body of [vitalityEntries.forEach(entry => ...)]. *)
Definition vitality_step (vitalityMap : gmap string VitalityBonus.t)
    (totalVitalityScore : Q) (entry : VitalityEntry.t) : Q :=
  if VitalityEntry.completed entry then
    match vitalityMap !! VitalityEntry.bonusId entry with
    | Some bonus => totalVitalityScore + VitalityBonus.points bonus
    | None => totalVitalityScore
    end
  else totalVitalityScore.

Definition calculateDailyMetrics
    (activities : list ActivityLog.t)
    (categories : list ActivityCategory.t)
    (vitalityEntries : list VitalityEntry.t)
    (vitalityBonuses : list VitalityBonus.t) : DailyMetrics.t :=
  let categoryMap := js_map_of ActivityCategory.id categories in
  let acc := foldl (activity_step categoryMap) acc0 activities in
  let vitalityMap := js_map_of VitalityBonus.id vitalityBonuses in
  let totalVitalityScore :=
    foldl (vitality_step vitalityMap) 0 vitalityEntries in
  let totalScore := Acc.totalActivityScore acc + totalVitalityScore in
  let focusRatio :=
    if Qgtb (Acc.totalTimeLogged acc) 0
    then (Acc.deepWorkTime acc / Acc.totalTimeLogged acc) * 100 else 0 in
  let distractionRatio :=
    if Qgtb (Acc.totalTimeLogged acc) 0
    then (Acc.distractionTime acc / Acc.totalTimeLogged acc) * 100
    else 0 in
  let productivityThroughput :=
    if Qgtb (Acc.totalTimeLogged acc) 0
    then Acc.positivePoints acc / (Acc.totalTimeLogged acc / 60) else 0 in
  DailyMetrics.mk totalScore focusRatio distractionRatio
    productivityThroughput (Acc.totalTimeLogged acc)
    (Acc.energyFocusCorrelation acc).

End MetricsEngine.

(** What the loop over the activities keeps true of the three times when no
    duration is negative. *)
Definition times_ok (acc : Acc.t) : Prop :=
  (0 <= Acc.deepWorkTime acc
   ∧ 0 <= Acc.distractionTime acc
   ∧ Acc.deepWorkTime acc + Acc.distractionTime acc
     <= Acc.totalTimeLogged acc)%Q.

(** ** Calendar colouring ([MonthlyOverview.tsx]) *)

Section ScoreColor.
Local Open Scope Q_scope.

Definition getScoreColor (score : Q) : string :=
  if Qgeb score 20 then "bg-emerald-500"
  else if Qgeb score 15 then "bg-green-500"
  else if Qgeb score 10 then "bg-yellow-500"
  else if Qgeb score 5 then "bg-orange-500"
  else if Qgtb score 0 then "bg-red-500"
  else "bg-gray-300".

Definition getScoreOpacity (score : Q) : string :=
  if Qgeb score 20 then "opacity-100"
  else if Qgeb score 15 then "opacity-80"
  else if Qgeb score 10 then "opacity-60"
  else if Qgeb score 5 then "opacity-40"
  else if Qgtb score 0 then "opacity-30"
  else "opacity-10".

End ScoreColor.

(** The six tiers of the calendar, in increasing order. *)
Inductive Tier :=
  NoActivity | VeryLow | LowTier | MediumTier | HighTier | VeryHigh.

Definition tier_rank (t : Tier) : nat :=
  match t with
  | NoActivity => 0 | VeryLow => 1 | LowTier => 2
  | MediumTier => 3 | HighTier => 4 | VeryHigh => 5
  end.

(** The tier a background class of [getScoreColor] stands for. *)
Definition color_tier (class : string) : option Tier :=
  if String.eqb class "bg-gray-300" then Some NoActivity
  else if String.eqb class "bg-red-500" then Some VeryLow
  else if String.eqb class "bg-orange-500" then Some LowTier
  else if String.eqb class "bg-yellow-500" then Some MediumTier
  else if String.eqb class "bg-green-500" then Some HighTier
  else if String.eqb class "bg-emerald-500" then Some VeryHigh
  else None.

(** The tier an opacity class of [getScoreOpacity] stands for. *)
Definition opacity_tier (class : string) : option Tier :=
  if String.eqb class "opacity-10" then Some NoActivity
  else if String.eqb class "opacity-30" then Some VeryLow
  else if String.eqb class "opacity-40" then Some LowTier
  else if String.eqb class "opacity-60" then Some MediumTier
  else if String.eqb class "opacity-80" then Some HighTier
  else if String.eqb class "opacity-100" then Some VeryHigh
  else None.

(** ** IndexedDB: requests on object stores, promises

    A method of [DatabaseManager] is a state transformer on the manager that
    resolves with a value or rejects with an error; in both cases the manager
    (and the database behind it) is left in the state the method reached.
    One request runs in a transaction of its own: when the request fails the
    transaction aborts and the store is as before. *)

Inductive Error :=
  | NotInitialized   (* new Error('Database not initialized') *)
  | ConstraintError  (* request.error of add() on a key that exists *)
  | NotFoundError    (* transaction() over a name that is no object store *)
  | DataError.       (* IDBKeyRange.bound(lower, upper) with lower > upper *)

Inductive Outcome (A : Type) :=
  | Resolved (a : A)
  | Rejected (e : Error).
Arguments Resolved {A} a.
Arguments Rejected {A} e.

Section IndexedDB.
(** [D] is the [IDBDatabase]: the contents of its object stores. *)
Context {D : Type}.

Record DatabaseManager := { db : option D }.

Definition Promise (A : Type) : Type :=
  DatabaseManager → Outcome A * DatabaseManager.

Definition resolve {A} (a : A) : Promise A := λ this, (Resolved a, this).
Definition reject {A} (e : Error) : Promise A := λ this, (Rejected e, this).

(** [const x = await p; k x] *)
Definition await {A B} (p : Promise A) (k : A → Promise B) : Promise B :=
  λ this,
    match p this with
    | (Resolved a, this') => k a this'
    | (Rejected e, this') => (Rejected e, this')
    end.

(** [for (const x of xs) { await body(x); }] *)
Fixpoint for_of {A} (xs : list A) (body : A → Promise unit) : Promise unit :=
  match xs with
  | [] => resolve tt
  | x :: xs' => await (body x) (λ _, for_of xs' body)
  end.

(** [if (!this.db) throw new Error('Database not initialized');] followed
    by work on [this.db!]. *)
Definition with_db {A} (k : D → Outcome A * D) : Promise A :=
  λ this,
    match db this with
    | None => (Rejected NotInitialized, this)
    | Some d => let '(r, d') := k d in (r, {| db := Some d' |})
    end.

(** An object store of the database: its key path, and how the database
    holds its records. *)
Record ObjectStore (T : Type) := {
  keyPath : T → string;
  records : D → gmap string T;
  with_records : gmap string T → D → D }.
Arguments keyPath {T} _ _.
Arguments records {T} _ _.
Arguments with_records {T} _ _ _.

Section Requests.
Context {T : Type} (store : ObjectStore T).

(** [store.add(data)] *)
Definition request_add (data : T) : Promise unit :=
  with_db (λ d,
    match records store d !! keyPath store data with
    | Some _ => (Rejected ConstraintError, d)
    | None =>
      (Resolved tt,
       with_records store (<[keyPath store data := data]> (records store d)) d)
    end).

(** [store.put(data)] *)
Definition request_put (data : T) : Promise unit :=
  with_db (λ d,
    (Resolved tt,
     with_records store (<[keyPath store data := data]> (records store d)) d)).

(** [store.delete(id)] *)
Definition request_delete (id : string) : Promise unit :=
  with_db (λ d,
    (Resolved tt, with_records store (delete id (records store d)) d)).

(** [store.getAll()] *)
Definition request_getAll : Promise (list T) :=
  with_db (λ d, (Resolved (map_to_list (records store d)).*2, d)).

(** [store.count()] *)
Definition request_count : Promise nat :=
  with_db (λ d, (Resolved (size (records store d)), d)).

(** [store.index('date').getAll(date)] *)
Definition index_getAll (date_of : T → string) (date : string)
  : Promise (list T) :=
  with_db (λ d,
    (Resolved
       (filter (λ r, date_of r = date) (map_to_list (records store d)).*2),
     d)).

(** [store.index('date').getAll(IDBKeyRange.bound(startDate, endDate))] *)
Definition index_getAll_bound (date_of : T → string)
    (startDate endDate : string) : Promise (list T) :=
  with_db (λ d,
    if String.leb startDate endDate then
      (Resolved
         (filter (λ r, String.leb startDate (date_of r) = true
                       ∧ String.leb (date_of r) endDate = true)
                 (map_to_list (records store d)).*2),
       d)
    else (Rejected DataError, d)).
End Requests.

End IndexedDB.

Arguments DatabaseManager D : clear implicits.
Arguments Promise D A : clear implicits.
Arguments ObjectStore D T : clear implicits.
Arguments keyPath {D T} _ _.
Arguments records {D T} _ _.
Arguments with_records {D T} _ _ _.

(** ** Auxiliary notions for the properties below *)

(** The records of a store are read and written independently of the rest of
    the database. *)
Class StoreLaws {D T} (store : ObjectStore D T) : Prop := {
  records_with_records m d : records store (with_records store m d) = m;
  with_records_records d : with_records store (records store d) d = d;
  with_records_twice m m' d :
    with_records store m (with_records store m' d) = with_records store m d }.

Section StoreNotions.
Context {D T : Type} (store : ObjectStore D T).

(** The records of the store after [put] of each element of [xs] in turn. *)
Definition put_all (xs : list T) (m : gmap string T) : gmap string T :=
  foldl (λ m x, <[keyPath store x := x]> m) m xs.

(** What the guarded loop of [initializeDefaultData] makes of a store. *)
Definition seed_store (defaults : list T) (d : D) : D :=
  if Nat.eqb (size (records store d)) 0
  then with_records store (js_map_of (keyPath store) defaults) d
  else d.

End StoreNotions.

(** ** Default reference data (the same in both variants of [database.ts]) *)

Definition defaultCategories : list ActivityCategory.t :=
  [ ActivityCategory.mk "deep-work" "Deep Work" 3 "#3B82F6"
      "Focused, cognitively demanding work";
    ActivityCategory.mk "shallow-work" "Shallow Work" 1 "#8B5CF6"
      "Administrative and logistical tasks";
    ActivityCategory.mk "learning" "Learning" 2 "#06B6D4"
      "Skill development and education";
    ActivityCategory.mk "meetings" "Meetings" 1 "#F59E0B"
      "Collaborative discussions and calls";
    ActivityCategory.mk "personal-care" "Personal Care" 1 "#10B981"
      "Health, wellness, and self-care activities";
    ActivityCategory.mk "distraction" "Distraction" (-1) "#EF4444"
      "Social media, mindless browsing, etc." ].

Definition defaultVitalityBonuses : list VitalityBonus.t :=
  [ VitalityBonus.mk "sleep" "Quality Sleep" 5 "7+ hours of restful sleep";
    VitalityBonus.mk "exercise" "Exercise" 5 "Physical activity or workout";
    VitalityBonus.mk "meditation" "Meditation" 3
      "Mindfulness or meditation practice";
    VitalityBonus.mk "planning" "Daily Planning" 2
      "Setting intentions and planning the day" ].

(** ** The store, schema version 1 (the [DatabaseManager] with [exportData]
       and [clearAllData]; every method opens its own transaction) *)

Module DatabaseV1.

(** The object stores created by [onupgradeneeded]. *)
Module IDB.
Record t := mk {
  categories : gmap string ActivityCategory.t;
  vitality : gmap string VitalityBonus.t;
  activities : gmap string ActivityLog.t;
  vitalityEntries : gmap string VitalityEntry.t;
  goals : gmap string DailyGoal.t;
  metrics : gmap string StoredMetrics.t }.
End IDB.

Definition objectStoreNames : list string :=
  ["categories"; "vitality"; "activities"; "vitalityEntries"; "goals";
   "metrics"].

(** A database that did not exist before [indexedDB.open]. *)
Definition created : IDB.t := IDB.mk ∅ ∅ ∅ ∅ ∅ ∅.

Definition categoriesStore : ObjectStore IDB.t ActivityCategory.t :=
  {| keyPath := ActivityCategory.id;
     records := IDB.categories;
     with_records := λ m d,
       IDB.mk m (IDB.vitality d) (IDB.activities d) (IDB.vitalityEntries d)
         (IDB.goals d) (IDB.metrics d) |}.

Definition vitalityStore : ObjectStore IDB.t VitalityBonus.t :=
  {| keyPath := VitalityBonus.id;
     records := IDB.vitality;
     with_records := λ m d,
       IDB.mk (IDB.categories d) m (IDB.activities d) (IDB.vitalityEntries d)
         (IDB.goals d) (IDB.metrics d) |}.

Definition activitiesStore : ObjectStore IDB.t ActivityLog.t :=
  {| keyPath := ActivityLog.id;
     records := IDB.activities;
     with_records := λ m d,
       IDB.mk (IDB.categories d) (IDB.vitality d) m (IDB.vitalityEntries d)
         (IDB.goals d) (IDB.metrics d) |}.

Definition vitalityEntriesStore : ObjectStore IDB.t VitalityEntry.t :=
  {| keyPath := VitalityEntry.id;
     records := IDB.vitalityEntries;
     with_records := λ m d,
       IDB.mk (IDB.categories d) (IDB.vitality d) (IDB.activities d) m
         (IDB.goals d) (IDB.metrics d) |}.

Definition goalsStore : ObjectStore IDB.t DailyGoal.t :=
  {| keyPath := DailyGoal.id;
     records := IDB.goals;
     with_records := λ m d,
       IDB.mk (IDB.categories d) (IDB.vitality d) (IDB.activities d)
         (IDB.vitalityEntries d) m (IDB.metrics d) |}.

Definition metricsStore : ObjectStore IDB.t StoredMetrics.t :=
  {| keyPath := StoredMetrics.date;
     records := IDB.metrics;
     with_records := λ m d,
       IDB.mk (IDB.categories d) (IDB.vitality d) (IDB.activities d)
         (IDB.vitalityEntries d) (IDB.goals d) m |}.

(** [transaction.objectStore(storeName).clear()] *)
Definition clear (storeName : string) (d : IDB.t) : IDB.t :=
  if String.eqb storeName "categories" then with_records categoriesStore ∅ d
  else if String.eqb storeName "vitality" then with_records vitalityStore ∅ d
  else if String.eqb storeName "activities"
    then with_records activitiesStore ∅ d
  else if String.eqb storeName "vitalityEntries"
    then with_records vitalityEntriesStore ∅ d
  else if String.eqb storeName "goals" then with_records goalsStore ∅ d
  else if String.eqb storeName "metrics" then with_records metricsStore ∅ d
  else d.

(** [init]: [persisted] is the database the browser holds under the name
    [DailyEffectivenessLogger], if any. *)
Definition init (persisted : option IDB.t) : Promise IDB.t unit :=
  λ _, (Resolved tt, {| db := Some (default created persisted) |}).

Definition getCount {T} (store : ObjectStore IDB.t T) : Promise IDB.t nat :=
  request_count store.

Definition getCategories : Promise IDB.t (list ActivityCategory.t) :=
  request_getAll categoriesStore.
Definition addCategory (category : ActivityCategory.t) : Promise IDB.t unit :=
  request_add categoriesStore category.

Definition getVitalityBonuses : Promise IDB.t (list VitalityBonus.t) :=
  request_getAll vitalityStore.
Definition addVitalityBonus (bonus : VitalityBonus.t) : Promise IDB.t unit :=
  request_add vitalityStore bonus.

Definition addActivity (activity : ActivityLog.t) : Promise IDB.t unit :=
  request_add activitiesStore activity.
Definition getActivitiesByDate (date : string)
  : Promise IDB.t (list ActivityLog.t) :=
  index_getAll activitiesStore ActivityLog.date date.
Definition updateActivity (activity : ActivityLog.t) : Promise IDB.t unit :=
  request_put activitiesStore activity.
Definition deleteActivity (id : string) : Promise IDB.t unit :=
  request_delete activitiesStore id.

Definition addVitalityEntry (entry : VitalityEntry.t) : Promise IDB.t unit :=
  request_add vitalityEntriesStore entry.
Definition getVitalityEntriesByDate (date : string)
  : Promise IDB.t (list VitalityEntry.t) :=
  index_getAll vitalityEntriesStore VitalityEntry.date date.
Definition updateVitalityEntry (entry : VitalityEntry.t)
  : Promise IDB.t unit :=
  request_put vitalityEntriesStore entry.

Definition getActivitiesInRange (startDate endDate : string)
  : Promise IDB.t (list ActivityLog.t) :=
  index_getAll_bound activitiesStore ActivityLog.date startDate endDate.
Definition getVitalityEntriesInRange (startDate endDate : string)
  : Promise IDB.t (list VitalityEntry.t) :=
  index_getAll_bound vitalityEntriesStore VitalityEntry.date
    startDate endDate.

Definition getAllActivities : Promise IDB.t (list ActivityLog.t) :=
  request_getAll activitiesStore.
Definition getAllVitalityEntries : Promise IDB.t (list VitalityEntry.t) :=
  request_getAll vitalityEntriesStore.

Definition initializeDefaultData : Promise IDB.t unit :=
  await (with_db (λ d, (Resolved tt, d))) (λ _,
  await (getCount categoriesStore) (λ categoriesCount,
  await (if Nat.eqb categoriesCount 0
         then for_of defaultCategories addCategory
         else resolve tt) (λ _,
  await (getCount vitalityStore) (λ vitalityCount,
  if Nat.eqb vitalityCount 0
  then for_of defaultVitalityBonuses addVitalityBonus
  else resolve tt)))).

(** The object [data] that [exportData] serialises.  The JSON text itself
    ([JSON.stringify(data, null, 2)]) is framing and is not modelled. *)
Module ExportData.
Record t := mk {
  categories : list ActivityCategory.t;
  vitality : list VitalityBonus.t;
  activities : list ActivityLog.t;
  vitalityEntries : list VitalityEntry.t;
  exportDate : string }.
End ExportData.

(** [now] is [new Date().toISOString()]. *)
Definition exportData (now : string) : Promise IDB.t ExportData.t :=
  await (with_db (λ d, (Resolved tt, d))) (λ _,
  await getCategories (λ categories,
  await getVitalityBonuses (λ vitality,
  await getAllActivities (λ activities,
  await getAllVitalityEntries (λ vitalityEntries,
  resolve (ExportData.mk categories vitality activities vitalityEntries
             now)))))).

Definition clearAllData : Promise IDB.t unit :=
  with_db (λ d,
    let stores := ["activities"; "vitalityEntries"; "goals"; "metrics"] in
    if forallb (λ storeName, bool_decide (storeName ∈ objectStoreNames))
         stores
    then (Resolved tt, foldl (λ d' storeName, clear storeName d') d stores)
    else (Rejected NotFoundError, d)).

(** Modelled from the spec: [importAll] is missing from the source.  The
    spec has it as the bulk upsert of every record of the snapshot into the
    matching collection, without clearing what the store already holds. *)
Definition importAll (snapshot : ExportData.t) : Promise IDB.t unit :=
  await (for_of (ExportData.categories snapshot)
           (request_put categoriesStore)) (λ _,
  await (for_of (ExportData.vitality snapshot)
           (request_put vitalityStore)) (λ _,
  await (for_of (ExportData.activities snapshot)
           (request_put activitiesStore)) (λ _,
  for_of (ExportData.vitalityEntries snapshot)
    (request_put vitalityEntriesStore)))).

(** Every record sits under its own key (what key path [id], or [date] for
    the metrics, guarantees for a database written through IndexedDB). *)
Definition keyed {T} (store : ObjectStore IDB.t T) (d : IDB.t) : Prop :=
  map_Forall (λ k r, keyPath store r = k) (records store d).

(** The calls that write to the database. *)
Inductive Call :=
  | AddCategory (category : ActivityCategory.t)
  | AddVitalityBonus (bonus : VitalityBonus.t)
  | AddActivity (activity : ActivityLog.t)
  | UpdateActivity (activity : ActivityLog.t)
  | DeleteActivity (id : string)
  | AddVitalityEntry (entry : VitalityEntry.t)
  | UpdateVitalityEntry (entry : VitalityEntry.t)
  | InitializeDefaultData
  | ClearAllData
  | ImportAll (snapshot : ExportData.t).

Definition run (call : Call) : Promise IDB.t unit :=
  match call with
  | AddCategory category => addCategory category
  | AddVitalityBonus bonus => addVitalityBonus bonus
  | AddActivity activity => addActivity activity
  | UpdateActivity activity => updateActivity activity
  | DeleteActivity id => deleteActivity id
  | AddVitalityEntry entry => addVitalityEntry entry
  | UpdateVitalityEntry entry => updateVitalityEntry entry
  | InitializeDefaultData => initializeDefaultData
  | ClearAllData => clearAllData
  | ImportAll snapshot => importAll snapshot
  end.

(** The manager after a sequence of calls, each awaited, whether it resolved
    or rejected. *)
Definition run_all (calls : list Call) (this : DatabaseManager IDB.t)
  : DatabaseManager IDB.t :=
  foldl (λ this call, (run call this).2) this calls.

(** What holds of every database the manager has made: records sit under
    their keys, and the [goals] and [metrics] stores, which no method
    writes, are empty. *)
Definition well_formed (d : IDB.t) : Prop :=
  keyed categoriesStore d ∧ keyed vitalityStore d
  ∧ keyed activitiesStore d ∧ keyed vitalityEntriesStore d
  ∧ IDB.goals d = ∅ ∧ IDB.metrics d = ∅.

End DatabaseV1.

(** ** The store, schema version 2 (the [DatabaseManager] with the [tasks]
       store; every write goes through [writeToStore]) *)

Inductive Priority := HighPriority | MediumPriority | LowPriority.

Module DailyTask.
Record t := mk {
  id : string;
  date : string;
  name : string;
  priority : Priority;
  completed : bool }.
End DailyTask.

Module DatabaseV2.

Module IDB.
Record t := mk {
  categories : gmap string ActivityCategory.t;
  vitality : gmap string VitalityBonus.t;
  activities : gmap string ActivityLog.t;
  vitalityEntries : gmap string VitalityEntry.t;
  goals : gmap string DailyGoal.t;
  metrics : gmap string StoredMetrics.t;
  tasks : gmap string DailyTask.t }.
End IDB.

Definition created : IDB.t := IDB.mk ∅ ∅ ∅ ∅ ∅ ∅ ∅.

(** [onupgradeneeded] on a version 1 database: the stores that exist are
    kept, [tasks] is created. *)
Definition upgrade (d : DatabaseV1.IDB.t) : IDB.t :=
  IDB.mk (DatabaseV1.IDB.categories d) (DatabaseV1.IDB.vitality d)
    (DatabaseV1.IDB.activities d) (DatabaseV1.IDB.vitalityEntries d)
    (DatabaseV1.IDB.goals d) (DatabaseV1.IDB.metrics d) ∅.

Definition init (persisted : option (DatabaseV1.IDB.t + IDB.t))
  : Promise IDB.t unit :=
  λ _,
    (Resolved tt,
     {| db := Some match persisted with
                   | None => created
                   | Some (inl d1) => upgrade d1
                   | Some (inr d2) => d2
                   end |}).

Definition categoriesStore : ObjectStore IDB.t ActivityCategory.t :=
  {| keyPath := ActivityCategory.id;
     records := IDB.categories;
     with_records := λ m d,
       IDB.mk m (IDB.vitality d) (IDB.activities d) (IDB.vitalityEntries d)
         (IDB.goals d) (IDB.metrics d) (IDB.tasks d) |}.

Definition vitalityStore : ObjectStore IDB.t VitalityBonus.t :=
  {| keyPath := VitalityBonus.id;
     records := IDB.vitality;
     with_records := λ m d,
       IDB.mk (IDB.categories d) m (IDB.activities d) (IDB.vitalityEntries d)
         (IDB.goals d) (IDB.metrics d) (IDB.tasks d) |}.

Definition activitiesStore : ObjectStore IDB.t ActivityLog.t :=
  {| keyPath := ActivityLog.id;
     records := IDB.activities;
     with_records := λ m d,
       IDB.mk (IDB.categories d) (IDB.vitality d) m (IDB.vitalityEntries d)
         (IDB.goals d) (IDB.metrics d) (IDB.tasks d) |}.

Definition vitalityEntriesStore : ObjectStore IDB.t VitalityEntry.t :=
  {| keyPath := VitalityEntry.id;
     records := IDB.vitalityEntries;
     with_records := λ m d,
       IDB.mk (IDB.categories d) (IDB.vitality d) (IDB.activities d) m
         (IDB.goals d) (IDB.metrics d) (IDB.tasks d) |}.

Definition tasksStore : ObjectStore IDB.t DailyTask.t :=
  {| keyPath := DailyTask.id;
     records := IDB.tasks;
     with_records := λ m d,
       IDB.mk (IDB.categories d) (IDB.vitality d) (IDB.activities d)
         (IDB.vitalityEntries d) (IDB.goals d) (IDB.metrics d) m |}.

Definition getFromStore {T} (store : ObjectStore IDB.t T)
  : Promise IDB.t (list T) := request_getAll store.

Definition writeToStore {T} (store : ObjectStore IDB.t T) (data : T)
  : Promise IDB.t unit := request_put store data.

Definition getCount {T} (store : ObjectStore IDB.t T) : Promise IDB.t nat :=
  request_count store.

Definition getByDate {T} (store : ObjectStore IDB.t T)
    (date_of : T → string) (date : string) : Promise IDB.t (list T) :=
  index_getAll store date_of date.

Definition deleteFromStore {T} (store : ObjectStore IDB.t T) (id : string)
  : Promise IDB.t unit := request_delete store id.

Definition getCategories := getFromStore categoriesStore.
Definition getVitalityBonuses := getFromStore vitalityStore.

Definition addCategory (category : ActivityCategory.t) :=
  writeToStore categoriesStore category.
Definition addVitalityBonus (bonus : VitalityBonus.t) :=
  writeToStore vitalityStore bonus.

Definition addActivity (activity : ActivityLog.t) :=
  writeToStore activitiesStore activity.
Definition updateActivity (activity : ActivityLog.t) :=
  writeToStore activitiesStore activity.
Definition getActivitiesByDate (date : string) :=
  getByDate activitiesStore ActivityLog.date date.
Definition deleteActivity (id : string) :=
  deleteFromStore activitiesStore id.

Definition addVitalityEntry (entry : VitalityEntry.t) :=
  writeToStore vitalityEntriesStore entry.
Definition updateVitalityEntry (entry : VitalityEntry.t) :=
  writeToStore vitalityEntriesStore entry.
Definition getVitalityEntriesByDate (date : string) :=
  getByDate vitalityEntriesStore VitalityEntry.date date.

Definition addTask (task : DailyTask.t) := writeToStore tasksStore task.
Definition updateTask (task : DailyTask.t) := writeToStore tasksStore task.
Definition getTasksByDate (date : string) :=
  getByDate tasksStore DailyTask.date date.
Definition deleteTask (id : string) := deleteFromStore tasksStore id.

Definition initializeDefaultData : Promise IDB.t unit :=
  await (with_db (λ d, (Resolved tt, d))) (λ _,
  await (getCount categoriesStore) (λ categoriesCount,
  await (if Nat.eqb categoriesCount 0
         then for_of defaultCategories addCategory
         else resolve tt) (λ _,
  await (getCount vitalityStore) (λ vitalityCount,
  if Nat.eqb vitalityCount 0
  then for_of defaultVitalityBonuses addVitalityBonus
  else resolve tt)))).

End DatabaseV2.

(** ** The two score terms, as the spec words them *)

Section ScoreTerms.
Local Open Scope Q_scope.

Fixpoint sumQ (xs : list Q) : Q :=
  match xs with
  | [] => 0
  | x :: xs' => x + sumQ xs'
  end.


(** The points of the bonuses of the completed entries whose bonus
    resolves, summed. *)
Definition vitalityScoreTerm (vitalityEntries : list VitalityEntry.t)
    (vitalityBonuses : list VitalityBonus.t) : Q :=
  sumQ (omap (λ entry,
                if VitalityEntry.completed entry then
                  VitalityBonus.points <$>
                    js_map_of VitalityBonus.id vitalityBonuses
                      !! VitalityEntry.bonusId entry
                else None) vitalityEntries).

End ScoreTerms.

(** ** Sample records *)

Section Samples.
Local Open Scope Q_scope.

Definition deepWorkCategory : ActivityCategory.t :=
  ActivityCategory.mk "deep-work" "Deep Work" 3 "#3B82F6"
    "Focused, cognitively demanding work".

Definition scenarioA_activity : ActivityLog.t :=
  ActivityLog.mk "a1" "Write the report" "deep-work"
    1700000000000 1700007200000 "2023-11-14" High 120 6.

Definition distraction_activity : ActivityLog.t :=
  ActivityLog.mk "a2" "Scrolling" "distraction"
    1700010000000 1700013600000 "2023-11-14" Low 60 (-1).

(** An activity whose category is not among the defaults. *)
Definition dangling_activity : ActivityLog.t :=
  ActivityLog.mk "a3" "Old project" "archived"
    1700020000000 1700021800000 "2023-11-14" Medium 30 1.


Definition sleep_entry : VitalityEntry.t :=
  VitalityEntry.mk "e1" "2023-11-14" "sleep" true.

(** A completed entry whose bonus is not among the defaults. *)
Definition dangling_entry : VitalityEntry.t :=
  VitalityEntry.mk "e2" "2023-11-14" "cold-shower" true.

Definition scenarioA_metrics : DailyMetrics.t :=
  calculateDailyMetrics [scenarioA_activity] defaultCategories []
    defaultVitalityBonuses.

Definition sample_day_metrics : DailyMetrics.t :=
  calculateDailyMetrics [scenarioA_activity; distraction_activity]
    defaultCategories [sleep_entry] defaultVitalityBonuses.

Definition sample_goal : DailyGoal.t :=
  DailyGoal.mk "g1" "2023-11-14" "deep-work" 240.

Definition sample_stored_metrics : StoredMetrics.t :=
  StoredMetrics.mk "2023-11-14" 6 100 0 3 120.

(** A version 1 database after one day of use. *)
Definition sample_db_v1 : DatabaseV1.IDB.t :=
  DatabaseV1.IDB.mk
    (js_map_of ActivityCategory.id defaultCategories)
    (js_map_of VitalityBonus.id defaultVitalityBonuses)
    {[ "a1"%string := scenarioA_activity ]}
    {[ "e1"%string := sleep_entry ]}
    {[ "g1"%string := sample_goal ]}
    {[ "2023-11-14"%string := sample_stored_metrics ]}.

Definition sample_db_v1_cleared : DatabaseV1.IDB.t :=
  DatabaseV1.IDB.mk
    (js_map_of ActivityCategory.id defaultCategories)
    (js_map_of VitalityBonus.id defaultVitalityBonuses)
    ∅ ∅ ∅ ∅.

(** The same database opened by the version 2 manager. *)
Definition sample_db_v2 : DatabaseV2.IDB.t :=
  DatabaseV2.upgrade sample_db_v1.

(** Another activity under the id of [scenarioA_activity]. *)
Definition colliding_activity : ActivityLog.t :=
  ActivityLog.mk "a1" "Answer mail" "shallow-work"
    1700030000000 1700031800000 "2023-11-14" Low 30 (1 # 2).

End Samples.

(** ** Notions for further properties of the metrics engine *)

Section MetricsNotions.
Local Open Scope Q_scope.

(** Equality of accumulators and of metrics as numbers, field by field. *)
Definition energy_equiv (e1 e2 : EnergyFocus.t) : Prop :=
  EnergyFocus.high e1 == EnergyFocus.high e2
  ∧ EnergyFocus.medium e1 == EnergyFocus.medium e2
  ∧ EnergyFocus.low e1 == EnergyFocus.low e2.

Definition acc_equiv (a1 a2 : Acc.t) : Prop :=
  Acc.totalActivityScore a1 == Acc.totalActivityScore a2
  ∧ Acc.totalTimeLogged a1 == Acc.totalTimeLogged a2
  ∧ Acc.deepWorkTime a1 == Acc.deepWorkTime a2
  ∧ Acc.distractionTime a1 == Acc.distractionTime a2
  ∧ Acc.positivePoints a1 == Acc.positivePoints a2
  ∧ energy_equiv (Acc.energyFocusCorrelation a1)
      (Acc.energyFocusCorrelation a2).




(** What the loop keeps true of the points and of the energy buckets. *)
Definition buckets_ok (acc : Acc.t) : Prop :=
  0 <= Acc.positivePoints acc
  ∧ EnergyFocus.high (Acc.energyFocusCorrelation acc)
    + EnergyFocus.medium (Acc.energyFocusCorrelation acc)
    + EnergyFocus.low (Acc.energyFocusCorrelation acc)
    == Acc.deepWorkTime acc.

Definition buckets_nonneg (acc : Acc.t) : Prop :=
  0 <= EnergyFocus.high (Acc.energyFocusCorrelation acc)
  ∧ 0 <= EnergyFocus.medium (Acc.energyFocusCorrelation acc)
  ∧ 0 <= EnergyFocus.low (Acc.energyFocusCorrelation acc).

End MetricsNotions.

(** ** Time strings and durations ([calculations.ts])

    The helpers work on whole minutes; a number is an integer here.
    [Number.prototype.toString] of an integer is its decimal numeral, and
    [Number(s)] is modelled where [s] is empty or a decimal integer numeral
    with an optional minus sign: [None] stands for NaN and for the inputs
    outside this syntax (fractions, exponents, blanks), which are not
    modelled. *)

Definition js_toString (n : Z) : string :=
  DecimalString.NilZero.string_of_int (Z.to_int n).

Definition js_Number (s : string) : option Z :=
  match s with
  | EmptyString => Some 0%Z
  | _ => Z.of_int <$> DecimalString.NilZero.int_of_string s
  end.

(** [s.padStart(targetLength, padChar)] with a pad of one character. *)
Definition padStart (targetLength : nat) (padChar : Ascii.ascii) (s : string)
  : string :=
  Nat.iter (targetLength - String.length s) (String padChar) s.

(** [s.split(sep)] with a separator of one character. *)
Fixpoint split (sep : Ascii.ascii) (s : string) : list string :=
  match s with
  | EmptyString => [EmptyString]
  | String c s' =>
    if Ascii.eqb c sep then EmptyString :: split sep s'
    else match split sep s' with
         | piece :: pieces => String c piece :: pieces
         | [] => [String c EmptyString]
         end
  end.

(** [const [hours, minutes] = timeString.split(':').map(Number);
     return hours * 60 + minutes;] *)
Definition parseTimeToMinutes (timeString : string) : option Z :=
  match js_Number <$> split ":"%char timeString with
  | Some hours :: Some minutes :: _ => Some (hours * 60 + minutes)%Z
  | _ => None
  end.

Definition minutesToTimeString (minutes : Z) : string :=
  let hours := (minutes / 60)%Z in
  let mins := Z.rem minutes 60 in
  (padStart 2 "0"%char (js_toString hours) +:+ ":"
   +:+ padStart 2 "0"%char (js_toString mins))%string.

Definition formatDuration (minutes : Z) : string :=
  let hours := (minutes / 60)%Z in
  let mins := Z.rem minutes 60 in
  if (hours =? 0)%Z then (js_toString mins +:+ "m")%string
  else if (mins =? 0)%Z then (js_toString hours +:+ "h")%string
  else (js_toString hours +:+ "h " +:+ js_toString mins +:+ "m")%string.

(** A string of decimal digits, and the numeral it spells. *)
Definition numeral (s : string) (u : Decimal.uint) : Prop :=
  DecimalString.NilEmpty.uint_of_string s = Some u.

(** ** The activity forms

    What a submission of the form comes to: a toast with the title of the
    validation that failed, or the activity handed to [onActivityLogged] or
    [onActivityUpdated].  [setHours date hours minutes] stands for
    [date.setHours(hours, minutes, 0, 0)] on a copy of [date], and
    [getDateString] for the helper of [calculations.ts]; both depend on the
    time zone of the browser and are parameters.  A submission is [None] when
    a time string is outside the modelled syntax of [Number]. *)

Inductive FormOutcome :=
  | Toast (title : string)
  | Logged (activity : ActivityLog.t)
  | Updated (activity : ActivityLog.t).

Module FormState.
Record t := mk {
  name : string;
  categoryId : string;
  startTime : string;
  endTime : string;
  energyLevel : EnergyLevel }.
End FormState.

(** [!s] on a string. *)
Definition js_not (s : string) : bool := String.eqb s "".

(** [categories.find(cat => cat.id === categoryId)] *)
Definition find_category (categories : list ActivityCategory.t)
    (categoryId : string) : option ActivityCategory.t :=
  List.find (λ cat, String.eqb (ActivityCategory.id cat) categoryId)
    categories.

(** The form that counts in minutes ([parseTimeToMinutes]). *)
Module MinutesForm.

Definition handleSubmit (setHours : Z → Z → Z → Z) (getDateString : Z → string)
    (uuid : string) (selectedDate : Z) (categories : list ActivityCategory.t)
    (form : FormState.t) : option FormOutcome :=
  if js_not (FormState.name form) || js_not (FormState.categoryId form)
     || js_not (FormState.startTime form) || js_not (FormState.endTime form)
  then Some (Toast "Missing Information")
  else
    match parseTimeToMinutes (FormState.startTime form),
          parseTimeToMinutes (FormState.endTime form) with
    | Some startMinutes, Some endMinutes =>
      if (endMinutes <=? startMinutes)%Z then Some (Toast "Invalid Time Range")
      else
        let duration := (endMinutes - startMinutes)%Z in
        match find_category categories (FormState.categoryId form) with
        | None => Some (Toast "Invalid Category")
        | Some category =>
          Some (Logged
            (ActivityLog.mk uuid (FormState.name form)
               (FormState.categoryId form)
               (setHours selectedDate (startMinutes / 60)%Z
                  (Z.rem startMinutes 60))
               (setHours selectedDate (endMinutes / 60)%Z
                  (Z.rem endMinutes 60))
               (getDateString selectedDate)
               (FormState.energyLevel form)
               (inject_Z duration)
               (ActivityCategory.points category * (inject_Z duration / 60))%Q))
        end
    | _, _ => None
    end.

End MinutesForm.

(** The form that counts in milliseconds, with editing. *)
Module MillisecondsForm.

(** [const [hour, minute] = time.split(':').map(Number);] *)
Definition hour_minute (time : string) : option (Z * Z) :=
  match js_Number <$> split ":" time with
  | Some hour :: Some minute :: _ => Some (hour, minute)
  | _ => None
  end.

Definition handleSubmit (setHours : Z → Z → Z → Z) (getDateString : Z → string)
    (uuid : string) (selectedDate : Z) (categories : list ActivityCategory.t)
    (editingActivity : option ActivityLog.t) (form : FormState.t)
  : option FormOutcome :=
  if js_not (FormState.name form) || js_not (FormState.categoryId form)
     || js_not (FormState.startTime form) || js_not (FormState.endTime form)
  then Some (Toast "Validation Error")
  else
    match find_category categories (FormState.categoryId form) with
    | None => Some (Toast "Error")
    | Some category =>
      match hour_minute (FormState.startTime form),
            hour_minute (FormState.endTime form) with
      | Some (startHour, startMinute), Some (endHour, endMinute) =>
        let start := setHours selectedDate startHour startMinute in
        let end_ := setHours selectedDate endHour endMinute in
        if (end_ <=? start)%Z then Some (Toast "Validation Error")
        else
          let duration := inject_Z (end_ - start) in
          let hours := (duration / (1000 * 60 * 60))%Q in
          let points := (hours * ActivityCategory.points category)%Q in
          let activity :=
            ActivityLog.mk
              (match editingActivity with
               | Some edited =>
                 if js_not (ActivityLog.id edited) then uuid
                 else ActivityLog.id edited
               | None => uuid
               end)
              (FormState.name form) (FormState.categoryId form)
              start end_ (getDateString selectedDate)
              (FormState.energyLevel form) duration points in
          Some (match editingActivity with
                | Some _ => Updated activity
                | None => Logged activity
                end)
      | _, _ => None
      end
    end.

End MillisecondsForm.

(** ** Sample form input *)


Definition sample_getDateString (date : Z) : string := "2023-11-14".




(** The calls of the version 1 manager that the source has ([importAll] is
    modelled from the spec). *)
Definition from_source (call : DatabaseV1.Call) : Prop :=
  match call with
  | DatabaseV1.ImportAll _ => False
  | _ => True
  end.

(** ** The dashboard ([Dashboard.tsx]), on the version 1 store

    The state of the component, and its handlers as transformers of that
    state and of the database manager.  A handler reads the state of the
    render it was made in and sets the new one; the toasts shown are kept,
    latest first.  [getDateString] is a parameter, as for the forms. *)

Module Dashboard.

Record State := mkState {
  categories : list ActivityCategory.t;
  vitalityBonuses : list VitalityBonus.t;
  activities : list ActivityLog.t;
  vitalityEntries : list VitalityEntry.t;
  metrics : DailyMetrics.t;
  selectedDate : Z;
  isLoading : bool;
  toasts : list string }.

Definition initial (today : Z) : State :=
  mkState [] [] [] []
    (DailyMetrics.mk 0 0 0 0 0 (EnergyFocus.mk 0 0 0)) today true [].

Definition toast (title : string) (st : State) : State :=
  mkState (categories st) (vitalityBonuses st) (activities st)
    (vitalityEntries st) (metrics st) (selectedDate st) (isLoading st)
    (title :: toasts st).

Definition initializeData (persisted : option DatabaseV1.IDB.t) (st : State)
    (this : DatabaseManager DatabaseV1.IDB.t)
  : State * DatabaseManager DatabaseV1.IDB.t :=
  match await (DatabaseV1.init persisted) (λ _,
        await DatabaseV1.initializeDefaultData (λ _,
        await DatabaseV1.getCategories (λ categoriesData,
        await DatabaseV1.getVitalityBonuses (λ vitalityData,
        resolve (categoriesData, vitalityData))))) this with
  | (Resolved (categoriesData, vitalityData), this') =>
    (mkState categoriesData vitalityData (activities st) (vitalityEntries st)
       (metrics st) (selectedDate st) false (toasts st), this')
  | (Rejected _, this') => (toast "Database Error" st, this')
  end.

Definition loadDayData (getDateString : Z → string) (st : State)
    (this : DatabaseManager DatabaseV1.IDB.t)
  : State * DatabaseManager DatabaseV1.IDB.t :=
  let dateString := getDateString (selectedDate st) in
  match await (DatabaseV1.getActivitiesByDate dateString) (λ activitiesData,
        await (DatabaseV1.getVitalityEntriesByDate dateString)
          (λ vitalityData, resolve (activitiesData, vitalityData))) this with
  | (Resolved (activitiesData, vitalityData), this') =>
    (mkState (categories st) (vitalityBonuses st) activitiesData vitalityData
       (calculateDailyMetrics activitiesData (categories st) vitalityData
          (vitalityBonuses st))
       (selectedDate st) (isLoading st) (toasts st), this')
  | (Rejected _, this') => (toast "Error" st, this')
  end.

(** [await db.write(...); await loadDayData();], the error handed on. *)
Definition write_and_reload (getDateString : Z → string)
    (write : Promise DatabaseV1.IDB.t unit) (st : State)
    (this : DatabaseManager DatabaseV1.IDB.t)
  : Outcome unit * (State * DatabaseManager DatabaseV1.IDB.t) :=
  match write this with
  | (Resolved _, this') => (Resolved tt, loadDayData getDateString st this')
  | (Rejected e, this') => (Rejected e, (st, this'))
  end.


Definition handleActivityUpdated getDateString (activity : ActivityLog.t) :=
  write_and_reload getDateString (DatabaseV1.updateActivity activity).

Definition handleActivityDeleted getDateString (activityId : string) :=
  write_and_reload getDateString (DatabaseV1.deleteActivity activityId).

Definition handleVitalityToggle (getDateString : Z → string) (uuid : string)
    (bonusId : string) (completed : bool) (st : State)
    (this : DatabaseManager DatabaseV1.IDB.t)
  : State * DatabaseManager DatabaseV1.IDB.t :=
  let dateString := getDateString (selectedDate st) in
  let existingEntry :=
    List.find (λ entry, String.eqb (VitalityEntry.bonusId entry) bonusId
                        && String.eqb (VitalityEntry.date entry) dateString)
      (vitalityEntries st) in
  let write :=
    match existingEntry with
    | Some existing =>
      DatabaseV1.updateVitalityEntry
        (VitalityEntry.mk (VitalityEntry.id existing)
           (VitalityEntry.date existing) (VitalityEntry.bonusId existing)
           completed)
    | None =>
      DatabaseV1.addVitalityEntry
        (VitalityEntry.mk uuid dateString bonusId completed)
    end in
  match write this with
  | (Resolved _, this') => loadDayData getDateString st this'
  | (Rejected _, this') => (toast "Error" st, this')
  end.

(** The day shown is the day stored: what [loadDayData] establishes. *)
Definition in_sync (getDateString : Z → string) (st : State)
    (d : DatabaseV1.IDB.t) : Prop :=
  activities st
  = filter (λ a, ActivityLog.date a = getDateString (selectedDate st))
      (map_to_list (DatabaseV1.IDB.activities d)).*2
  ∧ vitalityEntries st
    = filter (λ e, VitalityEntry.date e = getDateString (selectedDate st))
        (map_to_list (DatabaseV1.IDB.vitalityEntries d)).*2
  ∧ metrics st
    = calculateDailyMetrics (activities st) (categories st)
        (vitalityEntries st) (vitalityBonuses st).

(** At most one vitality entry for a bonus on a date. *)
Definition one_entry_per_bonus (d : DatabaseV1.IDB.t) : Prop :=
  ∀ k1 k2 e1 e2,
    DatabaseV1.IDB.vitalityEntries d !! k1 = Some e1 →
    DatabaseV1.IDB.vitalityEntries d !! k2 = Some e2 →
    VitalityEntry.date e1 = VitalityEntry.date e2 →
    VitalityEntry.bonusId e1 = VitalityEntry.bonusId e2 →
    k1 = k2.

End Dashboard.

(** ** Sample dashboard *)

(** The dashboard showing the day of [sample_db_v1]. *)
Definition sample_dashboard : Dashboard.State :=
  Dashboard.mkState defaultCategories defaultVitalityBonuses
    [scenarioA_activity] [sleep_entry]
    (calculateDailyMetrics [scenarioA_activity] defaultCategories
       [sleep_entry] defaultVitalityBonuses)
    1700000000000 false [].

Definition sample_task : DailyTask.t :=
  DailyTask.mk "t1" "2023-11-14" "Send the report" HighPriority false.

(** ** The monthly calendar ([MonthlyOverview.tsx]) *)

(** A JavaScript [Map] from strings, with the order in which its keys were
    first set. *)
Module JsMap.
Record t (V : Type) := mk { entries : gmap string V; keys : list string }.
Arguments mk {V} _ _.
Arguments entries {V} _.
Arguments keys {V} _.

Definition empty {V} : t V := mk ∅ [].

(** [m.set(k, v)] *)
Definition set {V} (k : string) (v : V) (m : t V) : t V :=
  mk (<[k := v]> (entries m))
     (match entries m !! k with
      | Some _ => keys m
      | None => keys m ++ [k]
      end).

(** [m.get(k)] *)
Definition get {V} (k : string) (m : t V) : option V := entries m !! k.

(** [Array.from(m.values())] *)
Definition values {V} (m : t V) : list V :=
  omap (λ k, entries m !! k) (keys m).
End JsMap.

Module DayData.
Record t := mk {
  date : Z;
  dateString : string;
  totalScore : Q;
  isCurrentMonth : bool;
  activities : list ActivityLog.t }.
End DayData.

Module MonthlyOverview.

(** [dayData.activities.push(activity)] *)
Definition push (activity : ActivityLog.t) (dayData : DayData.t) : DayData.t :=
  DayData.mk (DayData.date dayData) (DayData.dateString dayData)
    (DayData.totalScore dayData) (DayData.isCurrentMonth dayData)
    (DayData.activities dayData ++ [activity]).

(** The body of [dayDataMap.forEach(dayData => ...)]. *)
Definition score (categories : list ActivityCategory.t)
    (vitalityEntries : list VitalityEntry.t)
    (vitalityBonuses : list VitalityBonus.t) (dayData : DayData.t)
  : DayData.t :=
  if Nat.ltb 0 (length (DayData.activities dayData)) then
    DayData.mk (DayData.date dayData) (DayData.dateString dayData)
      (DailyMetrics.totalScore
         (calculateDailyMetrics (DayData.activities dayData) categories
            (filter (λ entry, VitalityEntry.date entry
                              = DayData.dateString dayData)
               vitalityEntries)
            vitalityBonuses))
      (DayData.isCurrentMonth dayData) (DayData.activities dayData)
  else dayData.

(** What [loadMonthData] makes of the records of the range. *)
Definition month_data (getDateString : Z → string) (isSameMonth : Z → bool)
    (calendarDays : list Z) (categories : list ActivityCategory.t)
    (vitalityBonuses : list VitalityBonus.t)
    (activities : list ActivityLog.t) (vitalityEntries : list VitalityEntry.t)
  : list DayData.t :=
  let initialised :=
    foldl (λ dayDataMap day,
             let dateString := getDateString day in
             JsMap.set dateString
               (DayData.mk day dateString 0%Q (isSameMonth day) [])
               dayDataMap)
      JsMap.empty calendarDays in
  let grouped :=
    foldl (λ dayDataMap activity,
             match JsMap.get (ActivityLog.date activity) dayDataMap with
             | Some dayData =>
               JsMap.mk (<[ActivityLog.date activity := push activity dayData]>
                           (JsMap.entries dayDataMap))
                 (JsMap.keys dayDataMap)
             | None => dayDataMap
             end)
      initialised activities in
  let scored :=
    JsMap.mk (score categories vitalityEntries vitalityBonuses
                <$> JsMap.entries grouped)
      (JsMap.keys grouped) in
  JsMap.values scored.

(** [loadMonthData]: [monthData] is the state it sets; [addDays] is the
    helper of date-fns, a parameter as [getDateString] is. *)
Definition loadMonthData (getDateString : Z → string)
    (isSameMonth : Z → bool) (addDays : Z → Z → Z) (calendarStart : Z)
    (categories : list ActivityCategory.t)
    (vitalityBonuses : list VitalityBonus.t) (monthData : list DayData.t)
    (this : DatabaseManager DatabaseV1.IDB.t)
  : list DayData.t * DatabaseManager DatabaseV1.IDB.t :=
  let calendarDays := addDays calendarStart <$> seqZ 0%Z 42%Z in
  let startDate := getDateString calendarStart in
  let endDate := getDateString (addDays calendarStart 41%Z) in
  match await (DatabaseV1.getActivitiesInRange startDate endDate)
          (λ activities,
             await (DatabaseV1.getVitalityEntriesInRange startDate endDate)
               (λ vitalityEntries, resolve (activities, vitalityEntries)))
          this with
  | (Resolved (activities, vitalityEntries), this') =>
    (month_data getDateString isSameMonth calendarDays categories
       vitalityBonuses activities vitalityEntries, this')
  | (Rejected _, this') => (monthData, this')
  end.

(** The day of the calendar that [month_data] should give for [day]. *)
Definition day_of (getDateString : Z → string) (isSameMonth : Z → bool)
    (categories : list ActivityCategory.t)
    (vitalityBonuses : list VitalityBonus.t)
    (activities : list ActivityLog.t) (vitalityEntries : list VitalityEntry.t)
    (day : Z) : DayData.t :=
  let dateString := getDateString day in
  let dayActivities :=
    filter (λ a, ActivityLog.date a = dateString) activities in
  DayData.mk day dateString
    (match dayActivities with
     | [] => 0%Q
     | _ =>
       DailyMetrics.totalScore
         (calculateDailyMetrics dayActivities categories
            (filter (λ e, VitalityEntry.date e = dateString) vitalityEntries)
            vitalityBonuses)
     end)
    (isSameMonth day) dayActivities.

End MonthlyOverview.

(** ** The vitality checklist ([VitalityChecklist.tsx]) *)

Module VitalityChecklist.

(** The set that the effect on [entries] puts in [completedBonuses]. *)
Definition completedBonuses (entries : list VitalityEntry.t) : gset string :=
  list_to_set
    (VitalityEntry.bonusId
       <$> filter (λ entry, VitalityEntry.completed entry = true) entries).

(** The update of [completedBonuses] in [handleToggle]. *)
Definition handleToggle (bonusId : string) (checked : bool)
    (prev : gset string) : gset string :=
  if checked then {[bonusId]} ∪ prev else prev ∖ {[bonusId]}.

Definition totalPossiblePoints (bonuses : list VitalityBonus.t) : Q :=
  foldl (λ sum bonus, sum + VitalityBonus.points bonus)%Q 0%Q bonuses.

Definition earnedPoints (bonuses : list VitalityBonus.t)
    (completedBonuses : gset string) : Q :=
  foldl (λ sum bonus, sum + VitalityBonus.points bonus)%Q 0%Q
    (filter (λ bonus, VitalityBonus.id bonus ∈ completedBonuses) bonuses).

End VitalityChecklist.


(** ** The daily goals page ([DailyGoals.tsx]) *)

(** [Math.min] on two numbers. *)
Definition Math_min (x y : Q) : Q := if Qgtb x y then y else x.

Module GoalProgress.
Record t := mk {
  goal : DailyGoal.t;
  category : option ActivityCategory.t;
  actualMinutes : Q;
  progressPercentage : Q }.
End GoalProgress.

(** The page keeps its goals in [localStorage] under the key ['dailyGoals'],
    as the JSON text of an array: [storage] is that array, empty when the
    key is absent.  The division by [targetMinutes] is that of the
    rationals, which is the one of the code when the target is not 0. *)
Module DailyGoals.
Local Open Scope Q_scope.

Record State := mkState {
  categories : list ActivityCategory.t;
  goals : list DailyGoal.t;
  goalProgress : list GoalProgress.t;
  selectedDate : Z;
  toasts : list string;
  storage : list DailyGoal.t }.

(** The body of [todaysGoals.map(goal => ...)] in [loadData]. *)
Definition progress_of (categoriesData : list ActivityCategory.t)
    (activities : list ActivityLog.t) (goal : DailyGoal.t) : GoalProgress.t :=
  let category :=
    find (λ cat, bool_decide (ActivityCategory.id cat
                              = DailyGoal.categoryId goal)) categoriesData in
  let actualMinutes :=
    foldl (λ sum activity, sum + ActivityLog.duration activity) 0
      (filter (λ activity, ActivityLog.categoryId activity
                           = DailyGoal.categoryId goal) activities)
    / 60000 in
  GoalProgress.mk goal category actualMinutes
    (Math_min (actualMinutes / DailyGoal.targetMinutes goal * 100) 100).

Definition loadData (getDateString : Z → string) (st : State)
    (this : DatabaseManager DatabaseV1.IDB.t)
  : State * DatabaseManager DatabaseV1.IDB.t :=
  match DatabaseV1.getCategories this with
  | (Rejected _, this') => (st, this')
  | (Resolved categoriesData, this') =>
    let dateString := getDateString (selectedDate st) in
    let storedGoals := storage st in
    let todaysGoals :=
      filter (λ goal, DailyGoal.date goal = dateString) storedGoals in
    match DatabaseV1.getActivitiesByDate dateString this' with
    | (Rejected _, this'') =>
      (mkState categoriesData todaysGoals (goalProgress st)
         (selectedDate st) (toasts st) (storage st), this'')
    | (Resolved activities, this'') =>
      (mkState categoriesData todaysGoals
         (progress_of categoriesData activities <$> todaysGoals)
         (selectedDate st) (toasts st) (storage st), this'')
    end
  end.

Definition saveGoals (getDateString : Z → string)
    (updatedGoals : list DailyGoal.t) (st : State)
    (this : DatabaseManager DatabaseV1.IDB.t)
  : State * DatabaseManager DatabaseV1.IDB.t :=
  let allGoals := storage st in
  let dateString := getDateString (selectedDate st) in
  let otherGoals :=
    filter (λ goal, DailyGoal.date goal ≠ dateString) allGoals in
  let newGoals := otherGoals ++ updatedGoals in
  loadData getDateString
    (mkState (categories st) updatedGoals (goalProgress st)
       (selectedDate st) (toasts st) newGoals)
    this.

Definition toast (title : string) (st : State) : State :=
  mkState (categories st) (goals st) (goalProgress st) (selectedDate st)
    (toasts st ++ [title]) (storage st).

Definition addGoal (getDateString : Z → string) (uuid : string)
    (categoryId : string) (st : State)
    (this : DatabaseManager DatabaseV1.IDB.t)
  : State * DatabaseManager DatabaseV1.IDB.t :=
  let dateString := getDateString (selectedDate st) in
  let newGoal := DailyGoal.mk uuid dateString categoryId 60 in
  let updatedGoals := goals st ++ [newGoal] in
  let '(st', this') := saveGoals getDateString updatedGoals st this in
  (toast "Goal Added" st', this').

Definition updateGoal (getDateString : Z → string) (goalId : string)
    (targetMinutes : Q) (st : State)
    (this : DatabaseManager DatabaseV1.IDB.t)
  : State * DatabaseManager DatabaseV1.IDB.t :=
  let updatedGoals :=
    (λ goal,
       if bool_decide (DailyGoal.id goal = goalId)
       then DailyGoal.mk (DailyGoal.id goal) (DailyGoal.date goal)
              (DailyGoal.categoryId goal) targetMinutes
       else goal) <$> goals st in
  let '(st', this') := saveGoals getDateString updatedGoals st this in
  (toast "Goal Updated" st', this').

Definition removeGoal (getDateString : Z → string) (goalId : string)
    (st : State) (this : DatabaseManager DatabaseV1.IDB.t)
  : State * DatabaseManager DatabaseV1.IDB.t :=
  let updatedGoals :=
    filter (λ goal, DailyGoal.id goal ≠ goalId) (goals st) in
  let '(st', this') := saveGoals getDateString updatedGoals st this in
  (toast "Goal Removed" st', this').

Definition availableCategories (st : State) : list ActivityCategory.t :=
  filter (λ cat, ¬ Exists (λ goal, DailyGoal.categoryId goal
                                   = ActivityCategory.id cat) (goals st))
    (categories st).

(** The goals shown are those that the storage holds for the selected
    date. *)
Definition in_sync (getDateString : Z → string) (st : State) : Prop :=
  goals st
  = filter (λ goal, DailyGoal.date goal = getDateString (selectedDate st))
      (storage st).

End DailyGoals.

Definition sample_goals_page : DailyGoals.State :=
  DailyGoals.mkState defaultCategories [sample_goal] [] 0 []
    [sample_goal; DailyGoal.mk "g0" "2023-11-13" "deep-work" 120].

(** * Properties *)

(** ** Comparisons *)

Lemma Qgtb_true x y : Qgtb x y = true ↔ (y < x)%Q.
Proof.
  unfold Qgtb. rewrite (Qgt_alt x y).
  destruct (x ?= y)%Q; split; congruence.
Qed.

Lemma Qgtb_false x y : Qgtb x y = false ↔ (x <= y)%Q.
Proof.
  unfold Qgtb. rewrite (Qle_alt x y).
  destruct (x ?= y)%Q; split; congruence.
Qed.

Lemma Qgeb_true x y : Qgeb x y = true ↔ (y <= x)%Q.
Proof.
  unfold Qgeb. rewrite (Qge_alt x y).
  destruct (x ?= y)%Q; split; congruence.
Qed.

Lemma Qgeb_false x y : Qgeb x y = false ↔ (x < y)%Q.
Proof.
  unfold Qgeb. rewrite (Qlt_alt x y).
  destruct (x ?= y)%Q; split; congruence.
Qed.

(** ** Lookup in a JavaScript [Map] built from a list *)

Section JsMap.
Context {A : Type} (key : A → string).

Lemma js_map_fold_None (xs : list A) (m : gmap string A) (k : string) :
  foldl (λ m x, <[key x := x]> m) m xs !! k = None
  ↔ m !! k = None ∧ ∀ x, x ∈ xs → key x ≠ k.
Proof.
  revert m. induction xs as [|x xs IH]; intros m; simpl.
  - split; [intros H; split; [done|] | tauto].
    intros x Hx. inversion Hx.
  - rewrite IH. rewrite lookup_insert_None. split.
    + intros [[Hm Hk] Hxs]. split; [done|].
      intros y [->|Hy]%elem_of_cons; auto.
    + intros [Hm Hxs]. split; [split; [done|]|].
      * apply Hxs. left.
      * intros y Hy. apply Hxs. now right.
Qed.

Lemma js_map_of_None (xs : list A) (k : string) :
  js_map_of key xs !! k = None ↔ ∀ x, x ∈ xs → key x ≠ k.
Proof.
  unfold js_map_of. rewrite js_map_fold_None. rewrite lookup_empty. tauto.
Qed.

Lemma js_map_fold_Some (xs : list A) (m : gmap string A) (k : string) x :
  foldl (λ m x, <[key x := x]> m) m xs !! k = Some x →
  m !! k = Some x ∨ (x ∈ xs ∧ key x = k).
Proof.
  revert m. induction xs as [|y xs IH]; intros m; simpl; [auto|].
  intros [H|[H1 H2]]%IH.
  - apply lookup_insert_Some in H as [[<- <-]|[_ H]]; [right|by left].
    split; [left|done].
  - right. split; [by right|done].
Qed.

Lemma js_map_of_Some (xs : list A) (k : string) x :
  js_map_of key xs !! k = Some x → x ∈ xs ∧ key x = k.
Proof.
  intros [H|H]%js_map_fold_Some; [|done]. by rewrite lookup_empty in H.
Qed.
End JsMap.

(** ** The metrics engine *)

Section MetricsProperties.
Local Open Scope Q_scope.

Implicit Types (activities : list ActivityLog.t)
  (categories : list ActivityCategory.t)
  (vitalityEntries : list VitalityEntry.t)
  (vitalityBonuses : list VitalityBonus.t).

(** *** Records whose reference dangles *)

Lemma activity_step_dangling categories acc activity :
  (∀ c, c ∈ categories →
        ActivityCategory.id c ≠ ActivityLog.categoryId activity) →
  activity_step (js_map_of ActivityCategory.id categories) acc activity = acc.
Proof.
  intros H. unfold activity_step.
  by rewrite (proj2 (js_map_of_None _ _ _) H).
Qed.

Lemma vitality_step_dangling vitalityBonuses score entry :
  (∀ b, b ∈ vitalityBonuses →
        VitalityBonus.id b ≠ VitalityEntry.bonusId entry) →
  vitality_step (js_map_of VitalityBonus.id vitalityBonuses) score entry
  = score.
Proof.
  intros H. unfold vitality_step.
  rewrite (proj2 (js_map_of_None _ _ _) H). by destruct VitalityEntry.completed.
Qed.

(** C2. The engine is a total function of its four lists (it has a result
    for every input, no division is evaluated unless the time logged is
    positive), and a record with a dangling reference is skipped: an
    activity whose [categoryId] is the id of no category of the input leaves
    every accumulator of the loop as it was, so the metrics are those of
    the input without it, wherever it stands in the list; likewise for a
    vitality entry whose [bonusId] is the id of no bonus of the input. *)
Theorem dangling_references_skipped categories vitalityBonuses :
  (∀ activity,
     (∀ c, c ∈ categories →
           ActivityCategory.id c ≠ ActivityLog.categoryId activity) →
     (∀ acc,
        activity_step (js_map_of ActivityCategory.id categories) acc activity
        = acc)
     ∧ ∀ activities1 activities2 vitalityEntries,
         calculateDailyMetrics (activities1 ++ activity :: activities2)
           categories vitalityEntries vitalityBonuses
         = calculateDailyMetrics (activities1 ++ activities2)
             categories vitalityEntries vitalityBonuses)
  ∧ (∀ entry,
       (∀ b, b ∈ vitalityBonuses →
             VitalityBonus.id b ≠ VitalityEntry.bonusId entry) →
       (∀ score,
          vitality_step (js_map_of VitalityBonus.id vitalityBonuses) score
            entry = score)
       ∧ ∀ activities vitalityEntries1 vitalityEntries2,
           calculateDailyMetrics activities categories
             (vitalityEntries1 ++ entry :: vitalityEntries2) vitalityBonuses
           = calculateDailyMetrics activities categories
               (vitalityEntries1 ++ vitalityEntries2) vitalityBonuses).
Proof.
  split.
  - intros activity Hc. split.
    + intros acc. by apply activity_step_dangling.
    + intros activities1 activities2 vitalityEntries.
      unfold calculateDailyMetrics. rewrite !foldl_app. simpl.
      by rewrite activity_step_dangling by done.
  - intros entry Hb. split.
    + intros score. by apply vitality_step_dangling.
    + intros activities vitalityEntries1 vitalityEntries2.
      unfold calculateDailyMetrics. rewrite !foldl_app. simpl.
      by rewrite vitality_step_dangling by done.
Qed.

Lemma dangling_references_skipped_witness :
  calculateDailyMetrics
    ([scenarioA_activity] ++ dangling_activity :: [distraction_activity])
    defaultCategories [sleep_entry; dangling_entry] defaultVitalityBonuses
  = calculateDailyMetrics ([scenarioA_activity] ++ [distraction_activity])
      defaultCategories [sleep_entry; dangling_entry] defaultVitalityBonuses
  ∧ calculateDailyMetrics [scenarioA_activity; distraction_activity]
      defaultCategories ([sleep_entry] ++ dangling_entry :: [])
      defaultVitalityBonuses
    = calculateDailyMetrics [scenarioA_activity; distraction_activity]
        defaultCategories ([sleep_entry] ++ []) defaultVitalityBonuses.
Proof.
  destruct (dangling_references_skipped defaultCategories
              defaultVitalityBonuses) as [Ha He].
  split.
  - apply (Ha dangling_activity).
    apply (proj1 (js_map_of_None ActivityCategory.id defaultCategories
                    "archived")). reflexivity.
  - apply (He dangling_entry).
    apply (proj1 (js_map_of_None VitalityBonus.id defaultVitalityBonuses
                    "cold-shower")). reflexivity.
Defined.

(** *** Scenario A *)

(** C1. One activity of 120 minutes with stored points 6 and energy level
    High, whose category is named "Deep Work" and scores 3 points per hour,
    and no vitality entries: the total score is 6, the focus ratio 100, the
    distraction ratio 0, the throughput 3 and the High bucket of the
    energy/focus correlation holds the 120 minutes. *)
Theorem scenario_A activity category categories vitalityBonuses :
  js_map_of ActivityCategory.id categories
    !! ActivityLog.categoryId activity = Some category →
  ActivityCategory.name category = "Deep Work"%string →
  ActivityCategory.points category == 3 →
  ActivityLog.duration activity == 120 →
  ActivityLog.points activity == 6 →
  ActivityLog.energyLevel activity = High →
  let m := calculateDailyMetrics [activity] categories [] vitalityBonuses in
  DailyMetrics.totalScore m == 6
  ∧ DailyMetrics.focusRatio m == 100
  ∧ DailyMetrics.distractionRatio m == 0
  ∧ DailyMetrics.productivityThroughput m == 3
  ∧ EnergyFocus.high (DailyMetrics.energyFocusCorrelation m) == 120.
Proof.
  intros Hcat Hname _ Hdur Hpts Hen. unfold calculateDailyMetrics. simpl.
  unfold activity_step. rewrite Hcat, Hname, Hen. simpl.
  assert (Qgtb (0 + ActivityLog.duration activity) 0 = true) as ->
    by (apply Qgtb_true; rewrite Hdur; reflexivity).
  assert (Qgtb (ActivityLog.points activity) 0 = true) as ->
    by (apply Qgtb_true; rewrite Hpts; reflexivity).
  repeat split; rewrite ?Hdur, ?Hpts; reflexivity.
Qed.

Lemma scenario_A_witness :
  DailyMetrics.totalScore scenarioA_metrics == 6
  ∧ DailyMetrics.focusRatio scenarioA_metrics == 100
  ∧ DailyMetrics.distractionRatio scenarioA_metrics == 0
  ∧ DailyMetrics.productivityThroughput scenarioA_metrics == 3
  ∧ EnergyFocus.high (DailyMetrics.energyFocusCorrelation scenarioA_metrics)
    == 120.
Proof.
  apply (scenario_A scenarioA_activity deepWorkCategory defaultCategories
           defaultVitalityBonuses); reflexivity.
Defined.

(** *** Additivity of the total score *)

Lemma vitality_step_shift vitalityMap score entry :
  vitality_step vitalityMap score entry
  == score + vitality_step vitalityMap 0 entry.
Proof.
  unfold vitality_step.
  destruct (VitalityEntry.completed entry); [|ring].
  destruct (vitalityMap !! VitalityEntry.bonusId entry); ring.
Qed.



Lemma vitality_fold_shift vitalityMap vitalityEntries score :
  foldl (vitality_step vitalityMap) score vitalityEntries
  == score + foldl (vitality_step vitalityMap) 0 vitalityEntries.
Proof.
  revert score. induction vitalityEntries as [|e l IH]; intros score; simpl.
  - ring.
  - rewrite (IH (vitality_step vitalityMap score e)).
    rewrite (IH (vitality_step vitalityMap 0 e)).
    rewrite (vitality_step_shift vitalityMap score e). ring.
Qed.

Lemma omap_cons_eq {A B} (f : A → option B) (x : A) (l : list A) :
  omap f (x :: l)
  = match f x with Some y => y :: omap f l | None => omap f l end.
Proof. reflexivity. Qed.

Lemma vitality_fold_term vitalityEntries vitalityBonuses :
  foldl (vitality_step (js_map_of VitalityBonus.id vitalityBonuses)) 0
    vitalityEntries
  == vitalityScoreTerm vitalityEntries vitalityBonuses.
Proof.
  unfold vitalityScoreTerm.
  induction vitalityEntries as [|e l IH]; [done|].
  rewrite omap_cons_eq. cbn [foldl].
  rewrite vitality_fold_shift, IH. unfold vitality_step.
  destruct (VitalityEntry.completed e); [|ring].
  destruct (js_map_of VitalityBonus.id vitalityBonuses
              !! VitalityEntry.bonusId e); cbn [fmap option_fmap option_map sumQ];
    ring.
Qed.




(** *** Ratios *)

Lemma activity_step_times categoryMap acc activity :
  0 <= ActivityLog.duration activity →
  times_ok acc → times_ok (activity_step categoryMap acc activity).
Proof.
  intros Hd (H1 & H2 & H3). unfold times_ok, activity_step.
  destruct (categoryMap !! ActivityLog.categoryId activity) as [c|];
    [|done].
  destruct (String.eqb (ActivityCategory.name c) "Deep Work"); simpl;
    [repeat split; lra|].
  destruct (String.eqb (ActivityCategory.name c) "Distraction"); simpl;
    repeat split; lra.
Qed.

Lemma activity_fold_times categoryMap activities acc :
  Forall (λ a, 0 <= ActivityLog.duration a) activities →
  times_ok acc → times_ok (foldl (activity_step categoryMap) acc activities).
Proof.
  intros H. revert acc. induction H as [|a l Ha _ IH]; intros acc Hacc; simpl.
  - done.
  - apply IH. by apply activity_step_times.
Qed.

Lemma times_ok_acc0 : times_ok acc0.
Proof. unfold times_ok, acc0; simpl. repeat split; lra. Qed.

Lemma percentage_bounds (part total : Q) :
  0 <= part → part <= total → 0 < total →
  0 <= part / total * 100 ∧ part / total * 100 <= 100.
Proof.
  intros H0 H1 Ht.
  assert (0 <= part / total) as Hlo.
  { apply Qle_shift_div_l; [done|]. lra. }
  assert (part / total <= 1) as Hhi.
  { apply Qle_shift_div_r; [done|]. lra. }
  split; lra.
Qed.

(** C4. When no activity has a negative duration, the focus ratio and the
    distraction ratio both lie between 0 and 100, and both are 0 when the
    total time logged is 0. *)
Theorem ratio_bounds activities categories vitalityEntries vitalityBonuses :
  Forall (λ a, 0 <= ActivityLog.duration a) activities →
  let m := calculateDailyMetrics activities categories vitalityEntries
             vitalityBonuses in
  (0 <= DailyMetrics.focusRatio m ∧ DailyMetrics.focusRatio m <= 100)
  ∧ (0 <= DailyMetrics.distractionRatio m
     ∧ DailyMetrics.distractionRatio m <= 100)
  ∧ (DailyMetrics.totalTimeLogged m == 0 →
     DailyMetrics.focusRatio m = 0 ∧ DailyMetrics.distractionRatio m = 0).
Proof.
  intros Hdur.
  pose proof (activity_fold_times (js_map_of ActivityCategory.id categories)
                activities acc0 Hdur times_ok_acc0) as (H1 & H2 & H3).
  unfold calculateDailyMetrics. cbn zeta.
  cbn [DailyMetrics.focusRatio DailyMetrics.distractionRatio
       DailyMetrics.totalTimeLogged].
  set (acc := foldl _ acc0 activities) in *.
  destruct (Qgtb (Acc.totalTimeLogged acc) 0) eqn:Hpos.
  - apply Qgtb_true in Hpos. split; [|split].
    + apply percentage_bounds; [done| lra |done].
    + apply percentage_bounds; [done| lra |done].
    + intros Hz. lra.
  - split; [|split]; [lra | lra | done].
Qed.

Lemma ratio_bounds_witness :
  (0 <= DailyMetrics.focusRatio sample_day_metrics
   ∧ DailyMetrics.focusRatio sample_day_metrics <= 100)
  ∧ (0 <= DailyMetrics.distractionRatio sample_day_metrics
     ∧ DailyMetrics.distractionRatio sample_day_metrics <= 100)
  ∧ (DailyMetrics.totalTimeLogged sample_day_metrics == 0 →
     DailyMetrics.focusRatio sample_day_metrics = 0
     ∧ DailyMetrics.distractionRatio sample_day_metrics = 0).
Proof.
  apply (ratio_bounds [scenarioA_activity; distraction_activity]
           defaultCategories [sleep_entry] defaultVitalityBonuses).
  repeat constructor; simpl; lra.
Defined.



End MetricsProperties.

(** ** Calendar colouring *)

Section ScoreColorProperties.
Local Open Scope Q_scope.

Ltac score_cases :=
  repeat match goal with
    | |- context [Qgeb ?s ?c] =>
      let E := fresh "E" in
      destruct (Qgeb s c) eqn:E;
      [apply Qgeb_true in E | apply Qgeb_false in E]
    | |- context [Qgtb ?s ?c] =>
      let E := fresh "E" in
      destruct (Qgtb s c) eqn:E;
      [apply Qgtb_true in E | apply Qgtb_false in E]
    end.

(** C9. The colour of a day is a total, monotone step function of its
    score: every score gets exactly one of the six tiers, and a score that
    is not smaller gets a tier that is not lower, in the order no activity,
    very low, low, medium, high, very high. *)
Theorem getScoreColor_total_monotone (s1 s2 : Q) :
  s1 <= s2 →
  ∃ t1 t2,
    color_tier (getScoreColor s1) = Some t1
    ∧ color_tier (getScoreColor s2) = Some t2
    ∧ (tier_rank t1 ≤ tier_rank t2)%nat.
Proof.
  intros Hle. unfold getScoreColor. score_cases;
    (eexists _, _; split; [reflexivity|]; split; [reflexivity|]; simpl;
     first [lia | exfalso; lra]).
Qed.

Lemma getScoreColor_total_monotone_witness :
  ∃ t1 t2,
    color_tier (getScoreColor 3) = Some t1
    ∧ color_tier (getScoreColor 17) = Some t2
    ∧ (tier_rank t1 ≤ tier_rank t2)%nat.
Proof.
  apply (getScoreColor_total_monotone 3 17). vm_compute. discriminate.
Defined.

Lemma getScoreColor_total (s : Q) :
  ∃ t, color_tier (getScoreColor s) = Some t.
Proof.
  unfold getScoreColor. score_cases; eexists; reflexivity.
Qed.

Lemma getScoreOpacity_total_monotone (s1 s2 : Q) :
  s1 <= s2 →
  ∃ t1 t2,
    opacity_tier (getScoreOpacity s1) = Some t1
    ∧ opacity_tier (getScoreOpacity s2) = Some t2
    ∧ (tier_rank t1 ≤ tier_rank t2)%nat.
Proof.
  intros Hle. unfold getScoreOpacity. score_cases;
    (eexists _, _; split; [reflexivity|]; split; [reflexivity|]; simpl;
     first [lia | exfalso; lra]).
Qed.

(** Colour and opacity of a score stand for the same tier. *)
Lemma color_opacity_agree (s : Q) :
  color_tier (getScoreColor s) = opacity_tier (getScoreOpacity s).
Proof.
  unfold getScoreColor, getScoreOpacity. score_cases; reflexivity.
Qed.

End ScoreColorProperties.

(** ** Requests on an object store *)

Section RequestProperties.
Context {D T : Type} (store : ObjectStore D T) `{!StoreLaws store}.

Lemma request_add_duplicate (d : D) (data : T) :
  is_Some (records store d !! keyPath store data) →
  request_add store data {| db := Some d |}
  = (Rejected ConstraintError, {| db := Some d |}).
Proof.
  intros [r Hr]. unfold request_add, with_db. simpl. by rewrite Hr.
Qed.

Lemma request_add_fresh (d : D) (data : T) :
  records store d !! keyPath store data = None →
  request_add store data {| db := Some d |}
  = (Resolved tt,
     {| db := Some (with_records store
                      (<[keyPath store data := data]> (records store d)) d) |}).
Proof.
  intros Hr. unfold request_add, with_db. simpl. by rewrite Hr.
Qed.

Lemma request_put_spec (d : D) (data : T) :
  request_put store data {| db := Some d |}
  = (Resolved tt,
     {| db := Some (with_records store
                      (<[keyPath store data := data]> (records store d)) d) |}).
Proof. reflexivity. Qed.

Lemma request_not_initialized_add (data : T) :
  request_add store data {| db := None |}
  = (Rejected NotInitialized, {| db := None |}).
Proof. reflexivity. Qed.

Lemma request_not_initialized_put (data : T) :
  request_put store data {| db := None |}
  = (Rejected NotInitialized, {| db := None |}).
Proof. reflexivity. Qed.

Lemma for_of_put (xs : list T) (d : D) :
  for_of xs (request_put store) {| db := Some d |}
  = (Resolved tt,
     {| db := Some (with_records store (put_all store xs (records store d)) d) |}).
Proof.
  revert d. induction xs as [|x xs IH]; intros d; simpl.
  - unfold resolve. by rewrite with_records_records.
  - unfold await. rewrite request_put_spec, IH.
    by rewrite records_with_records, with_records_twice.
Qed.

Lemma for_of_add (xs : list T) (d : D) :
  NoDup (keyPath store <$> xs) →
  (∀ x, x ∈ xs → records store d !! keyPath store x = None) →
  for_of xs (request_add store) {| db := Some d |}
  = (Resolved tt,
     {| db := Some (with_records store (put_all store xs (records store d)) d) |}).
Proof.
  revert d. induction xs as [|x xs IH]; intros d Hnd Hfresh; simpl.
  - unfold resolve. by rewrite with_records_records.
  - apply NoDup_cons in Hnd as [Hx Hnd].
    unfold await. rewrite request_add_fresh by (apply Hfresh; left).
    rewrite IH; [|done|].
    + by rewrite records_with_records, with_records_twice.
    + intros y Hy. rewrite records_with_records.
      rewrite lookup_insert_ne; [apply Hfresh; by right|].
      intros Heq. apply Hx. rewrite Heq. by apply list_elem_of_fmap_2.
Qed.

Lemma put_all_snoc (xs : list T) (x : T) (m : gmap string T) :
  put_all store (xs ++ [x]) m = <[keyPath store x := x]> (put_all store xs m).
Proof. unfold put_all. by rewrite foldl_app. Qed.

(** Putting back the records a store holds changes nothing, whether into
    the store itself or into an empty one. *)
Lemma put_all_restore (m m0 : gmap string T) :
  (∀ k r, m !! k = Some r → keyPath store r = k) →
  m0 ⊆ m →
  put_all store (map_to_list m).*2 m0 = m.
Proof.
  intros Hkeyed Hsub.
  assert (∀ x, x ∈ (map_to_list m).*2 ↔ m !! keyPath store x = Some x)
    as Hvals.
  { intros x. rewrite list_elem_of_fmap. split.
    - intros [[k r] [-> Hkr%elem_of_map_to_list]]. simpl.
      by rewrite (Hkeyed _ _ Hkr).
    - intros Hx. exists (keyPath store x, x). split; [done|].
      by apply elem_of_map_to_list. }
  apply map_eq. intros k. unfold put_all.
  destruct (m !! k) as [v|] eqn:Hk.
  - destruct (foldl _ m0 _ !! k) as [w|] eqn:Hf.
    + apply js_map_fold_Some in Hf as [Hw|[Hw Hkw]].
      * rewrite <- Hk. symmetry. eapply lookup_weaken; eauto.
      * apply Hvals in Hw. rewrite Hkw in Hw. congruence.
    + apply js_map_fold_None in Hf as [_ Hf].
      exfalso. apply (Hf v); [|by apply Hkeyed].
      apply Hvals. by rewrite (Hkeyed _ _ Hk).
  - apply js_map_fold_None. split.
    + destruct (m0 !! k) as [w|] eqn:Hw; [|done].
      eapply lookup_weaken in Hw; eauto. congruence.
    + intros x Hx%Hvals Heq. rewrite Heq in Hx. congruence.
Qed.

(** With distinct keys, the store filled from a list holds the elements of
    the list and nothing else. *)
Lemma put_all_values (xs : list T) :
  NoDup (keyPath store <$> xs) →
  (map_to_list (put_all store xs ∅)).*2 ≡ₚ xs.
Proof.
  induction xs as [|x xs IH] using rev_ind; intros Hnd.
  - unfold put_all. simpl. by rewrite map_to_list_empty.
  - rewrite fmap_app in Hnd. apply NoDup_app in Hnd as (Hnd & Hx & _).
    rewrite put_all_snoc. rewrite map_to_list_insert.
    + rewrite fmap_cons. simpl. rewrite IH by done.
      by rewrite Permutation_app_comm.
    + apply js_map_fold_None. split; [apply lookup_empty|].
      intros y Hy Heq. apply (Hx (keyPath store y)).
      * by apply list_elem_of_fmap_2.
      * rewrite Heq. simpl. left.
Qed.

End RequestProperties.

(** ** Seeding one store with its defaults *)

Section Seeding.
Context {D T : Type} (store : ObjectStore D T) `{!StoreLaws store}.

Lemma await_resolved {A B} (p : Promise D A) (k : A → Promise D B)
    this a this' :
  p this = (Resolved a, this') → await p k this = k a this'.
Proof. intros H. unfold await. by rewrite H. Qed.

Lemma seed_branch_add (defaults : list T) (d : D) :
  NoDup (keyPath store <$> defaults) →
  (if Nat.eqb (size (records store d)) 0
   then for_of defaults (request_add store) else resolve tt)
    {| db := Some d |}
  = (Resolved tt, {| db := Some (seed_store store defaults d) |}).
Proof.
  intros Hnd. unfold seed_store.
  destruct (Nat.eqb (size (records store d)) 0) eqn:Hsz; [|done].
  apply Nat.eqb_eq, map_size_empty_iff in Hsz.
  rewrite for_of_add; [|done|done|].
  - by rewrite Hsz.
  - intros x _. rewrite Hsz. apply lookup_empty.
Qed.

Lemma seed_branch_put (defaults : list T) (d : D) :
  (if Nat.eqb (size (records store d)) 0
   then for_of defaults (request_put store) else resolve tt)
    {| db := Some d |}
  = (Resolved tt, {| db := Some (seed_store store defaults d) |}).
Proof.
  unfold seed_store.
  destruct (Nat.eqb (size (records store d)) 0) eqn:Hsz; [|done].
  apply Nat.eqb_eq, map_size_empty_iff in Hsz.
  rewrite for_of_put; [|done]. by rewrite Hsz.
Qed.

Lemma seed_store_empty (defaults : list T) (d : D) :
  records store d = ∅ →
  seed_store store defaults d
  = with_records store (js_map_of (keyPath store) defaults) d.
Proof. intros H. unfold seed_store. by rewrite H, map_size_empty. Qed.

Lemma seed_store_nonempty (defaults : list T) (d : D) :
  records store d ≠ ∅ → seed_store store defaults d = d.
Proof.
  intros H. unfold seed_store.
  destruct (Nat.eqb (size (records store d)) 0) eqn:Hsz; [|done].
  by apply Nat.eqb_eq, map_size_empty_iff in Hsz.
Qed.

Lemma js_map_of_nonempty (x : T) (xs : list T) :
  js_map_of (keyPath store) (x :: xs) ≠ ∅.
Proof.
  intros H.
  assert (js_map_of (keyPath store) (x :: xs) !! keyPath store x = None)
    as Hn by (rewrite H; apply lookup_empty).
  apply (proj1 (js_map_of_None _ _ _) Hn x); [left | done].
Qed.

Lemma seed_store_records_nonempty (x : T) (xs : list T) (d : D) :
  records store (seed_store store (x :: xs) d) ≠ ∅.
Proof.
  unfold seed_store.
  destruct (Nat.eqb (size (records store d)) 0) eqn:Hsz.
  - rewrite records_with_records. apply js_map_of_nonempty.
  - intros H. apply map_size_empty_iff in H. rewrite H in Hsz. done.
Qed.

End Seeding.

(** ** The store, schema version 1 *)

#[global] Instance v1_categoriesStore_laws :
  StoreLaws DatabaseV1.categoriesStore.
Proof. split; intros; try destruct d; reflexivity. Qed.
#[global] Instance v1_vitalityStore_laws : StoreLaws DatabaseV1.vitalityStore.
Proof. split; intros; try destruct d; reflexivity. Qed.
#[global] Instance v1_activitiesStore_laws :
  StoreLaws DatabaseV1.activitiesStore.
Proof. split; intros; try destruct d; reflexivity. Qed.
#[global] Instance v1_vitalityEntriesStore_laws :
  StoreLaws DatabaseV1.vitalityEntriesStore.
Proof. split; intros; try destruct d; reflexivity. Qed.

Section DatabaseV1Properties.
Import DatabaseV1.

Lemma defaultCategories_ids_NoDup :
  NoDup (ActivityCategory.id <$> defaultCategories).
Proof. apply (bool_decide_unpack _). by vm_compute. Qed.

Lemma defaultVitalityBonuses_ids_NoDup :
  NoDup (VitalityBonus.id <$> defaultVitalityBonuses).
Proof. apply (bool_decide_unpack _). by vm_compute. Qed.

(** *** Seeding *)

Lemma initializeDefaultData_v1_seeds (d : IDB.t) :
  initializeDefaultData {| db := Some d |}
  = (Resolved tt,
     {| db := Some (seed_store vitalityStore defaultVitalityBonuses
                      (seed_store categoriesStore defaultCategories d)) |}).
Proof.
  unfold initializeDefaultData.
  rewrite (await_resolved _ _ _ tt {| db := Some d |}) by reflexivity.
  rewrite (await_resolved _ _ _ (size (IDB.categories d))
             {| db := Some d |}) by reflexivity.
  erewrite await_resolved
    by apply (seed_branch_add categoriesStore), defaultCategories_ids_NoDup.
  erewrite await_resolved by reflexivity.
  apply (seed_branch_add vitalityStore), defaultVitalityBonuses_ids_NoDup.
Qed.

Lemma initializeDefaultData_v1_not_initialized :
  initializeDefaultData {| db := None |}
  = (Rejected NotInitialized, {| db := None |}).
Proof. reflexivity. Qed.

Lemma initializeDefaultData_v1_empty (d : IDB.t) :
  IDB.categories d = ∅ → IDB.vitality d = ∅ →
  initializeDefaultData {| db := Some d |}
  = (Resolved tt,
     {| db := Some (IDB.mk (js_map_of ActivityCategory.id defaultCategories)
                      (js_map_of VitalityBonus.id defaultVitalityBonuses)
                      (IDB.activities d) (IDB.vitalityEntries d)
                      (IDB.goals d) (IDB.metrics d)) |}).
Proof.
  intros Hc Hv. rewrite initializeDefaultData_v1_seeds.
  rewrite (seed_store_empty categoriesStore) by done.
  by rewrite (seed_store_empty vitalityStore) by done.
Qed.

Lemma initializeDefaultData_v1_nonempty (d : IDB.t) :
  IDB.categories d ≠ ∅ → IDB.vitality d ≠ ∅ →
  initializeDefaultData {| db := Some d |}
  = (Resolved tt, {| db := Some d |}).
Proof.
  intros Hc Hv. rewrite initializeDefaultData_v1_seeds.
  rewrite (seed_store_nonempty categoriesStore) by done.
  by rewrite (seed_store_nonempty vitalityStore) by done.
Qed.

Lemma initializeDefaultData_v1_twice (d : IDB.t) :
  ∃ d', initializeDefaultData {| db := Some d |}
        = (Resolved tt, {| db := Some d' |})
        ∧ initializeDefaultData {| db := Some d' |}
          = (Resolved tt, {| db := Some d' |}).
Proof.
  eexists. split; [apply initializeDefaultData_v1_seeds|].
  apply initializeDefaultData_v1_nonempty.
  - pose proof (seed_store_records_nonempty categoriesStore
                  (ActivityCategory.mk "deep-work" "Deep Work" 3 "#3B82F6"
                     "Focused, cognitively demanding work")
                  (tail defaultCategories) d) as H.
    unfold seed_store at 1.
    by destruct (Nat.eqb (size (records vitalityStore _)) 0).
  - apply (seed_store_records_nonempty vitalityStore
             (VitalityBonus.mk "sleep" "Quality Sleep" 5
                "7+ hours of restful sleep")
             (tail defaultVitalityBonuses)).
Qed.

(** *** Insertion *)

Lemma addActivity_v1 (d : IDB.t) (activity : ActivityLog.t) :
  (is_Some (IDB.activities d !! ActivityLog.id activity) →
   addActivity activity {| db := Some d |}
   = (Rejected ConstraintError, {| db := Some d |}))
  ∧ (IDB.activities d !! ActivityLog.id activity = None →
     addActivity activity {| db := Some d |}
     = (Resolved tt,
        {| db := Some (IDB.mk (IDB.categories d) (IDB.vitality d)
                         (<[ActivityLog.id activity := activity]>
                            (IDB.activities d))
                         (IDB.vitalityEntries d) (IDB.goals d)
                         (IDB.metrics d)) |})).
Proof.
  split; intros H.
  - by apply (request_add_duplicate activitiesStore).
  - by apply (request_add_fresh activitiesStore).
Qed.

Lemma addCategory_v1 (d : IDB.t) (category : ActivityCategory.t) :
  (is_Some (IDB.categories d !! ActivityCategory.id category) →
   addCategory category {| db := Some d |}
   = (Rejected ConstraintError, {| db := Some d |}))
  ∧ (IDB.categories d !! ActivityCategory.id category = None →
     addCategory category {| db := Some d |}
     = (Resolved tt,
        {| db := Some (IDB.mk
                         (<[ActivityCategory.id category := category]>
                            (IDB.categories d))
                         (IDB.vitality d) (IDB.activities d)
                         (IDB.vitalityEntries d) (IDB.goals d)
                         (IDB.metrics d)) |})).
Proof.
  split; intros H.
  - by apply (request_add_duplicate categoriesStore).
  - by apply (request_add_fresh categoriesStore).
Qed.

Lemma addVitalityEntry_v1 (d : IDB.t) (entry : VitalityEntry.t) :
  (is_Some (IDB.vitalityEntries d !! VitalityEntry.id entry) →
   addVitalityEntry entry {| db := Some d |}
   = (Rejected ConstraintError, {| db := Some d |}))
  ∧ (IDB.vitalityEntries d !! VitalityEntry.id entry = None →
     addVitalityEntry entry {| db := Some d |}
     = (Resolved tt,
        {| db := Some (IDB.mk (IDB.categories d) (IDB.vitality d)
                         (IDB.activities d)
                         (<[VitalityEntry.id entry := entry]>
                            (IDB.vitalityEntries d))
                         (IDB.goals d) (IDB.metrics d)) |})).
Proof.
  split; intros H.
  - by apply (request_add_duplicate vitalityEntriesStore).
  - by apply (request_add_fresh vitalityEntriesStore).
Qed.

(** *** Clearing *)

Lemma clearAllData_v1 (d : IDB.t) :
  clearAllData {| db := Some d |}
  = (Resolved tt,
     {| db := Some (IDB.mk (IDB.categories d) (IDB.vitality d) ∅ ∅ ∅ ∅) |}).
Proof. reflexivity. Qed.

Lemma clearAllData_v1_not_initialized :
  clearAllData {| db := None |} = (Rejected NotInitialized, {| db := None |}).
Proof. reflexivity. Qed.

(** *** Export and import *)

Lemma exportData_v1 (now : string) (d : IDB.t) :
  exportData now {| db := Some d |}
  = (Resolved
       (ExportData.mk (map_to_list (IDB.categories d)).*2
          (map_to_list (IDB.vitality d)).*2
          (map_to_list (IDB.activities d)).*2
          (map_to_list (IDB.vitalityEntries d)).*2 now),
     {| db := Some d |}).
Proof. reflexivity. Qed.

Lemma importAll_puts (snapshot : ExportData.t) (d : IDB.t) :
  importAll snapshot {| db := Some d |}
  = (Resolved tt,
     {| db := Some
          (IDB.mk
             (put_all categoriesStore (ExportData.categories snapshot)
                (IDB.categories d))
             (put_all vitalityStore (ExportData.vitality snapshot)
                (IDB.vitality d))
             (put_all activitiesStore (ExportData.activities snapshot)
                (IDB.activities d))
             (put_all vitalityEntriesStore
                (ExportData.vitalityEntries snapshot)
                (IDB.vitalityEntries d))
             (IDB.goals d) (IDB.metrics d)) |}).
Proof.
  unfold importAll.
  erewrite await_resolved by apply (for_of_put categoriesStore).
  erewrite await_resolved by apply (for_of_put vitalityStore).
  erewrite await_resolved by apply (for_of_put activitiesStore).
  rewrite (for_of_put vitalityEntriesStore). reflexivity.
Qed.

Lemma put_all_keyed {T} (store : ObjectStore IDB.t T) (xs : list T)
    (m : gmap string T) :
  map_Forall (λ k r, keyPath store r = k) m →
  map_Forall (λ k r, keyPath store r = k) (put_all store xs m).
Proof.
  revert m. induction xs as [|x xs IH]; intros m Hm; simpl; [done|].
  apply IH. by apply map_Forall_insert_2.
Qed.


Lemma importAll_export_created (now : string) (d : IDB.t) snapshot :
  keyed categoriesStore d → keyed vitalityStore d →
  keyed activitiesStore d → keyed vitalityEntriesStore d →
  exportData now {| db := Some d |} = (Resolved snapshot, {| db := Some d |}) →
  importAll snapshot {| db := Some created |}
  = (Resolved tt,
     {| db := Some (IDB.mk (IDB.categories d) (IDB.vitality d)
                      (IDB.activities d) (IDB.vitalityEntries d) ∅ ∅) |}).
Proof.
  intros Hc Hv Ha He Hex. rewrite exportData_v1 in Hex.
  injection Hex as <-. rewrite importAll_puts. simpl.
  rewrite (put_all_restore categoriesStore (IDB.categories d) ∅ Hc (map_empty_subseteq _)).
  rewrite (put_all_restore vitalityStore (IDB.vitality d) ∅ Hv (map_empty_subseteq _)).
  rewrite (put_all_restore activitiesStore (IDB.activities d) ∅ Ha (map_empty_subseteq _)).
  by rewrite (put_all_restore vitalityEntriesStore (IDB.vitalityEntries d) ∅ He
                (map_empty_subseteq _)).
Qed.

(** *** What every database made by the manager satisfies *)

Lemma well_formed_created : well_formed created.
Proof.
  unfold well_formed, keyed. simpl.
  repeat split; try done; apply map_Forall_empty.
Qed.

Lemma js_map_of_keyed {T} (key : T → string) (xs : list T) :
  map_Forall (λ k r, key r = k) (js_map_of key xs).
Proof. intros k r H. by apply js_map_of_Some in H as [_ H]. Qed.

Lemma run_well_formed (call : Call) (d : IDB.t) :
  well_formed d →
  ∃ d', (run call {| db := Some d |}).2 = {| db := Some d' |}
        ∧ well_formed d'.
Proof.
  intros (Hc & Hv & Ha & He & Hg & Hm). unfold keyed in *.
  destruct call; cbn [run].
  - unfold addCategory, request_add, with_db. simpl.
    destruct (IDB.categories d !! ActivityCategory.id category);
      eexists; (split; [reflexivity|]); unfold well_formed, keyed; simpl;
      repeat split; try done.
    by apply map_Forall_insert_2.
  - unfold addVitalityBonus, request_add, with_db. simpl.
    destruct (IDB.vitality d !! VitalityBonus.id bonus);
      eexists; (split; [reflexivity|]); unfold well_formed, keyed; simpl;
      repeat split; try done.
    by apply map_Forall_insert_2.
  - unfold addActivity, request_add, with_db. simpl.
    destruct (IDB.activities d !! ActivityLog.id activity);
      eexists; (split; [reflexivity|]); unfold well_formed, keyed; simpl;
      repeat split; try done.
    by apply map_Forall_insert_2.
  - eexists; split; [reflexivity|]. unfold well_formed, keyed; simpl.
    repeat split; try done. by apply map_Forall_insert_2.
  - eexists; split; [reflexivity|]. unfold well_formed, keyed; simpl.
    repeat split; try done. by apply map_Forall_delete.
  - unfold addVitalityEntry, request_add, with_db. simpl.
    destruct (IDB.vitalityEntries d !! VitalityEntry.id entry);
      eexists; (split; [reflexivity|]); unfold well_formed, keyed; simpl;
      repeat split; try done.
    by apply map_Forall_insert_2.
  - eexists; split; [reflexivity|]. unfold well_formed, keyed; simpl.
    repeat split; try done. by apply map_Forall_insert_2.
  - rewrite initializeDefaultData_v1_seeds. eexists; split; [reflexivity|].
    unfold seed_store. simpl.
    destruct (Nat.eqb (size (IDB.categories d)) 0);
      destruct (Nat.eqb (size (IDB.vitality _)) 0);
      unfold well_formed, keyed; simpl; repeat split; try done;
      apply js_map_of_keyed.
  - rewrite clearAllData_v1. eexists; split; [reflexivity|].
    unfold well_formed, keyed; simpl.
    repeat split; try done; apply map_Forall_empty.
  - rewrite importAll_puts. eexists; split; [reflexivity|].
    unfold well_formed, keyed; simpl.
    repeat split; try done; by apply put_all_keyed.
Qed.

Lemma run_all_well_formed (calls : list Call) (d : IDB.t) :
  well_formed d →
  ∃ d', run_all calls {| db := Some d |} = {| db := Some d' |}
        ∧ well_formed d'.
Proof.
  revert d. induction calls as [|call calls IH]; intros d Hd; simpl.
  - by exists d.
  - destruct (run_well_formed call d Hd) as (d1 & -> & Hd1). by apply IH.
Qed.

(** After any sequence of calls on a database just created, export followed
    by import into another database just created gives the database back. *)
Lemma export_import_after_calls (calls : list Call) (now : string) :
  ∃ d snapshot,
    run_all calls {| db := Some created |} = {| db := Some d |}
    ∧ exportData now {| db := Some d |}
      = (Resolved snapshot, {| db := Some d |})
    ∧ importAll snapshot {| db := Some created |}
      = (Resolved tt, {| db := Some d |}).
Proof.
  destruct (run_all_well_formed calls created well_formed_created)
    as (d & Hrun & Hc & Hv & Ha & He & Hg & Hm).
  exists d. eexists. split; [done|]. split; [apply exportData_v1|].
  erewrite importAll_export_created by (done || apply exportData_v1).
  destruct d; simpl in *. by rewrite Hg, Hm.
Qed.

End DatabaseV1Properties.

(** ** The store, schema version 2 *)

#[global] Instance v2_categoriesStore_laws :
  StoreLaws DatabaseV2.categoriesStore.
Proof. split; intros; try destruct d; reflexivity. Qed.
#[global] Instance v2_vitalityStore_laws : StoreLaws DatabaseV2.vitalityStore.
Proof. split; intros; try destruct d; reflexivity. Qed.
#[global] Instance v2_activitiesStore_laws :
  StoreLaws DatabaseV2.activitiesStore.
Proof. split; intros; try destruct d; reflexivity. Qed.
#[global] Instance v2_vitalityEntriesStore_laws :
  StoreLaws DatabaseV2.vitalityEntriesStore.
Proof. split; intros; try destruct d; reflexivity. Qed.

Section DatabaseV2Properties.
Import DatabaseV2.

Lemma initializeDefaultData_v2_seeds (d : IDB.t) :
  initializeDefaultData {| db := Some d |}
  = (Resolved tt,
     {| db := Some (seed_store vitalityStore defaultVitalityBonuses
                      (seed_store categoriesStore defaultCategories d)) |}).
Proof.
  unfold initializeDefaultData.
  rewrite (await_resolved _ _ _ tt {| db := Some d |}) by reflexivity.
  rewrite (await_resolved _ _ _ (size (IDB.categories d))
             {| db := Some d |}) by reflexivity.
  erewrite await_resolved by apply (seed_branch_put categoriesStore).
  erewrite await_resolved by reflexivity.
  apply (seed_branch_put vitalityStore).
Qed.

Lemma initializeDefaultData_v2_not_initialized :
  initializeDefaultData {| db := None |}
  = (Rejected NotInitialized, {| db := None |}).
Proof. reflexivity. Qed.

Lemma initializeDefaultData_v2_empty (d : IDB.t) :
  IDB.categories d = ∅ → IDB.vitality d = ∅ →
  initializeDefaultData {| db := Some d |}
  = (Resolved tt,
     {| db := Some (IDB.mk (js_map_of ActivityCategory.id defaultCategories)
                      (js_map_of VitalityBonus.id defaultVitalityBonuses)
                      (IDB.activities d) (IDB.vitalityEntries d)
                      (IDB.goals d) (IDB.metrics d) (IDB.tasks d)) |}).
Proof.
  intros Hc Hv. rewrite initializeDefaultData_v2_seeds.
  rewrite (seed_store_empty categoriesStore) by done.
  by rewrite (seed_store_empty vitalityStore) by done.
Qed.

Lemma initializeDefaultData_v2_nonempty (d : IDB.t) :
  IDB.categories d ≠ ∅ → IDB.vitality d ≠ ∅ →
  initializeDefaultData {| db := Some d |}
  = (Resolved tt, {| db := Some d |}).
Proof.
  intros Hc Hv. rewrite initializeDefaultData_v2_seeds.
  rewrite (seed_store_nonempty categoriesStore) by done.
  by rewrite (seed_store_nonempty vitalityStore) by done.
Qed.

Lemma initializeDefaultData_v2_twice (d : IDB.t) :
  ∃ d', initializeDefaultData {| db := Some d |}
        = (Resolved tt, {| db := Some d' |})
        ∧ initializeDefaultData {| db := Some d' |}
          = (Resolved tt, {| db := Some d' |}).
Proof.
  eexists. split; [apply initializeDefaultData_v2_seeds|].
  apply initializeDefaultData_v2_nonempty.
  - pose proof (seed_store_records_nonempty categoriesStore
                  (ActivityCategory.mk "deep-work" "Deep Work" 3 "#3B82F6"
                     "Focused, cognitively demanding work")
                  (tail defaultCategories) d) as H.
    unfold seed_store at 1.
    by destruct (Nat.eqb (size (records vitalityStore _)) 0).
  - apply (seed_store_records_nonempty vitalityStore
             (VitalityBonus.mk "sleep" "Quality Sleep" 5
                "7+ hours of restful sleep")
             (tail defaultVitalityBonuses)).
Qed.

(** Every adder of this variant is [put]: it resolves whether or not the
    id is taken, and the record of that id is the one just written. *)
Lemma addActivity_v2 (d : IDB.t) (activity : ActivityLog.t) :
  addActivity activity {| db := Some d |}
  = (Resolved tt,
     {| db := Some (IDB.mk (IDB.categories d) (IDB.vitality d)
                      (<[ActivityLog.id activity := activity]>
                         (IDB.activities d))
                      (IDB.vitalityEntries d) (IDB.goals d) (IDB.metrics d)
                      (IDB.tasks d)) |}).
Proof. reflexivity. Qed.

Lemma addCategory_v2 (d : IDB.t) (category : ActivityCategory.t) :
  addCategory category {| db := Some d |}
  = (Resolved tt,
     {| db := Some (IDB.mk
                      (<[ActivityCategory.id category := category]>
                         (IDB.categories d))
                      (IDB.vitality d) (IDB.activities d)
                      (IDB.vitalityEntries d) (IDB.goals d) (IDB.metrics d)
                      (IDB.tasks d)) |}).
Proof. reflexivity. Qed.

Lemma addVitalityEntry_v2 (d : IDB.t) (entry : VitalityEntry.t) :
  addVitalityEntry entry {| db := Some d |}
  = (Resolved tt,
     {| db := Some (IDB.mk (IDB.categories d) (IDB.vitality d)
                      (IDB.activities d)
                      (<[VitalityEntry.id entry := entry]>
                         (IDB.vitalityEntries d))
                      (IDB.goals d) (IDB.metrics d) (IDB.tasks d)) |}).
Proof. reflexivity. Qed.

End DatabaseV2Properties.

(** ** Seeding, insertion, clearing and the export/import round trip *)

Section StoreClaims.

(** C6. Seeding is idempotent, in both variants of the store.  On a
    database whose [categories] and [vitality] stores are empty it writes
    the default categories and bonuses, each once, and touches no other
    store; on a database where both stores hold something it writes
    nothing; and from any database, a second call right after the first
    writes nothing, so no reference record is ever doubled. *)
Theorem initializeDefaultData_idempotent
    (d1 : DatabaseV1.IDB.t) (d2 : DatabaseV2.IDB.t) :
  ((DatabaseV1.IDB.categories d1 = ∅ → DatabaseV1.IDB.vitality d1 = ∅ →
    DatabaseV1.initializeDefaultData {| db := Some d1 |}
    = (Resolved tt,
       {| db := Some
            (DatabaseV1.IDB.mk
               (js_map_of ActivityCategory.id defaultCategories)
               (js_map_of VitalityBonus.id defaultVitalityBonuses)
               (DatabaseV1.IDB.activities d1)
               (DatabaseV1.IDB.vitalityEntries d1)
               (DatabaseV1.IDB.goals d1) (DatabaseV1.IDB.metrics d1)) |}))
   ∧ (DatabaseV1.IDB.categories d1 ≠ ∅ → DatabaseV1.IDB.vitality d1 ≠ ∅ →
      DatabaseV1.initializeDefaultData {| db := Some d1 |}
      = (Resolved tt, {| db := Some d1 |}))
   ∧ (∃ d', DatabaseV1.initializeDefaultData {| db := Some d1 |}
            = (Resolved tt, {| db := Some d' |})
            ∧ DatabaseV1.initializeDefaultData {| db := Some d' |}
              = (Resolved tt, {| db := Some d' |})))
  ∧ ((DatabaseV2.IDB.categories d2 = ∅ → DatabaseV2.IDB.vitality d2 = ∅ →
      DatabaseV2.initializeDefaultData {| db := Some d2 |}
      = (Resolved tt,
         {| db := Some
              (DatabaseV2.IDB.mk
                 (js_map_of ActivityCategory.id defaultCategories)
                 (js_map_of VitalityBonus.id defaultVitalityBonuses)
                 (DatabaseV2.IDB.activities d2)
                 (DatabaseV2.IDB.vitalityEntries d2)
                 (DatabaseV2.IDB.goals d2) (DatabaseV2.IDB.metrics d2)
                 (DatabaseV2.IDB.tasks d2)) |}))
     ∧ (DatabaseV2.IDB.categories d2 ≠ ∅ → DatabaseV2.IDB.vitality d2 ≠ ∅ →
        DatabaseV2.initializeDefaultData {| db := Some d2 |}
        = (Resolved tt, {| db := Some d2 |}))
     ∧ (∃ d', DatabaseV2.initializeDefaultData {| db := Some d2 |}
              = (Resolved tt, {| db := Some d' |})
              ∧ DatabaseV2.initializeDefaultData {| db := Some d' |}
                = (Resolved tt, {| db := Some d' |})))
  ∧ (map_to_list (js_map_of ActivityCategory.id defaultCategories)).*2
    ≡ₚ defaultCategories
  ∧ (map_to_list (js_map_of VitalityBonus.id defaultVitalityBonuses)).*2
    ≡ₚ defaultVitalityBonuses.
Proof.
  split; [|split; [|split]].
  - split; [apply initializeDefaultData_v1_empty|].
    split; [apply initializeDefaultData_v1_nonempty|].
    apply initializeDefaultData_v1_twice.
  - split; [apply initializeDefaultData_v2_empty|].
    split; [apply initializeDefaultData_v2_nonempty|].
    apply initializeDefaultData_v2_twice.
  - apply (put_all_values DatabaseV1.categoriesStore),
      defaultCategories_ids_NoDup.
  - apply (put_all_values DatabaseV1.vitalityStore),
      defaultVitalityBonuses_ids_NoDup.
Qed.

(** C7 does not hold of the version 2 store: there [addActivity] of a
    record whose id is taken resolves, and the record that was stored under
    the id is replaced. *)
Lemma addActivity_v2_overwrites :
  is_Some (DatabaseV2.IDB.activities sample_db_v2
             !! ActivityLog.id colliding_activity)
  ∧ ∃ d',
      DatabaseV2.addActivity colliding_activity {| db := Some sample_db_v2 |}
      = (Resolved tt, {| db := Some d' |})
      ∧ DatabaseV2.IDB.activities sample_db_v2 !! "a1"%string
        = Some scenarioA_activity
      ∧ DatabaseV2.IDB.activities d' !! "a1"%string
        = Some colliding_activity
      ∧ scenarioA_activity ≠ colliding_activity.
Proof.
  split; [by eexists|]. eexists. split; [reflexivity|].
  split; [reflexivity|]. split; [reflexivity|]. discriminate.
Qed.

(** C7, amended.  In the version 1 store, [addActivity], [addCategory] and
    [addVitalityEntry] reject with the constraint error of a duplicate key
    when the id of the record is taken, and the database is then as it was;
    when the id is fresh they resolve and the record is stored under it.
    In the version 2 store the same three methods are upserts: they
    resolve in both cases and store the record under its id. *)
Theorem insert_duplicate_key
    (d1 : DatabaseV1.IDB.t) (d2 : DatabaseV2.IDB.t)
    (activity : ActivityLog.t) (category : ActivityCategory.t)
    (entry : VitalityEntry.t) :
  ((is_Some (DatabaseV1.IDB.activities d1 !! ActivityLog.id activity) →
    DatabaseV1.addActivity activity {| db := Some d1 |}
    = (Rejected ConstraintError, {| db := Some d1 |}))
   ∧ (DatabaseV1.IDB.activities d1 !! ActivityLog.id activity = None →
      ∃ d', DatabaseV1.addActivity activity {| db := Some d1 |}
            = (Resolved tt, {| db := Some d' |})
            ∧ DatabaseV1.IDB.activities d'
              = <[ActivityLog.id activity := activity]>
                  (DatabaseV1.IDB.activities d1)))
  ∧ ((is_Some (DatabaseV1.IDB.categories d1 !! ActivityCategory.id category) →
      DatabaseV1.addCategory category {| db := Some d1 |}
      = (Rejected ConstraintError, {| db := Some d1 |}))
     ∧ (DatabaseV1.IDB.categories d1 !! ActivityCategory.id category = None →
        ∃ d', DatabaseV1.addCategory category {| db := Some d1 |}
              = (Resolved tt, {| db := Some d' |})
              ∧ DatabaseV1.IDB.categories d'
                = <[ActivityCategory.id category := category]>
                    (DatabaseV1.IDB.categories d1)))
  ∧ ((is_Some (DatabaseV1.IDB.vitalityEntries d1 !! VitalityEntry.id entry) →
      DatabaseV1.addVitalityEntry entry {| db := Some d1 |}
      = (Rejected ConstraintError, {| db := Some d1 |}))
     ∧ (DatabaseV1.IDB.vitalityEntries d1 !! VitalityEntry.id entry = None →
        ∃ d', DatabaseV1.addVitalityEntry entry {| db := Some d1 |}
              = (Resolved tt, {| db := Some d' |})
              ∧ DatabaseV1.IDB.vitalityEntries d'
                = <[VitalityEntry.id entry := entry]>
                    (DatabaseV1.IDB.vitalityEntries d1)))
  ∧ (∃ d', DatabaseV2.addActivity activity {| db := Some d2 |}
           = (Resolved tt, {| db := Some d' |})
           ∧ DatabaseV2.IDB.activities d'
             = <[ActivityLog.id activity := activity]>
                 (DatabaseV2.IDB.activities d2))
  ∧ (∃ d', DatabaseV2.addCategory category {| db := Some d2 |}
           = (Resolved tt, {| db := Some d' |})
           ∧ DatabaseV2.IDB.categories d'
             = <[ActivityCategory.id category := category]>
                 (DatabaseV2.IDB.categories d2))
  ∧ (∃ d', DatabaseV2.addVitalityEntry entry {| db := Some d2 |}
           = (Resolved tt, {| db := Some d' |})
           ∧ DatabaseV2.IDB.vitalityEntries d'
             = <[VitalityEntry.id entry := entry]>
                 (DatabaseV2.IDB.vitalityEntries d2)).
Proof.
  destruct (addActivity_v1 d1 activity) as [Ha1 Ha2].
  destruct (addCategory_v1 d1 category) as [Hc1 Hc2].
  destruct (addVitalityEntry_v1 d1 entry) as [He1 He2].
  repeat split; try done.
  - intros H. eexists. split; [by apply Ha2|done].
  - intros H. eexists. split; [by apply Hc2|done].
  - intros H. eexists. split; [by apply He2|done].
  - eexists. split; [apply addActivity_v2|done].
  - eexists. split; [apply addCategory_v2|done].
  - eexists. split; [apply addVitalityEntry_v2|done].
Qed.

(** C8 does not hold as worded: [clearAllData] also empties the [metrics]
    store, which is none of the four collections named, and the schema it
    runs on has no [tasks] store. *)
Lemma clearAllData_clears_metrics :
  DatabaseV1.clearAllData {| db := Some sample_db_v1 |}
  = (Resolved tt, {| db := Some sample_db_v1_cleared |})
  ∧ DatabaseV1.IDB.metrics sample_db_v1 !! "2023-11-14"%string
    = Some sample_stored_metrics
  ∧ DatabaseV1.IDB.metrics sample_db_v1_cleared = ∅
  ∧ DatabaseV1.IDB.metrics sample_db_v1_cleared
    ≠ DatabaseV1.IDB.metrics sample_db_v1
  ∧ "tasks"%string ∉ DatabaseV1.objectStoreNames.
Proof.
  split; [reflexivity|]. split; [reflexivity|]. split; [reflexivity|].
  split.
  - intros H. apply (f_equal (λ m, m !! "2023-11-14"%string)) in H.
    vm_compute in H. discriminate.
  - apply (bool_decide_unpack _). by vm_compute.
Qed.

(** C8, amended.  [clearAllData] empties exactly the four object stores
    [activities], [vitalityEntries], [goals] and [metrics], and leaves the
    two reference stores, [categories] and [vitality], as they were. *)
Theorem clearAllData_clears (d : DatabaseV1.IDB.t) :
  ∃ d', DatabaseV1.clearAllData {| db := Some d |}
        = (Resolved tt, {| db := Some d' |})
        ∧ DatabaseV1.IDB.activities d' = ∅
        ∧ DatabaseV1.IDB.vitalityEntries d' = ∅
        ∧ DatabaseV1.IDB.goals d' = ∅
        ∧ DatabaseV1.IDB.metrics d' = ∅
        ∧ DatabaseV1.IDB.categories d' = DatabaseV1.IDB.categories d
        ∧ DatabaseV1.IDB.vitality d' = DatabaseV1.IDB.vitality d.
Proof.
  eexists. split; [apply clearAllData_v1|]. by repeat split.
Qed.



End StoreClaims.

(** * Further properties *)

(** ** The metrics engine: signs, empty days, buckets *)

Section MetricsFurther.
Local Open Scope Q_scope.

Implicit Types (activities : list ActivityLog.t)
  (categories : list ActivityCategory.t)
  (vitalityEntries : list VitalityEntry.t)
  (vitalityBonuses : list VitalityBonus.t).

Lemma activity_step_buckets categoryMap acc activity :
  buckets_ok acc → buckets_ok (activity_step categoryMap acc activity).
Proof.
  intros [Hp Hb]. unfold buckets_ok, activity_step.
  destruct (categoryMap !! ActivityLog.categoryId activity) as [c|]; [|done].
  assert (0 <= (if Qgtb (ActivityLog.points activity) 0
                then Acc.positivePoints acc + ActivityLog.points activity
                else Acc.positivePoints acc)) as Hpos.
  { destruct (Qgtb (ActivityLog.points activity) 0) eqn:E; [|done].
    apply Qgtb_true in E. lra. }
  destruct (String.eqb (ActivityCategory.name c) "Deep Work").
  - destruct (ActivityLog.energyLevel activity); simpl; split; try done; lra.
  - destruct (String.eqb (ActivityCategory.name c) "Distraction"); simpl;
      split; done.
Qed.

Lemma activity_fold_buckets categoryMap activities acc :
  buckets_ok acc → buckets_ok (foldl (activity_step categoryMap) acc activities).
Proof.
  revert acc. induction activities as [|a l IH]; intros acc H; simpl; [done|].
  by apply IH, activity_step_buckets.
Qed.

Lemma buckets_ok_acc0 : buckets_ok acc0.
Proof. unfold buckets_ok, acc0; simpl. split; [lra|reflexivity]. Qed.

Lemma activity_step_buckets_nonneg categoryMap acc activity :
  0 <= ActivityLog.duration activity →
  buckets_nonneg acc → buckets_nonneg (activity_step categoryMap acc activity).
Proof.
  intros Hd (H1 & H2 & H3). unfold buckets_nonneg, activity_step.
  destruct (categoryMap !! ActivityLog.categoryId activity) as [c|]; [|done].
  destruct (String.eqb (ActivityCategory.name c) "Deep Work").
  - destruct (ActivityLog.energyLevel activity); simpl; repeat split; lra.
  - destruct (String.eqb (ActivityCategory.name c) "Distraction"); simpl;
      repeat split; done.
Qed.

Lemma activity_fold_buckets_nonneg categoryMap activities acc :
  Forall (λ a, 0 <= ActivityLog.duration a) activities →
  buckets_nonneg acc →
  buckets_nonneg (foldl (activity_step categoryMap) acc activities).
Proof.
  intros H. revert acc. induction H as [|a l Ha _ IH]; intros acc Hacc; simpl.
  - done.
  - by apply IH, activity_step_buckets_nonneg.
Qed.

(** X1. The productivity throughput is never negative, whatever the points
    and durations of the activities: only positive points enter its
    numerator, and it is 0 unless the time logged is positive. *)
Theorem throughput_nonneg activities categories vitalityEntries
    vitalityBonuses :
  0 <= DailyMetrics.productivityThroughput
         (calculateDailyMetrics activities categories vitalityEntries
            vitalityBonuses).
Proof.
  unfold calculateDailyMetrics. cbn zeta.
  cbn [DailyMetrics.productivityThroughput].
  pose proof (activity_fold_buckets
                (js_map_of ActivityCategory.id categories) activities acc0
                buckets_ok_acc0) as [Hp _].
  set (acc := foldl _ acc0 activities) in *.
  destruct (Qgtb (Acc.totalTimeLogged acc) 0) eqn:Hpos; [|lra].
  apply Qgtb_true in Hpos.
  apply Qle_shift_div_l.
  - apply Qlt_shift_div_l; lra.
  - lra.
Qed.

(** X2. A day on which no activity resolves to a category (in particular a
    day without activities) has no time logged, ratios and throughput 0 and
    empty energy buckets, and its total score is the vitality score alone. *)
Theorem no_resolved_activity activities categories vitalityEntries
    vitalityBonuses :
  Forall (λ a, ∀ c, c ∈ categories →
                    ActivityCategory.id c ≠ ActivityLog.categoryId a)
    activities →
  let m := calculateDailyMetrics activities categories vitalityEntries
             vitalityBonuses in
  DailyMetrics.totalTimeLogged m = 0
  ∧ DailyMetrics.focusRatio m = 0
  ∧ DailyMetrics.distractionRatio m = 0
  ∧ DailyMetrics.productivityThroughput m = 0
  ∧ DailyMetrics.energyFocusCorrelation m = EnergyFocus.mk 0 0 0
  ∧ DailyMetrics.totalScore m
    == vitalityScoreTerm vitalityEntries vitalityBonuses.
Proof.
  intros Hall.
  assert (foldl (activity_step (js_map_of ActivityCategory.id categories))
            acc0 activities = acc0) as Hacc.
  { generalize acc0. induction Hall as [|a l Ha _ IH]; intros acc; simpl.
    - done.
    - rewrite activity_step_dangling by done. apply IH. }
  unfold calculateDailyMetrics. cbn zeta. rewrite Hacc. simpl.
  repeat split. rewrite vitality_fold_term. ring.
Qed.

Lemma no_resolved_activity_witness :
  DailyMetrics.totalTimeLogged
    (calculateDailyMetrics [dangling_activity] defaultCategories
       [sleep_entry] defaultVitalityBonuses) = 0
  ∧ DailyMetrics.totalScore
      (calculateDailyMetrics [dangling_activity] defaultCategories
         [sleep_entry] defaultVitalityBonuses)
    == vitalityScoreTerm [sleep_entry] defaultVitalityBonuses.
Proof.
  destruct (no_resolved_activity [dangling_activity] defaultCategories
              [sleep_entry] defaultVitalityBonuses) as (H1 & _ & _ & _ & _ & H6).
  - constructor; [|constructor].
    apply (proj1 (js_map_of_None ActivityCategory.id defaultCategories
                    "archived")). reflexivity.
  - split; [exact H1 | exact H6].
Defined.

(** X3. The three energy buckets add up to the deep-work time: when time was
    logged, the focus ratio is the share of the three buckets together in
    the total time logged; and with no negative duration no bucket is
    negative and the three together do not exceed the total. *)
Theorem energy_buckets_sum activities categories vitalityEntries
    vitalityBonuses :
  Forall (λ a, 0 <= ActivityLog.duration a) activities →
  let m := calculateDailyMetrics activities categories vitalityEntries
             vitalityBonuses in
  let e := DailyMetrics.energyFocusCorrelation m in
  0 <= EnergyFocus.high e ∧ 0 <= EnergyFocus.medium e
  ∧ 0 <= EnergyFocus.low e
  ∧ EnergyFocus.high e + EnergyFocus.medium e + EnergyFocus.low e
    <= DailyMetrics.totalTimeLogged m
  ∧ (0 < DailyMetrics.totalTimeLogged m →
     DailyMetrics.focusRatio m
     == (EnergyFocus.high e + EnergyFocus.medium e + EnergyFocus.low e)
        / DailyMetrics.totalTimeLogged m * 100).
Proof.
  intros Hdur.
  pose proof (activity_fold_buckets
                (js_map_of ActivityCategory.id categories) activities acc0
                buckets_ok_acc0) as [_ Hsum].
  pose proof (activity_fold_buckets_nonneg
                (js_map_of ActivityCategory.id categories) activities acc0
                Hdur) as (Hh & Hm & Hl).
  { unfold buckets_nonneg, acc0; simpl. repeat split; lra. }
  pose proof (activity_fold_times (js_map_of ActivityCategory.id categories)
                activities acc0 Hdur times_ok_acc0) as (H1 & H2 & H3).
  unfold calculateDailyMetrics. cbn zeta.
  cbn [DailyMetrics.focusRatio DailyMetrics.totalTimeLogged
       DailyMetrics.energyFocusCorrelation].
  set (acc := foldl _ acc0 activities) in *.
  split; [done|]. split; [done|]. split; [done|]. split; [lra|].
  intros Hpos. rewrite (proj2 (Qgtb_true _ _) Hpos). by rewrite Hsum.
Qed.

Lemma energy_buckets_sum_witness :
  EnergyFocus.high (DailyMetrics.energyFocusCorrelation sample_day_metrics)
  + EnergyFocus.medium (DailyMetrics.energyFocusCorrelation sample_day_metrics)
  + EnergyFocus.low (DailyMetrics.energyFocusCorrelation sample_day_metrics)
  <= DailyMetrics.totalTimeLogged sample_day_metrics.
Proof.
  destruct (energy_buckets_sum [scenarioA_activity; distraction_activity]
              defaultCategories [sleep_entry] defaultVitalityBonuses)
    as (_ & _ & _ & H & _).
  - repeat constructor; simpl; lra.
  - exact H.
Defined.

End MetricsFurther.

(** ** The metrics engine: order of the records, unit of the durations *)

Section MetricsOrder.
Local Open Scope Q_scope.

Implicit Types (activities : list ActivityLog.t)
  (categories : list ActivityCategory.t)
  (vitalityEntries : list VitalityEntry.t)
  (vitalityBonuses : list VitalityBonus.t).

Ltac acc_fields :=
  unfold acc_equiv, energy_equiv in *; simpl in *;
  repeat match goal with H : _ ∧ _ |- _ => destruct H end;
  repeat split; try done; try lra.


Lemma acc_equiv_sym a b : acc_equiv a b → acc_equiv b a.
Proof. intros H. acc_fields. Qed.
















End MetricsOrder.

(** ** Time strings *)

Section TimeStrings.
Import DecimalString.

Lemma numeral_cons c s u :
  numeral (String c s) u →
  c ≠ ":"%char ∧ c ≠ "-"%char ∧ ∃ u', numeral s u'.
Proof.
  unfold numeral. simpl. intros H.
  destruct (NilEmpty.uint_of_string s) as [u'|] eqn:Hs; [|done].
  split; [|split; [|by eexists]]; intros ->; discriminate.
Qed.

Lemma split_numeral s u : numeral s u → split ":" s = [s].
Proof.
  revert u. induction s as [|c s IH]; intros u H; [done|].
  apply numeral_cons in H as (Hc & _ & u' & Hs). simpl.
  destruct (Ascii.eqb_spec c ":") as [|_]; [done|].
  by rewrite (IH u' Hs).
Qed.

Lemma split_numeral_colon s u rest :
  numeral s u →
  split ":" (s +:+ String ":" rest) = s :: split ":" rest.
Proof.
  revert u. induction s as [|c s IH]; intros u H; [done|].
  apply numeral_cons in H as (Hc & _ & u' & Hs).
  change (String c s +:+ String ":" rest)
    with (String c (s +:+ String ":" rest)).
  cbn [split]. destruct (Ascii.eqb_spec c ":") as [|_]; [done|].
  by rewrite (IH u' Hs).
Qed.

Lemma js_toString_numeral (n : Z) :
  (0 ≤ n)%Z → ∃ u, numeral (js_toString n) u ∧ Z.of_uint u = n.
Proof.
  intros Hn. destruct n as [|p|p]; [| |lia].
  - by exists (Decimal.D0 Decimal.Nil).
  - exists (Pos.to_uint p). split.
    + unfold js_toString, numeral. simpl.
      pose proof (DecimalPos.Unsigned.to_uint_nonnil p) as Hnil.
      unfold NilZero.string_of_uint.
      destruct (Pos.to_uint p) eqn:E; try done; rewrite <- E;
        apply NilEmpty.usu.
    + unfold Z.of_uint. by rewrite DecimalPos.Unsigned.of_to.
Qed.

Lemma padStart_numeral k s u :
  numeral s u →
  ∃ u', numeral (padStart k "0" s) u' ∧ Z.of_uint u' = Z.of_uint u.
Proof.
  intros H. unfold padStart.
  induction (k - String.length s) as [|n (u' & Hu' & Hz)]; simpl.
  - by exists u.
  - exists (Decimal.D0 u'). split; [|done].
    unfold numeral in *. simpl. by rewrite Hu'.
Qed.

Lemma js_Number_numeral s u :
  numeral s u → js_Number s = Some (Z.of_uint u).
Proof.
  destruct s as [|c s]; intros H.
  - injection H as <-. done.
  - pose proof H as (_ & Hc & _)%numeral_cons.
    unfold js_Number, NilZero.int_of_string.
    destruct (Ascii.eqb_spec c "-") as [|_]; [done|].
    unfold NilZero.uint_of_string. unfold numeral in H. by rewrite H.
Qed.

Lemma minutesToTimeString_parse (minutes : Z) :
  (0 ≤ minutes)%Z →
  parseTimeToMinutes (minutesToTimeString minutes) = Some minutes.
Proof.
  intros Hm.
  assert (Z.rem minutes 60 = minutes `mod` 60)%Z as Hrem
    by (apply Z.rem_mod_nonneg; lia).
  unfold parseTimeToMinutes, minutesToTimeString. rewrite Hrem.
  destruct (js_toString_numeral (minutes `div` 60)) as (uh & Hh & Hzh).
  { apply Z.div_pos; lia. }
  destruct (js_toString_numeral (minutes `mod` 60)) as (um & Hmm & Hzm).
  { apply Z.mod_pos_bound; lia. }
  destruct (padStart_numeral 2 _ _ Hh) as (uh' & Hh' & Hzh').
  destruct (padStart_numeral 2 _ _ Hmm) as (um' & Hm' & Hzm').
  match goal with
  | |- context [(":" +:+ ?x)%string] =>
    change (":" +:+ x)%string with (String ":" x)
  end.
  rewrite (split_numeral_colon _ _ _ Hh'), (split_numeral _ _ Hm').
  cbn [fmap list_fmap].
  rewrite (js_Number_numeral _ _ Hh'), (js_Number_numeral _ _ Hm').
  rewrite Hzh', Hzm', Hzh, Hzm. f_equal.
  pose proof (Z.div_mod minutes 60). lia.
Qed.

(** X6. A number of minutes that is not negative, written as a time string
    and read back, is the same number; the string is the hours and the
    minutes below 60, each padded to two digits, around a colon. *)
Theorem time_string_round_trip (minutes : Z) :
  (0 ≤ minutes)%Z →
  parseTimeToMinutes (minutesToTimeString minutes) = Some minutes
  ∧ minutesToTimeString minutes
    = (padStart 2 "0" (js_toString (minutes `div` 60)) +:+ ":"
       +:+ padStart 2 "0" (js_toString (minutes `mod` 60)))%string.
Proof.
  intros Hm. split; [by apply minutesToTimeString_parse|].
  unfold minutesToTimeString. by rewrite Z.rem_mod_nonneg by lia.
Qed.

Lemma time_string_round_trip_witness :
  parseTimeToMinutes (minutesToTimeString 545) = Some 545%Z
  ∧ minutesToTimeString 545 = "09:05"%string.
Proof.
  destruct (time_string_round_trip 545) as [H1 H2]; [lia|].
  split; [exact H1|]. rewrite H2. reflexivity.
Defined.

(** X7. Every minute of a day is written with five characters, two digits
    of hours and two of minutes, and two different minutes of a day never
    get the same string. *)
Theorem time_string_of_day (m1 m2 : Z) :
  (0 ≤ m1 < 1440)%Z → (0 ≤ m2 < 1440)%Z →
  String.length (minutesToTimeString m1) = 5
  ∧ String.get 2 (minutesToTimeString m1) = Some ":"%char
  ∧ (minutesToTimeString m1 = minutesToTimeString m2 → m1 = m2).
Proof.
  intros H1 H2. split; [|split].
  - assert (Forall (λ m, String.length (minutesToTimeString m) = 5)
              (seqZ 0 1440)) as Hall
      by (apply (bool_decide_unpack _); by vm_compute).
    rewrite Forall_forall in Hall. apply Hall, elem_of_seqZ. lia.
  - assert (Forall (λ m, String.get 2 (minutesToTimeString m) = Some ":"%char)
              (seqZ 0 1440)) as Hall
      by (apply (bool_decide_unpack _); by vm_compute).
    rewrite Forall_forall in Hall. apply Hall, elem_of_seqZ. lia.
  - intros Heq.
    pose proof (minutesToTimeString_parse m1 ltac:(lia)) as Hp1.
    pose proof (minutesToTimeString_parse m2 ltac:(lia)) as Hp2.
    rewrite Heq in Hp1. congruence.
Qed.

Lemma time_string_of_day_witness :
  String.length (minutesToTimeString 545) = 5
  ∧ String.get 2 (minutesToTimeString 545) = Some ":"%char.
Proof.
  destruct (time_string_of_day 545 600) as (H1 & H2 & _); [lia|lia|].
  split; [exact H1 | exact H2].
Defined.

End TimeStrings.

(** ** The activity forms and the metrics of what they log *)

Section Forms.
Local Open Scope Q_scope.








End Forms.

(** ** Reading back what was written *)

#[global] Instance v2_tasksStore_laws : StoreLaws DatabaseV2.tasksStore.
Proof. split; intros; try destruct d; reflexivity. Qed.

Section ReadBack.
Context {T : Type} (key : T → string).

Lemma elem_of_values (m : gmap string T) (r : T) :
  r ∈ (map_to_list m).*2 ↔ ∃ k, m !! k = Some r.
Proof.
  rewrite list_elem_of_fmap. split.
  - intros [[k r'] [-> H%elem_of_map_to_list]]. by exists k.
  - intros [k H]. exists (k, r). split; [done|].
    by apply elem_of_map_to_list.
Qed.

Lemma values_insert (m : gmap string T) (a r : T) :
  map_Forall (λ k r, key r = k) m →
  r ∈ (map_to_list (<[key a := a]> m)).*2
  ↔ r = a ∨ (r ∈ (map_to_list m).*2 ∧ key r ≠ key a).
Proof.
  intros Hkeyed. rewrite !elem_of_values. split.
  - intros [k [[_ ->]|[Hne H]]%lookup_insert_Some]; [by left|right].
    split; [by exists k|]. by rewrite (Hkeyed _ _ H).
  - intros [->|[[k H] Hne]].
    + exists (key a). apply lookup_insert_eq.
    + exists k. rewrite lookup_insert_ne; [done|].
      by rewrite <- (Hkeyed _ _ H).
Qed.

Lemma values_delete (m : gmap string T) (id : string) (r : T) :
  map_Forall (λ k r, key r = k) m →
  r ∈ (map_to_list (delete id m)).*2
  ↔ r ∈ (map_to_list m).*2 ∧ key r ≠ id.
Proof.
  intros Hkeyed. rewrite !elem_of_values. split.
  - intros [k [Hne H]%lookup_delete_Some]. split; [by exists k|].
    by rewrite (Hkeyed _ _ H).
  - intros [[k H] Hne]. exists k. apply lookup_delete_Some. split; [|done].
    by rewrite <- (Hkeyed _ _ H).
Qed.

End ReadBack.

Section DatabaseV1ReadBack.
Import DatabaseV1.

(** X10. [updateActivity] always resolves, whether or not the id is known
    (it is an upsert), and touches no store but [activities]; afterwards the
    activities of a date are the updated record, if it is of that date, and
    the records the date had before under other ids. *)
Theorem updateActivity_then_query (d : IDB.t) (activity : ActivityLog.t)
    (date : string) :
  keyed activitiesStore d →
  ∃ d' before after,
    updateActivity activity {| db := Some d |}
    = (Resolved tt, {| db := Some d' |})
    ∧ getActivitiesByDate date {| db := Some d |}
      = (Resolved before, {| db := Some d |})
    ∧ getActivitiesByDate date {| db := Some d' |}
      = (Resolved after, {| db := Some d' |})
    ∧ (∀ b, b ∈ after
            ↔ (b = activity ∧ ActivityLog.date activity = date)
              ∨ (b ∈ before ∧ ActivityLog.id b ≠ ActivityLog.id activity))
    ∧ keyed activitiesStore d'
    ∧ IDB.categories d' = IDB.categories d
    ∧ IDB.vitality d' = IDB.vitality d
    ∧ IDB.vitalityEntries d' = IDB.vitalityEntries d
    ∧ IDB.goals d' = IDB.goals d ∧ IDB.metrics d' = IDB.metrics d.
Proof.
  intros Hkeyed. eexists _, _, _.
  split; [reflexivity|]. split; [reflexivity|]. split; [reflexivity|].
  split; [|split; [by apply map_Forall_insert_2|done]].
  intros b. simpl. rewrite !list_elem_of_filter.
  rewrite (values_insert ActivityLog.id) by done. split.
  - intros [Hd [->|[Hb Hne]]]; [by left|by right].
  - intros [[-> Hd]|[[Hd Hb] Hne]]; [split; [done|by left]|].
    split; [done|by right].
Qed.

Lemma updateActivity_then_query_witness :
  ∃ d' after,
    updateActivity colliding_activity {| db := Some sample_db_v1 |}
    = (Resolved tt, {| db := Some d' |})
    ∧ getActivitiesByDate "2023-11-14" {| db := Some d' |}
      = (Resolved after, {| db := Some d' |})
    ∧ colliding_activity ∈ after.
Proof.
  destruct (updateActivity_then_query sample_db_v1 colliding_activity
              "2023-11-14")
    as (d' & before & after & H1 & _ & H3 & H4 & _).
  - unfold keyed. apply (bool_decide_unpack _). by vm_compute.
  - exists d', after. split; [exact H1|]. split; [exact H3|].
    apply H4. by left.
Defined.

(** X11. [deleteActivity] always resolves; afterwards the activities of a
    date are those it had before under other ids, and when no activity has
    the id the database is as it was.  Deleting an activity right after
    adding it under a fresh id gives the database back. *)
Theorem deleteActivity_then_query (d : IDB.t) (id date : string) :
  keyed activitiesStore d →
  ∃ d' before after,
    deleteActivity id {| db := Some d |} = (Resolved tt, {| db := Some d' |})
    ∧ getActivitiesByDate date {| db := Some d |}
      = (Resolved before, {| db := Some d |})
    ∧ getActivitiesByDate date {| db := Some d' |}
      = (Resolved after, {| db := Some d' |})
    ∧ (∀ b, b ∈ after ↔ b ∈ before ∧ ActivityLog.id b ≠ id)
    ∧ (IDB.activities d !! id = None → d' = d)
    ∧ (∀ activity d1,
         ActivityLog.id activity = id →
         IDB.activities d !! id = None →
         addActivity activity {| db := Some d |}
         = (Resolved tt, {| db := Some d1 |}) →
         deleteActivity id {| db := Some d1 |}
         = (Resolved tt, {| db := Some d |})).
Proof.
  intros Hkeyed. eexists _, _, _.
  split; [reflexivity|]. split; [reflexivity|]. split; [reflexivity|].
  split; [|split].
  - intros b. simpl. rewrite !list_elem_of_filter.
    rewrite (values_delete ActivityLog.id) by done. tauto.
  - intros Hnone. simpl. rewrite delete_id by done. by destruct d.
  - intros activity d1 <- Hnone.
    rewrite (proj2 (addActivity_v1 d activity) Hnone). intros [= <-].
    unfold deleteActivity, request_delete, with_db. simpl.
    rewrite delete_insert_id by done. by destruct d.
Qed.

Lemma deleteActivity_then_query_witness :
  ∃ d' after,
    deleteActivity "a1" {| db := Some sample_db_v1 |}
    = (Resolved tt, {| db := Some d' |})
    ∧ getActivitiesByDate "2023-11-14" {| db := Some d' |}
      = (Resolved after, {| db := Some d' |})
    ∧ scenarioA_activity ∉ after.
Proof.
  destruct (deleteActivity_then_query sample_db_v1 "a1" "2023-11-14")
    as (d' & before & after & H1 & _ & H3 & H4 & _).
  - unfold keyed. apply (bool_decide_unpack _). by vm_compute.
  - exists d', after. split; [exact H1|]. split; [exact H3|].
    intros [_ Hne]%H4. by apply Hne.
Defined.

End DatabaseV1ReadBack.

(** ** Range queries, tasks, and what the manager keeps true *)

Section RangeQueries.
Import DatabaseV1.

Lemma leb_refl (s : string) : String.leb s s = true.
Proof. by destruct (String.leb_total s s). Qed.

Lemma filter_range_date {T} (date_of : T → string) (startDate endDate date :
    string) (l : list T) :
  String.leb startDate date = true → String.leb date endDate = true →
  filter (λ r, date_of r = date)
    (filter (λ r, String.leb startDate (date_of r) = true
                  ∧ String.leb (date_of r) endDate = true) l)
  = filter (λ r, date_of r = date) l.
Proof.
  intros Hs He. rewrite list_filter_filter. apply list_filter_iff.
  intros r. split; [tauto|]. intros <-. done.
Qed.

Lemma filter_range_point {T} (date_of : T → string) (date : string)
    (l : list T) :
  filter (λ r, String.leb date (date_of r) = true
               ∧ String.leb (date_of r) date = true) l
  = filter (λ r, date_of r = date) l.
Proof.
  apply list_filter_iff. intros r. split.
  - intros [H1 H2]. by apply String.leb_antisym.
  - intros <-. split; apply leb_refl.
Qed.

(** X12. A range query whose bounds are in order resolves with the stored
    activities whose date lies between the bounds, both included, in the
    order of strings.  Narrowed to one date of the range it is the query by
    that date, which is how the monthly calendar groups it by day; and a
    range from a date to itself is the query by date.  The same holds of the
    vitality entries. *)
Theorem range_query_by_date (d : IDB.t) (startDate endDate : string) :
  String.leb startDate endDate = true →
  ∃ activities entries,
    getActivitiesInRange startDate endDate {| db := Some d |}
    = (Resolved activities, {| db := Some d |})
    ∧ getVitalityEntriesInRange startDate endDate {| db := Some d |}
      = (Resolved entries, {| db := Some d |})
    ∧ (∀ a, a ∈ activities
            ↔ (∃ k, IDB.activities d !! k = Some a)
              ∧ String.leb startDate (ActivityLog.date a) = true
              ∧ String.leb (ActivityLog.date a) endDate = true)
    ∧ (∀ e, e ∈ entries
            ↔ (∃ k, IDB.vitalityEntries d !! k = Some e)
              ∧ String.leb startDate (VitalityEntry.date e) = true
              ∧ String.leb (VitalityEntry.date e) endDate = true)
    ∧ (∀ date,
         String.leb startDate date = true → String.leb date endDate = true →
         getActivitiesByDate date {| db := Some d |}
         = (Resolved (filter (λ a, ActivityLog.date a = date) activities),
            {| db := Some d |})
         ∧ getVitalityEntriesByDate date {| db := Some d |}
           = (Resolved (filter (λ e, VitalityEntry.date e = date) entries),
              {| db := Some d |}))
    ∧ getActivitiesInRange startDate startDate {| db := Some d |}
      = getActivitiesByDate startDate {| db := Some d |}
    ∧ getVitalityEntriesInRange startDate startDate {| db := Some d |}
      = getVitalityEntriesByDate startDate {| db := Some d |}.
Proof.
  intros Hle. eexists _, _.
  unfold getActivitiesInRange, getVitalityEntriesInRange, getActivitiesByDate,
    getVitalityEntriesByDate, index_getAll_bound, index_getAll, with_db.
  cbn [db]. rewrite Hle, !leb_refl.
  split; [reflexivity|]. split; [reflexivity|].
  split; [|split; [|split; [|split]]].
  - intros a. rewrite list_elem_of_filter, elem_of_values. simpl. tauto.
  - intros e. rewrite list_elem_of_filter, elem_of_values. simpl. tauto.
  - intros date Hs He. by rewrite !filter_range_date.
  - by rewrite filter_range_point.
  - by rewrite filter_range_point.
Qed.

Lemma range_query_by_date_witness :
  ∃ activities,
    getActivitiesInRange "2023-11-01" "2023-11-30" {| db := Some sample_db_v1 |}
    = (Resolved activities, {| db := Some sample_db_v1 |})
    ∧ getActivitiesByDate "2023-11-14" {| db := Some sample_db_v1 |}
      = (Resolved (filter (λ a, ActivityLog.date a = "2023-11-14"%string)
                     activities),
         {| db := Some sample_db_v1 |}).
Proof.
  destruct (range_query_by_date sample_db_v1 "2023-11-01" "2023-11-30")
    as (activities & entries & H1 & _ & _ & _ & H5 & _); [reflexivity|].
  exists activities. split; [exact H1|].
  apply (H5 "2023-11-14"%string); reflexivity.
Defined.

(** X13. From a database just created, whatever calls of the manager are
    made and whether they resolve or reject, every category, bonus, activity
    and vitality entry sits under its own id, and the [goals] and [metrics]
    stores stay empty: no method writes them. *)
Theorem manager_keeps_well_formed (calls : list Call) :
  Forall from_source calls →
  ∃ d, run_all calls {| db := Some created |} = {| db := Some d |}
       ∧ (∀ k c, IDB.categories d !! k = Some c → ActivityCategory.id c = k)
       ∧ (∀ k b, IDB.vitality d !! k = Some b → VitalityBonus.id b = k)
       ∧ (∀ k a, IDB.activities d !! k = Some a → ActivityLog.id a = k)
       ∧ (∀ k e, IDB.vitalityEntries d !! k = Some e → VitalityEntry.id e = k)
       ∧ IDB.goals d = ∅ ∧ IDB.metrics d = ∅.
Proof.
  intros _.
  destruct (run_all_well_formed calls created well_formed_created)
    as (d & Hrun & Hc & Hv & Ha & He & Hg & Hm).
  exists d. split; [done|]. by repeat split.
Qed.

Lemma manager_keeps_well_formed_witness :
  ∃ d, run_all [InitializeDefaultData; AddActivity scenarioA_activity;
                AddActivity colliding_activity; DeleteActivity "a9";
                ClearAllData]
         {| db := Some created |} = {| db := Some d |}
       ∧ IDB.goals d = ∅ ∧ IDB.metrics d = ∅.
Proof.
  destruct (manager_keeps_well_formed
              [InitializeDefaultData; AddActivity scenarioA_activity;
               AddActivity colliding_activity; DeleteActivity "a9";
               ClearAllData])
    as (d & H & _ & _ & _ & _ & Hg & Hm).
  - repeat constructor.
  - exists d. by repeat split.
Defined.

End RangeQueries.

Section DatabaseV2Tasks.
Import DatabaseV2.

(** X14. In the version 2 store [addTask] and [updateTask] are the same
    upsert and [deleteTask] always resolves.  After a write the tasks of a
    date are the written task, if it is of that date, and the tasks the date
    had under other ids; after a delete they are the tasks it had under
    other ids; and no other store changes. *)
Theorem tasks_read_back (d : IDB.t) (task : DailyTask.t) (id date : string) :
  map_Forall (λ k t, DailyTask.id t = k) (IDB.tasks d) →
  ∃ written deleted before after_write after_delete,
    addTask task {| db := Some d |} = (Resolved tt, {| db := Some written |})
    ∧ updateTask task {| db := Some d |}
      = (Resolved tt, {| db := Some written |})
    ∧ deleteTask id {| db := Some d |}
      = (Resolved tt, {| db := Some deleted |})
    ∧ getTasksByDate date {| db := Some d |}
      = (Resolved before, {| db := Some d |})
    ∧ getTasksByDate date {| db := Some written |}
      = (Resolved after_write, {| db := Some written |})
    ∧ getTasksByDate date {| db := Some deleted |}
      = (Resolved after_delete, {| db := Some deleted |})
    ∧ (∀ t, t ∈ after_write
            ↔ (t = task ∧ DailyTask.date task = date)
              ∨ (t ∈ before ∧ DailyTask.id t ≠ DailyTask.id task))
    ∧ (∀ t, t ∈ after_delete ↔ t ∈ before ∧ DailyTask.id t ≠ id)
    ∧ IDB.activities written = IDB.activities d
    ∧ IDB.vitalityEntries written = IDB.vitalityEntries d
    ∧ IDB.categories written = IDB.categories d
    ∧ IDB.vitality written = IDB.vitality d
    ∧ IDB.activities deleted = IDB.activities d
    ∧ IDB.vitalityEntries deleted = IDB.vitalityEntries d
    ∧ IDB.categories deleted = IDB.categories d
    ∧ IDB.vitality deleted = IDB.vitality d.
Proof.
  intros Hkeyed. eexists _, _, _, _, _.
  do 6 (split; [reflexivity|]).
  split; [|split; [|done]].
  - intros t. simpl. rewrite !list_elem_of_filter.
    rewrite (values_insert DailyTask.id) by done. split.
    + intros [Hd [->|[Hb Hne]]]; [by left|by right].
    + intros [[-> Hd]|[[Hd Hb] Hne]]; [split; [done|by left]|].
      split; [done|by right].
  - intros t. simpl. rewrite !list_elem_of_filter.
    rewrite (values_delete DailyTask.id) by done. tauto.
Qed.

Lemma tasks_read_back_witness :
  ∃ written after_write,
    addTask sample_task {| db := Some sample_db_v2 |}
    = (Resolved tt, {| db := Some written |})
    ∧ getTasksByDate "2023-11-14" {| db := Some written |}
      = (Resolved after_write, {| db := Some written |})
    ∧ sample_task ∈ after_write.
Proof.
  destruct (tasks_read_back sample_db_v2 sample_task "t1" "2023-11-14")
    as (w & dl & b & aw & ad & H1 & _ & _ & _ & H5 & _ & H7 & _).
  - apply map_Forall_empty.
  - exists w, aw. split; [exact H1|]. split; [exact H5|].
    apply H7. by left.
Defined.

End DatabaseV2Tasks.

(** ** The dashboard *)

Section DashboardProperties.
Import DatabaseV1.

(** X15. Starting the dashboard never fails once the database opens: it
    ends loading without a toast, with the categories and bonuses the store
    holds, and the store holds some of each.  With no database in the
    browser these are the default categories and bonuses, each once; and
    starting again on the database left behind loads the same lists and
    writes nothing. *)
Theorem initializeData_loads (persisted : option IDB.t)
    (st0 : Dashboard.State) (this0 : DatabaseManager IDB.t) :
  ∃ st d,
    Dashboard.initializeData persisted st0 this0 = (st, {| db := Some d |})
    ∧ Dashboard.isLoading st = false
    ∧ Dashboard.toasts st = Dashboard.toasts st0
    ∧ Dashboard.categories st = (map_to_list (IDB.categories d)).*2
    ∧ Dashboard.vitalityBonuses st = (map_to_list (IDB.vitality d)).*2
    ∧ IDB.categories d ≠ ∅ ∧ IDB.vitality d ≠ ∅
    ∧ (persisted = None →
       Dashboard.categories st ≡ₚ defaultCategories
       ∧ Dashboard.vitalityBonuses st ≡ₚ defaultVitalityBonuses)
    ∧ Dashboard.initializeData (Some d) st {| db := Some d |}
      = (st, {| db := Some d |}).
Proof.
  set (d0 := default created persisted).
  destruct (initializeDefaultData_v1_twice d0) as (d & Hseed & Hagain).
  assert (IDB.categories d ≠ ∅ ∧ IDB.vitality d ≠ ∅) as [Hc Hv].
  { rewrite initializeDefaultData_v1_seeds in Hseed. injection Hseed as <-.
    split.
    - pose proof (seed_store_records_nonempty categoriesStore
                    (ActivityCategory.mk "deep-work" "Deep Work" 3 "#3B82F6"
                       "Focused, cognitively demanding work")
                    (tail defaultCategories) d0) as H.
      unfold seed_store at 1.
      by destruct (Nat.eqb (size (records vitalityStore _)) 0).
    - apply (seed_store_records_nonempty vitalityStore
               (VitalityBonus.mk "sleep" "Quality Sleep" 5
                  "7+ hours of restful sleep")
               (tail defaultVitalityBonuses)). }
  assert (∀ st1 this1 p dA dB,
            default created p = dA →
            initializeDefaultData {| db := Some dA |}
            = (Resolved tt, {| db := Some dB |}) →
            Dashboard.initializeData p st1 this1
            = (Dashboard.mkState (map_to_list (IDB.categories dB)).*2
                 (map_to_list (IDB.vitality dB)).*2
                 (Dashboard.activities st1) (Dashboard.vitalityEntries st1)
                 (Dashboard.metrics st1) (Dashboard.selectedDate st1) false
                 (Dashboard.toasts st1), {| db := Some dB |})) as Hrun.
  { intros st1 this1 p dA dB Hp HdA. unfold Dashboard.initializeData.
    unfold await at 1. unfold init. rewrite Hp.
    unfold await at 1. rewrite HdA. reflexivity. }
  eexists _, d. split; [by apply (Hrun _ _ _ d0 d)|].
  cbn [Dashboard.isLoading Dashboard.toasts Dashboard.categories
       Dashboard.vitalityBonuses].
  do 4 (split; [done|]). split; [done|]. split; [done|]. split.
  - intros ->. subst d0. cbn [default] in *.
    rewrite (initializeDefaultData_v1_empty created) in Hseed by done.
    injection Hseed as <-. cbn [IDB.categories IDB.vitality]. split.
    + apply (put_all_values categoriesStore), defaultCategories_ids_NoDup.
    + apply (put_all_values vitalityStore), defaultVitalityBonuses_ids_NoDup.
  - by rewrite (Hrun _ _ (Some d) d d).
Qed.

Lemma loadDayData_loads getDateString (st : Dashboard.State) (d : IDB.t) :
  Dashboard.loadDayData getDateString st {| db := Some d |}
  = (Dashboard.mkState (Dashboard.categories st) (Dashboard.vitalityBonuses st)
       (filter (λ a, ActivityLog.date a
                     = getDateString (Dashboard.selectedDate st))
          (map_to_list (IDB.activities d)).*2)
       (filter (λ e, VitalityEntry.date e
                     = getDateString (Dashboard.selectedDate st))
          (map_to_list (IDB.vitalityEntries d)).*2)
       (calculateDailyMetrics
          (filter (λ a, ActivityLog.date a
                        = getDateString (Dashboard.selectedDate st))
             (map_to_list (IDB.activities d)).*2)
          (Dashboard.categories st)
          (filter (λ e, VitalityEntry.date e
                        = getDateString (Dashboard.selectedDate st))
             (map_to_list (IDB.vitalityEntries d)).*2)
          (Dashboard.vitalityBonuses st))
       (Dashboard.selectedDate st) (Dashboard.isLoading st)
       (Dashboard.toasts st), {| db := Some d |}).
Proof. reflexivity. Qed.

Lemma loadDayData_in_sync getDateString (st st' : Dashboard.State)
    (d d' : IDB.t) :
  Dashboard.loadDayData getDateString st {| db := Some d |}
  = (st', {| db := Some d' |}) →
  d' = d ∧ Dashboard.in_sync getDateString st' d
  ∧ Dashboard.toasts st' = Dashboard.toasts st
  ∧ Dashboard.categories st' = Dashboard.categories st
  ∧ Dashboard.vitalityBonuses st' = Dashboard.vitalityBonuses st
  ∧ Dashboard.selectedDate st' = Dashboard.selectedDate st.
Proof.
  rewrite loadDayData_loads. intros [= <- <-]. by repeat split.
Qed.

Lemma toast_toasts title (st : Dashboard.State) :
  Dashboard.toasts (Dashboard.toast title st) ≠ Dashboard.toasts st.
Proof.
  simpl. intros H. apply (f_equal length) in H. simpl in H. lia.
Qed.

(** X16. Toggling a vitality bonus keeps at most one entry per bonus and
    date in the store, when the dashboard shows what the store holds: the
    entry of that bonus on the day shown is updated if there is one, and
    added otherwise.  Unless a toast reports a failure, the day then holds
    exactly one entry for the bonus, with the flag asked for; and a failure
    happens only when the fresh id is taken, and then nothing changed. *)
Theorem handleVitalityToggle_one_entry getDateString uuid bonusId completed
    (st : Dashboard.State) (d : IDB.t) :
  keyed vitalityEntriesStore d →
  Dashboard.in_sync getDateString st d →
  Dashboard.one_entry_per_bonus d →
  ∃ st' d',
    Dashboard.handleVitalityToggle getDateString uuid bonusId completed st
      {| db := Some d |} = (st', {| db := Some d' |})
    ∧ keyed vitalityEntriesStore d'
    ∧ Dashboard.one_entry_per_bonus d'
    ∧ IDB.activities d' = IDB.activities d
    ∧ IDB.categories d' = IDB.categories d
    ∧ IDB.vitality d' = IDB.vitality d
    ∧ (Dashboard.toasts st' = Dashboard.toasts st →
       Dashboard.in_sync getDateString st' d'
       ∧ ∃ e, e ∈ Dashboard.vitalityEntries st'
              ∧ VitalityEntry.bonusId e = bonusId
              ∧ VitalityEntry.completed e = completed
              ∧ ∀ e', e' ∈ Dashboard.vitalityEntries st' →
                      VitalityEntry.bonusId e' = bonusId → e' = e)
    ∧ (Dashboard.toasts st' ≠ Dashboard.toasts st →
       st' = Dashboard.toast "Error" st ∧ d' = d
       ∧ is_Some (IDB.vitalityEntries d !! uuid)).
Proof.
  intros Hkeyed (Hacts & Hents & Hmet) Hone.
  set (ds := getDateString (Dashboard.selectedDate st)) in *.
  (* what a successful write of [entry] under key [k] gives *)
  assert (∀ k entry,
            VitalityEntry.id entry = k →
            VitalityEntry.date entry = ds →
            VitalityEntry.bonusId entry = bonusId →
            VitalityEntry.completed entry = completed →
            (∀ k' e', IDB.vitalityEntries d !! k' = Some e' →
                      VitalityEntry.date e' = ds →
                      VitalityEntry.bonusId e' = bonusId → k' = k) →
            let d' := IDB.mk (IDB.categories d) (IDB.vitality d)
                        (IDB.activities d)
                        (<[k := entry]> (IDB.vitalityEntries d))
                        (IDB.goals d) (IDB.metrics d) in
            let st' := (Dashboard.loadDayData getDateString st
                          {| db := Some d' |}).1 in
            keyed vitalityEntriesStore d'
            ∧ Dashboard.one_entry_per_bonus d'
            ∧ Dashboard.in_sync getDateString st' d'
            ∧ ∃ e, e ∈ Dashboard.vitalityEntries st'
                   ∧ VitalityEntry.bonusId e = bonusId
                   ∧ VitalityEntry.completed e = completed
                   ∧ ∀ e', e' ∈ Dashboard.vitalityEntries st' →
                           VitalityEntry.bonusId e' = bonusId → e' = e)
    as Hwrite.
  { intros k entry Hid Hdate Hbonus Hflag Honly d' st'.
    assert (keyed vitalityEntriesStore d') as Hkeyed'
      by (by apply map_Forall_insert_2).
    assert (Dashboard.one_entry_per_bonus d') as Hone'.
    { intros k1 k2 e1 e2 H1 H2 Hd Hb. simpl in H1, H2.
      apply lookup_insert_Some in H1 as [[<- <-]|[Hn1 H1]];
        apply lookup_insert_Some in H2 as [[<- <-]|[Hn2 H2]].
      - done.
      - symmetry. apply (Honly k2 e2 H2); congruence.
      - apply (Honly k1 e1 H1); congruence.
      - by apply (Hone k1 k2 e1 e2). }
    split; [done|]. split; [done|].
    subst st'. rewrite loadDayData_loads. cbn [fst].
    split; [by repeat split|].
    cbn [Dashboard.vitalityEntries Dashboard.selectedDate]. fold ds.
    exists entry. split; [|split; [done|split; [done|]]].
    - apply list_elem_of_filter. split; [done|].
      apply elem_of_values. exists k. simpl. apply lookup_insert_eq.
    - intros e' [Hd' [k' Hk']%elem_of_values]%list_elem_of_filter Hb'.
      assert (is_Some (IDB.vitalityEntries d' !! k)) as [e0 He0]
        by (simpl; rewrite lookup_insert_eq; by eexists).
      assert (k' = k) as ->.
      { apply (Hone' k' k e' e0 Hk' He0).
        - simpl in He0. rewrite lookup_insert_eq in He0. congruence.
        - simpl in He0. rewrite lookup_insert_eq in He0. congruence. }
      simpl in Hk'. rewrite lookup_insert_eq in Hk'. congruence. }
  unfold Dashboard.handleVitalityToggle. fold ds.
  destruct (find _ (Dashboard.vitalityEntries st)) as [existing|] eqn:Hfind.
  - (* an entry of the bonus is shown: it is updated *)
    apply find_some in Hfind as [Hin [Hb Hd]%andb_prop].
    apply String.eqb_eq in Hb, Hd. apply list_elem_of_In in Hin.
    rewrite Hents in Hin.
    apply list_elem_of_filter in Hin as [_ [k Hk]%elem_of_values].
    pose proof (Hkeyed _ _ Hk) as Hid. simpl in Hid.
    unfold updateVitalityEntry, request_put, with_db. cbn [db].
    cbn [records with_records keyPath vitalityEntriesStore VitalityEntry.id].
    destruct (Hwrite (VitalityEntry.id existing)
                (VitalityEntry.mk (VitalityEntry.id existing)
                   (VitalityEntry.date existing)
                   (VitalityEntry.bonusId existing) completed))
      as (Hk' & Ho' & Hs' & He'); try done.
    { intros k' e' Hk0 Hd0 Hb0. rewrite Hid.
      apply (Hone k' k e' existing Hk0 Hk); congruence. }
    eexists _, _. split; [by rewrite loadDayData_loads|].
    rewrite loadDayData_loads in Hs', He'. cbn [fst] in Hs', He'.
    split; [done|]. split; [done|]. do 3 (split; [done|]).
    split; [done|]. intros Hne. by destruct Hne.
  - (* no entry of the bonus is shown: one is added under the fresh id *)
    pose proof (find_none _ _ Hfind) as Hnone.
    unfold addVitalityEntry, request_add, with_db. cbn [db].
    cbn [records with_records keyPath vitalityEntriesStore VitalityEntry.id].
    destruct (IDB.vitalityEntries d !! uuid) as [taken|] eqn:Huuid.
    + eexists _, d. split; [reflexivity|].
      split; [done|]. split; [done|]. do 3 (split; [done|]).
      split; [intros Hne; by apply toast_toasts in Hne|].
      intros _. split; [done|]. split; [done|]. by eexists.
    + destruct (Hwrite uuid (VitalityEntry.mk uuid ds bonusId completed))
        as (Hk' & Ho' & Hs' & He'); try done.
      { intros k' e' Hk0 Hd0 Hb0. exfalso.
        assert (e' ∈ Dashboard.vitalityEntries st) as Hin.
        { rewrite Hents. apply list_elem_of_filter. split; [done|].
          apply elem_of_values. by exists k'. }
        apply list_elem_of_In, Hnone in Hin.
        rewrite Hd0, Hb0, !String.eqb_refl in Hin. done. }
      eexists _, _. split; [by rewrite loadDayData_loads|].
      rewrite loadDayData_loads in Hs', He'. cbn [fst] in Hs', He'.
      split; [done|]. split; [done|]. do 3 (split; [done|]).
      split; [done|]. intros Hne. by destruct Hne.
Qed.






Lemma sample_dashboard_in_sync :
  Dashboard.in_sync sample_getDateString sample_dashboard sample_db_v1.
Proof. by repeat split. Qed.

Lemma sample_db_v1_entries_keyed : keyed vitalityEntriesStore sample_db_v1.
Proof. unfold keyed. apply (bool_decide_unpack _). by vm_compute. Qed.

Lemma sample_db_v1_one_entry : Dashboard.one_entry_per_bonus sample_db_v1.
Proof.
  intros k1 k2 e1 e2 H1 H2 _ _. cbn [sample_db_v1 IDB.vitalityEntries] in *.
  apply lookup_singleton_Some in H1 as [<- _].
  by apply lookup_singleton_Some in H2 as [<- _].
Qed.

Lemma handleVitalityToggle_one_entry_witness :
  ∃ st' d',
    Dashboard.handleVitalityToggle sample_getDateString "e9" "sleep" false
      sample_dashboard {| db := Some sample_db_v1 |}
    = (st', {| db := Some d' |})
    ∧ Dashboard.one_entry_per_bonus d'.
Proof.
  destruct (handleVitalityToggle_one_entry sample_getDateString "e9" "sleep"
              false sample_dashboard sample_db_v1
              sample_db_v1_entries_keyed sample_dashboard_in_sync
              sample_db_v1_one_entry)
    as (st' & d' & H1 & _ & H3 & _).
  exists st', d'. split; [exact H1 | exact H3].
Defined.



End DashboardProperties.


(** ** The monthly calendar *)

Lemma omap_fmap_Some {A B C} (f : B → option C) (g : A → B) (h : A → C)
    (l : list A) :
  (∀ x, x ∈ l → f (g x) = Some (h x)) → omap f (g <$> l) = h <$> l.
Proof.
  induction l as [|x l IH]; intros H; [done|].
  cbn [fmap list_fmap omap list_omap].
  rewrite (H x) by left. f_equal. apply IH. intros y Hy. apply H. by right.
Qed.

Lemma month_initialised (getDateString : Z → string) (isSameMonth : Z → bool)
    (calendarDays : list Z) :
  NoDup (getDateString <$> calendarDays) →
  let m :=
    foldl (λ dayDataMap day,
             let dateString := getDateString day in
             JsMap.set dateString
               (DayData.mk day dateString 0%Q (isSameMonth day) [])
               dayDataMap)
      JsMap.empty calendarDays in
  JsMap.keys m = getDateString <$> calendarDays
  ∧ (∀ day, day ∈ calendarDays →
       JsMap.entries m !! getDateString day
       = Some (DayData.mk day (getDateString day) 0%Q (isSameMonth day) []))
  ∧ (∀ k, k ∉ getDateString <$> calendarDays → JsMap.entries m !! k = None).
Proof.
  induction calendarDays as [|day days IH] using rev_ind; intros Hnd m.
  - subst m. simpl. split; [done|]. split; [|done].
    intros day Hd. by apply elem_of_nil in Hd.
  - subst m. rewrite foldl_app. cbn [foldl].
    rewrite fmap_app in Hnd. apply NoDup_app in Hnd as (Hnd & Hfresh & _).
    destruct (IH Hnd) as (Hk & Hin & Hout). clear IH.
    assert (getDateString day ∉ getDateString <$> days) as Hday.
    { intros Hd. apply (Hfresh _ Hd). simpl. left. }
    cbv zeta in Hk, Hin, Hout |- *.
    match goal with |- context [foldl ?f ?e days] =>
      set (m0 := foldl f e days) in * end.
    unfold JsMap.set. cbn [JsMap.keys JsMap.entries].
    rewrite (Hout _ Hday), Hk, fmap_app.
    split; [done|]. split.
    + intros day' Hd. apply elem_of_app in Hd as [Hd|Hd].
      * rewrite lookup_insert_ne; [by apply Hin|].
        intros Heq. apply Hday. rewrite Heq. by apply list_elem_of_fmap_2.
      * apply list_elem_of_singleton in Hd as ->. by rewrite lookup_insert_eq.
    + intros k Hk'. rewrite elem_of_app in Hk'.
      rewrite lookup_insert_ne.
      * apply Hout. tauto.
      * intros <-. apply Hk'. right. simpl. left.
Qed.

Lemma month_grouped (activities : list ActivityLog.t)
    (m : JsMap.t DayData.t) :
  let m' :=
    foldl (λ dayDataMap activity,
             match JsMap.get (ActivityLog.date activity) dayDataMap with
             | Some dayData =>
               JsMap.mk (<[ActivityLog.date activity
                           := MonthlyOverview.push activity dayData]>
                           (JsMap.entries dayDataMap))
                 (JsMap.keys dayDataMap)
             | None => dayDataMap
             end)
      m activities in
  JsMap.keys m' = JsMap.keys m
  ∧ ∀ k, JsMap.entries m' !! k
         = (λ dayData,
              DayData.mk (DayData.date dayData) (DayData.dateString dayData)
                (DayData.totalScore dayData) (DayData.isCurrentMonth dayData)
                (DayData.activities dayData
                 ++ filter (λ a, ActivityLog.date a = k) activities))
           <$> JsMap.entries m !! k.
Proof.
  revert m. induction activities as [|a acts IH]; intros m m'.
  - subst m'. simpl. split; [done|]. intros k.
    destruct (JsMap.entries m !! k) as [[]|]; simpl; [|done].
    by rewrite app_nil_r.
  - subst m'. cbn [foldl].
    match goal with |- context [foldl ?f ?m0 acts] =>
      destruct (IH m0) as [Hk He] end.
    rewrite Hk. clear IH Hk. unfold JsMap.get in *.
    split; [by destruct (JsMap.entries m !! ActivityLog.date a)|].
    intros k. rewrite He. clear He. rewrite filter_cons.
    destruct (decide (ActivityLog.date a = k)) as [<-|Hne].
    + destruct (JsMap.entries m !! ActivityLog.date a) as [dd|] eqn:Hd.
      * cbn [JsMap.entries]. rewrite lookup_insert_eq. simpl.
        by rewrite <- app_assoc.
      * by rewrite Hd.
    + destruct (JsMap.entries m !! ActivityLog.date a) as [dd|] eqn:Hd.
      * cbn [JsMap.entries]. by rewrite lookup_insert_ne.
      * done.
Qed.

Lemma month_data_days (getDateString : Z → string) (isSameMonth : Z → bool)
    (calendarDays : list Z) (categories : list ActivityCategory.t)
    (vitalityBonuses : list VitalityBonus.t)
    (activities : list ActivityLog.t)
    (vitalityEntries : list VitalityEntry.t) :
  NoDup (getDateString <$> calendarDays) →
  MonthlyOverview.month_data getDateString isSameMonth calendarDays
    categories vitalityBonuses activities vitalityEntries
  = MonthlyOverview.day_of getDateString isSameMonth categories
      vitalityBonuses activities vitalityEntries <$> calendarDays.
Proof.
  intros Hnd. unfold MonthlyOverview.month_data.
  destruct (month_initialised getDateString isSameMonth calendarDays Hnd)
    as (Hk & Hin & _).
  match goal with |- context [foldl ?f ?m0 activities] =>
    destruct (month_grouped activities m0) as [Hk' He] end.
  cbv zeta in Hk, Hin, Hk', He |- *.
  unfold JsMap.values. cbn [JsMap.keys JsMap.entries].
  rewrite Hk', Hk. apply omap_fmap_Some. intros day Hd.
  rewrite lookup_fmap, He, (Hin _ Hd). simpl. f_equal.
  unfold MonthlyOverview.score, MonthlyOverview.day_of.
  cbn [DayData.activities DayData.date DayData.dateString
       DayData.isCurrentMonth DayData.totalScore].
  by destruct (filter _ activities).
Qed.


(** X19. The calendar of a month.  When the forty-two days of the calendar
    have distinct date strings, lying between those of the first and the last
    day, [loadMonthData] on an opened database gives one entry per day, in
    the order of the days; the entry of a day holds the activities stored
    under its date, and its score is 0 when there are none and otherwise the
    total score that [calculateDailyMetrics] gives these activities and the
    vitality entries stored under the date.  The database is not changed. *)
Theorem loadMonthData_days (getDateString : Z → string)
    (isSameMonth : Z → bool) (addDays : Z → Z → Z) (calendarStart : Z)
    (categories : list ActivityCategory.t)
    (vitalityBonuses : list VitalityBonus.t) (monthData : list DayData.t)
    (d : DatabaseV1.IDB.t) :
  let calendarDays := addDays calendarStart <$> seqZ 0%Z 42%Z in
  let startDate := getDateString calendarStart in
  let endDate := getDateString (addDays calendarStart 41%Z) in
  NoDup (getDateString <$> calendarDays) →
  Forall (λ day, String.leb startDate (getDateString day) = true
                 ∧ String.leb (getDateString day) endDate = true)
    calendarDays →
  String.leb startDate endDate = true →
  ∃ monthData',
    MonthlyOverview.loadMonthData getDateString isSameMonth addDays
      calendarStart categories vitalityBonuses monthData {| db := Some d |}
    = (monthData', {| db := Some d |})
    ∧ length monthData' = 42%nat
    ∧ ∀ (i : nat) (day : Z), calendarDays !! i = Some day →
        ∃ activities entries,
          DatabaseV1.getActivitiesByDate (getDateString day)
            {| db := Some d |}
          = (Resolved activities, {| db := Some d |})
          ∧ DatabaseV1.getVitalityEntriesByDate (getDateString day)
              {| db := Some d |}
            = (Resolved entries, {| db := Some d |})
          ∧ monthData' !! i
            = Some (DayData.mk day (getDateString day)
                      (match activities with
                       | [] => 0%Q
                       | _ =>
                         DailyMetrics.totalScore
                           (calculateDailyMetrics activities categories
                              entries vitalityBonuses)
                       end)
                      (isSameMonth day) activities).
Proof.
  intros calendarDays startDate endDate Hnd Hrange Hle.
  unfold MonthlyOverview.loadMonthData, await, resolve,
    DatabaseV1.getActivitiesInRange, DatabaseV1.getVitalityEntriesInRange,
    DatabaseV1.getActivitiesByDate, DatabaseV1.getVitalityEntriesByDate,
    index_getAll_bound, index_getAll, with_db.
  cbn [db]. fold startDate endDate calendarDays. rewrite Hle.
  eexists. split; [reflexivity|].
  rewrite month_data_days by exact Hnd.
  split; [by rewrite length_fmap; subst calendarDays; rewrite length_fmap|].
  intros i day Hi. eexists _, _. split; [reflexivity|].
  split; [reflexivity|].
  rewrite list_lookup_fmap, Hi. simpl. f_equal.
  rewrite Forall_forall in Hrange.
  destruct (Hrange day) as [Hs He]; [by eapply list_elem_of_lookup_2|].
  unfold MonthlyOverview.day_of. by rewrite !filter_range_date.
Qed.

Lemma loadMonthData_days_witness :
  ∃ monthData',
    MonthlyOverview.loadMonthData js_toString (λ _, true) Z.add 100%Z
      defaultCategories defaultVitalityBonuses [] {| db := Some sample_db_v1 |}
    = (monthData', {| db := Some sample_db_v1 |})
    ∧ length monthData' = 42%nat.
Proof.
  destruct (loadMonthData_days js_toString (λ _, true) Z.add 100%Z
              defaultCategories defaultVitalityBonuses [] sample_db_v1)
    as (monthData' & H1 & H2 & _).
  - apply (bool_decide_unpack _). vm_compute. reflexivity.
  - apply (bool_decide_unpack _). vm_compute. reflexivity.
  - vm_compute. reflexivity.
  - exists monthData'. split; [exact H1|exact H2].
Defined.


(** ** The vitality checklist *)

Section ChecklistProperties.
Local Open Scope Q_scope.

Lemma foldl_sumQ {A} (g : A → Q) (l : list A) (a : Q) :
  foldl (λ sum x, sum + g x) a l == a + sumQ (g <$> l).
Proof.
  revert a. induction l as [|x l IH]; intros a; [simpl; ring|].
  cbn [foldl]. rewrite IH, fmap_cons. cbn [sumQ]. ring.
Qed.

Lemma sumQ_nonneg (xs : list Q) : Forall (λ x, 0 <= x) xs → 0 <= sumQ xs.
Proof.
  induction 1 as [|x xs Hx _ IH]; simpl; [apply Qle_refl|].
  apply (Qplus_le_compat 0 x 0 (sumQ xs)); assumption.
Qed.

Lemma sumQ_filter_mono {A} (g : A → Q) (P R : A → Prop)
    `{∀ x, Decision (P x)} `{∀ x, Decision (R x)} (l : list A) :
  (∀ x, x ∈ l → 0 <= g x) → (∀ x, x ∈ l → P x → R x) →
  sumQ (g <$> filter P l) <= sumQ (g <$> filter R l).
Proof.
  induction l as [|x l IH]; intros Hg HPQ; [apply Qle_refl|].
  assert (sumQ (g <$> filter P l) <= sumQ (g <$> filter R l)) as IH'.
  { apply IH; intros y Hy; [apply Hg|apply HPQ]; by right. }
  assert (0 <= g x) as Hx by (apply Hg; left).
  rewrite !filter_cons.
  destruct (decide (P x)) as [HP|HP], (decide (R x)) as [HQ|HQ];
    rewrite ?fmap_cons; cbn [sumQ].
  - lra.
  - destruct HQ. apply HPQ; [left|done].
  - lra.
  - done.
Qed.

Lemma sumQ_filter_or {A} (g : A → Q) (P R : A → Prop)
    `{∀ x, Decision (P x)} `{∀ x, Decision (R x)} (l : list A) :
  (∀ x, x ∈ l → P x → R x → False) →
  sumQ (g <$> filter (λ x, P x ∨ R x) l)
  == sumQ (g <$> filter P l) + sumQ (g <$> filter R l).
Proof.
  induction l as [|x l IH]; intros Hd; [simpl; ring|].
  assert (sumQ (g <$> filter (λ x, P x ∨ R x) l)
          == sumQ (g <$> filter P l) + sumQ (g <$> filter R l)) as IH'.
  { apply IH. intros y Hy. apply Hd. by right. }
  rewrite !filter_cons.
  destruct (decide (P x)) as [HP|HP], (decide (R x)) as [HQ|HQ];
    destruct (decide (P x ∨ R x)) as [HPQ|HPQ]; try tauto;
    rewrite ?fmap_cons; cbn [sumQ].
  - destruct (Hd x); [left|done|done].
  - rewrite IH'. ring.
  - rewrite IH'. ring.
Qed.

Lemma filter_none {A} (P : A → Prop) `{∀ x, Decision (P x)} (l : list A) :
  (∀ x, x ∈ l → ¬ P x) → filter P l = [].
Proof.
  induction l as [|x l IH]; intros Hn; [done|].
  rewrite filter_cons, decide_False by (apply Hn; left).
  apply IH. intros y Hy. apply Hn. by right.
Qed.

Lemma filter_all {A} (P : A → Prop) `{∀ x, Decision (P x)} (l : list A) :
  (∀ x, x ∈ l → P x) → filter P l = l.
Proof.
  induction l as [|x l IH]; intros Hn; [done|].
  rewrite filter_cons, decide_True by (apply Hn; left).
  f_equal. apply IH. intros y Hy. apply Hn. by right.
Qed.

Lemma filter_key_unique {A} (key : A → string) (l : list A) (x : A) :
  NoDup (key <$> l) → x ∈ l → filter (λ y, key y = key x) l = [x].
Proof.
  induction l as [|y l IH]; intros Hnd Hx; [by apply elem_of_nil in Hx|].
  rewrite fmap_cons in Hnd. apply NoDup_cons in Hnd as [Hy Hnd].
  rewrite filter_cons. apply elem_of_cons in Hx as [->|Hx].
  - rewrite decide_True by done. f_equal.
    apply filter_none. intros z Hz Heq.
    apply Hy. rewrite <- Heq. by apply list_elem_of_fmap_2.
  - rewrite decide_False; [by apply IH|].
    intros Heq. apply Hy. rewrite Heq. by apply list_elem_of_fmap_2.
Qed.

Lemma js_map_of_unique {A} (key : A → string) (l : list A) (x : A) :
  NoDup (key <$> l) → x ∈ l → js_map_of key l !! key x = Some x.
Proof.
  intros Hnd Hx.
  destruct (js_map_of key l !! key x) as [y|] eqn:Hy.
  - apply js_map_of_Some in Hy as [Hy Hk].
    assert (y ∈ filter (λ z, key z = key x) l) as Hf
      by by apply list_elem_of_filter.
    rewrite (filter_key_unique key l x Hnd Hx) in Hf.
    by apply list_elem_of_singleton in Hf as ->.
  - destruct (proj1 (js_map_of_None key l (key x)) Hy x Hx eq_refl).
Qed.

Lemma bonus_points_of_id (vitalityBonuses : list VitalityBonus.t)
    (k : string) :
  NoDup (VitalityBonus.id <$> vitalityBonuses) →
  sumQ (VitalityBonus.points
          <$> filter (λ b, VitalityBonus.id b = k) vitalityBonuses)
  == match js_map_of VitalityBonus.id vitalityBonuses !! k with
     | Some b => VitalityBonus.points b
     | None => 0
     end.
Proof.
  intros Hnd.
  destruct (js_map_of VitalityBonus.id vitalityBonuses !! k) as [b|] eqn:Hb.
  - apply js_map_of_Some in Hb as [Hb <-].
    rewrite (filter_key_unique VitalityBonus.id _ b Hnd Hb). simpl. ring.
  - rewrite filter_none; [done|]. intros x Hx.
    exact (proj1 (js_map_of_None _ _ _) Hb x Hx).
Qed.

Lemma earned_of_ids (vitalityBonuses : list VitalityBonus.t)
    (ids : list string) :
  NoDup (VitalityBonus.id <$> vitalityBonuses) → NoDup ids →
  sumQ (VitalityBonus.points
          <$> filter (λ b, VitalityBonus.id b ∈ ids) vitalityBonuses)
  == sumQ (omap (λ k, VitalityBonus.points
                        <$> js_map_of VitalityBonus.id vitalityBonuses !! k)
             ids).
Proof.
  intros Hb. induction 1 as [|k ids Hk Hnd IH].
  - rewrite filter_none; [done|]. intros x _ Hx. by apply elem_of_nil in Hx.
  - rewrite omap_cons_eq.
    rewrite (list_filter_iff _
               (λ b, VitalityBonus.id b = k ∨ VitalityBonus.id b ∈ ids))
      by (intros b; apply elem_of_cons).
    rewrite sumQ_filter_or by (intros b _ -> Hin; exact (Hk Hin)).
    rewrite IH, bonus_points_of_id by done.
    destruct (js_map_of VitalityBonus.id vitalityBonuses !! k);
      cbn [fmap option_fmap option_map sumQ]; ring.
Qed.

Lemma vitalityScoreTerm_of_ids (vitalityEntries : list VitalityEntry.t)
    (vitalityBonuses : list VitalityBonus.t) :
  vitalityScoreTerm vitalityEntries vitalityBonuses
  = sumQ (omap (λ k, VitalityBonus.points
                       <$> js_map_of VitalityBonus.id vitalityBonuses !! k)
            (VitalityEntry.bonusId
               <$> filter (λ e, VitalityEntry.completed e = true)
                     vitalityEntries)).
Proof.
  unfold vitalityScoreTerm. f_equal.
  induction vitalityEntries as [|e l IH]; [done|].
  rewrite omap_cons_eq, filter_cons.
  destruct (VitalityEntry.completed e) eqn:He.
  - rewrite decide_True by done. rewrite fmap_cons, omap_cons_eq.
    rewrite IH. done.
  - rewrite decide_False by done. done.
Qed.

Lemma earnedPoints_sumQ (vitalityBonuses : list VitalityBonus.t)
    (completedBonuses : gset string) :
  VitalityChecklist.earnedPoints vitalityBonuses completedBonuses
  == sumQ (VitalityBonus.points
             <$> filter (λ b, VitalityBonus.id b ∈ completedBonuses)
                   vitalityBonuses).
Proof.
  unfold VitalityChecklist.earnedPoints. rewrite foldl_sumQ. ring.
Qed.

Lemma earnedPoints_mono (vitalityBonuses : list VitalityBonus.t)
    (done1 done2 : gset string) :
  (∀ b, b ∈ vitalityBonuses → 0 <= VitalityBonus.points b) →
  done1 ⊆ done2 →
  VitalityChecklist.earnedPoints vitalityBonuses done1
  <= VitalityChecklist.earnedPoints vitalityBonuses done2.
Proof.
  intros Hp Hsub. rewrite !earnedPoints_sumQ.
  apply sumQ_filter_mono; [done|]. intros b _. apply Hsub.
Qed.

(** X20. The points that the checklist shows as earned are what the vitality
    entries add to the total score of the day, when no two bonuses share an
    id and no bonus has two completed entries. *)
Theorem earnedPoints_is_vitality_score
    (activities : list ActivityLog.t) (categories : list ActivityCategory.t)
    (vitalityEntries : list VitalityEntry.t)
    (vitalityBonuses : list VitalityBonus.t) :
  NoDup (VitalityBonus.id <$> vitalityBonuses) →
  NoDup (VitalityEntry.bonusId
           <$> filter (λ e, VitalityEntry.completed e = true)
                 vitalityEntries) →
  DailyMetrics.totalScore
    (calculateDailyMetrics activities categories vitalityEntries
       vitalityBonuses)
  == DailyMetrics.totalScore
       (calculateDailyMetrics activities categories [] vitalityBonuses)
     + VitalityChecklist.earnedPoints vitalityBonuses
         (VitalityChecklist.completedBonuses vitalityEntries).
Proof.
  intros Hb He. unfold calculateDailyMetrics. simpl.
  rewrite vitality_fold_term, vitalityScoreTerm_of_ids.
  rewrite earnedPoints_sumQ. unfold VitalityChecklist.completedBonuses.
  rewrite (list_filter_iff
             (λ b, VitalityBonus.id b ∈ list_to_set (C := gset string) _)
             (λ b, VitalityBonus.id b
                   ∈ VitalityEntry.bonusId
                       <$> filter (λ e, VitalityEntry.completed e = true)
                             vitalityEntries))
    by (intros b; apply elem_of_list_to_set).
  rewrite earned_of_ids by done. ring.
Qed.

Lemma earnedPoints_is_vitality_score_witness :
  DailyMetrics.totalScore
    (calculateDailyMetrics [scenarioA_activity] defaultCategories
       [sleep_entry] defaultVitalityBonuses)
  == DailyMetrics.totalScore
       (calculateDailyMetrics [scenarioA_activity] defaultCategories []
          defaultVitalityBonuses)
     + VitalityChecklist.earnedPoints defaultVitalityBonuses
         (VitalityChecklist.completedBonuses [sleep_entry]).
Proof.
  apply earnedPoints_is_vitality_score.
  - apply (bool_decide_unpack _). vm_compute. reflexivity.
  - apply (bool_decide_unpack _). vm_compute. reflexivity.
Defined.

(** X21. When no bonus has negative points, the earned points of the
    checklist lie between 0 and the total possible points, whatever the set
    of completed bonuses; checking a box never lowers them and unchecking
    one never raises them. *)
Theorem earnedPoints_bounds (vitalityBonuses : list VitalityBonus.t)
    (completedBonuses : gset string) (bonusId : string) :
  (∀ b, b ∈ vitalityBonuses → 0 <= VitalityBonus.points b) →
  0 <= VitalityChecklist.earnedPoints vitalityBonuses completedBonuses
  ∧ VitalityChecklist.earnedPoints vitalityBonuses completedBonuses
    <= VitalityChecklist.totalPossiblePoints vitalityBonuses
  ∧ VitalityChecklist.earnedPoints vitalityBonuses
      (VitalityChecklist.handleToggle bonusId false completedBonuses)
    <= VitalityChecklist.earnedPoints vitalityBonuses completedBonuses
  ∧ VitalityChecklist.earnedPoints vitalityBonuses completedBonuses
    <= VitalityChecklist.earnedPoints vitalityBonuses
         (VitalityChecklist.handleToggle bonusId true completedBonuses).
Proof.
  intros Hp. split; [|split; [|split]].
  - rewrite earnedPoints_sumQ. apply sumQ_nonneg.
    apply Forall_fmap, Forall_forall. intros b Hb. simpl.
    apply Hp. by apply list_elem_of_filter in Hb as [_ Hb].
  - rewrite earnedPoints_sumQ.
    unfold VitalityChecklist.totalPossiblePoints. rewrite foldl_sumQ.
    rewrite Qplus_0_l.
    rewrite <- (filter_all (λ _, True) vitalityBonuses) at 2 by done.
    by apply sumQ_filter_mono.
  - apply earnedPoints_mono; [done|]. simpl.
    intros x Hx. by apply elem_of_difference in Hx as [Hx _].
  - apply earnedPoints_mono; [done|]. simpl.
    intros x Hx. apply elem_of_union. by right.
Qed.

Lemma earnedPoints_bounds_witness :
  0 <= VitalityChecklist.earnedPoints defaultVitalityBonuses
         {[ "sleep"%string ]}
  ∧ VitalityChecklist.earnedPoints defaultVitalityBonuses
      {[ "sleep"%string ]}
    <= VitalityChecklist.totalPossiblePoints defaultVitalityBonuses.
Proof.
  destruct (earnedPoints_bounds defaultVitalityBonuses {[ "sleep"%string ]}
              "sleep") as (H1 & H2 & _).
  - apply Forall_forall.
    unfold defaultVitalityBonuses.
    repeat (apply Forall_cons_2; [by vm_compute|]). apply Forall_nil_2.
  - split; [exact H1|exact H2].
Defined.

End ChecklistProperties.


(** ** The daily goals page *)

Section DailyGoalsProperties.
Local Open Scope Q_scope.

Lemma Math_min_spec (x y : Q) :
  (x <= y ∧ Math_min x y = x) ∨ (y < x ∧ Math_min x y = y).
Proof.
  unfold Math_min. destruct (Qgtb x y) eqn:H.
  - right. by apply Qgtb_true in H.
  - left. by apply Qgtb_false in H.
Qed.

(** X22. The progress of a goal whose target is positive, over activities
    none of which has a negative duration: the minutes done are not
    negative, the percentage lies between 0 and 100, and it is 100 exactly
    when the minutes done reach the target. *)
Theorem progress_of_bounds (categoriesData : list ActivityCategory.t)
    (activities : list ActivityLog.t) (goal : DailyGoal.t) :
  0 < DailyGoal.targetMinutes goal →
  (∀ a, a ∈ activities → 0 <= ActivityLog.duration a) →
  let p := DailyGoals.progress_of categoriesData activities goal in
  0 <= GoalProgress.actualMinutes p
  ∧ 0 <= GoalProgress.progressPercentage p
  ∧ GoalProgress.progressPercentage p <= 100
  ∧ (GoalProgress.progressPercentage p == 100
     ↔ DailyGoal.targetMinutes goal <= GoalProgress.actualMinutes p).
Proof.
  intros Ht Hd p. subst p. unfold DailyGoals.progress_of.
  cbn [GoalProgress.actualMinutes GoalProgress.progressPercentage].
  set (t := DailyGoal.targetMinutes goal) in *.
  set (total := foldl _ 0 _).
  assert (0 <= total) as Htotal.
  { subst total. rewrite foldl_sumQ, Qplus_0_l. apply sumQ_nonneg.
    apply Forall_fmap, Forall_forall. intros a Ha. simpl. apply Hd.
    by apply list_elem_of_filter in Ha as [_ Ha]. }
  clearbody total. set (m := total / 60000).
  assert (0 <= m) as Hm.
  { subst m. apply Qle_shift_div_l; [reflexivity|]. by rewrite Qmult_0_l. }
  clearbody m.
  assert (m / t * 100 <= 100 ↔ m <= t) as Hiff.
  { split; intros H.
    - assert (m == m / t * t) as -> by (field; lra). nra.
    - assert (m / t <= 1); [|lra].
      apply Qle_shift_div_r; [done|]. lra. }
  assert (0 <= m / t) as Hq.
  { apply Qle_shift_div_l; [done|]. by rewrite Qmult_0_l. }
  split; [done|].
  destruct (Math_min_spec (m / t * 100) 100) as [[Hle ->]|[Hlt ->]].
  - split; [lra|]. split; [done|]. split.
    + intros Heq. assert (m == m / t * t) as -> by (field; lra). nra.
    + intros Hge. apply Qle_antisym; [done|].
      assert (1 <= m / t); [|lra].
      apply Qle_shift_div_l; [done|]. lra.
  - split; [lra|]. split; [lra|]. split; [|reflexivity].
    intros _. apply Qnot_lt_le. intros Hc.
    assert (m / t * 100 <= 100); [|lra]. apply Hiff. lra.
Qed.

Lemma progress_of_bounds_witness :
  GoalProgress.progressPercentage
    (DailyGoals.progress_of defaultCategories [scenarioA_activity]
       sample_goal) <= 100.
Proof.
  destruct (progress_of_bounds defaultCategories [scenarioA_activity]
              sample_goal) as (_ & _ & H & _).
  - by vm_compute.
  - intros a Ha. apply list_elem_of_singleton in Ha as ->. by vm_compute.
  - exact H.
Defined.

Lemma loadData_opened getDateString (st : DailyGoals.State)
    (d : DatabaseV1.IDB.t) :
  ∃ st',
    DailyGoals.loadData getDateString st {| db := Some d |}
    = (st', {| db := Some d |})
    ∧ DailyGoals.goals st'
      = filter (λ goal, DailyGoal.date goal
                        = getDateString (DailyGoals.selectedDate st))
          (DailyGoals.storage st)
    ∧ DailyGoals.storage st' = DailyGoals.storage st
    ∧ DailyGoals.selectedDate st' = DailyGoals.selectedDate st
    ∧ DailyGoals.toasts st' = DailyGoals.toasts st
    ∧ GoalProgress.goal <$> DailyGoals.goalProgress st'
      = DailyGoals.goals st'.
Proof.
  unfold DailyGoals.loadData, DatabaseV1.getCategories,
    DatabaseV1.getActivitiesByDate, request_getAll, index_getAll, with_db.
  cbn [db]. eexists. split; [reflexivity|].
  cbn [DailyGoals.goals DailyGoals.storage DailyGoals.selectedDate
       DailyGoals.toasts DailyGoals.goalProgress].
  repeat (split; [reflexivity|]).
  rewrite <- list_fmap_compose. apply list_fmap_id.
Qed.

Lemma saveGoals_opened getDateString (updatedGoals : list DailyGoal.t)
    (st : DailyGoals.State) (d : DatabaseV1.IDB.t) :
  (∀ g, g ∈ updatedGoals →
        DailyGoal.date g = getDateString (DailyGoals.selectedDate st)) →
  ∃ st',
    DailyGoals.saveGoals getDateString updatedGoals st {| db := Some d |}
    = (st', {| db := Some d |})
    ∧ DailyGoals.goals st' = updatedGoals
    ∧ DailyGoals.storage st'
      = filter (λ goal, DailyGoal.date goal
                        ≠ getDateString (DailyGoals.selectedDate st))
          (DailyGoals.storage st) ++ updatedGoals
    ∧ DailyGoals.selectedDate st' = DailyGoals.selectedDate st
    ∧ DailyGoals.toasts st' = DailyGoals.toasts st
    ∧ GoalProgress.goal <$> DailyGoals.goalProgress st' = updatedGoals.
Proof.
  intros Hdate. unfold DailyGoals.saveGoals.
  match goal with |- context [DailyGoals.loadData _ ?s _] =>
    destruct (loadData_opened getDateString s d)
      as (st' & Hrun & Hg & Hs & Hsel & Ht & Hp) end.
  cbn [DailyGoals.goals DailyGoals.storage DailyGoals.selectedDate
       DailyGoals.toasts] in Hg, Hs, Hsel, Ht.
  assert (DailyGoals.goals st' = updatedGoals) as Hg'.
  { rewrite Hg, filter_app, list_filter_filter.
    rewrite filter_none by (intros g _ [H1 H2]; exact (H2 H1)).
    by rewrite filter_all. }
  exists st'. rewrite Hrun, <- Hg' at 1. rewrite Hp, Hg'. done.
Qed.


(** X23. Adding, changing and removing a goal, on a page that shows what the
    storage holds for the selected date and with the database opened: the
    page then shows the changed list (the old goals and a new one of 60
    minutes; the same goals with the target of the one named replaced; the
    goals other than the one named), one progress entry per goal in the same
    order, and what the storage holds for the date; the goals that the
    storage holds for other dates are the same as before, and the database
    is not changed. *)
Theorem goals_saved getDateString (uuid categoryId goalId : string)
    (targetMinutes : Q) (st : DailyGoals.State) (d : DatabaseV1.IDB.t) :
  DailyGoals.in_sync getDateString st →
  let dateString := getDateString (DailyGoals.selectedDate st) in
  let saved (updatedGoals : list DailyGoal.t)
      (r : DailyGoals.State * DatabaseManager DatabaseV1.IDB.t) : Prop :=
    r.2 = {| db := Some d |}
    ∧ DailyGoals.goals r.1 = updatedGoals
    ∧ GoalProgress.goal <$> DailyGoals.goalProgress r.1 = updatedGoals
    ∧ DailyGoals.selectedDate r.1 = DailyGoals.selectedDate st
    ∧ DailyGoals.in_sync getDateString r.1
    ∧ filter (λ goal, DailyGoal.date goal ≠ dateString)
        (DailyGoals.storage r.1)
      = filter (λ goal, DailyGoal.date goal ≠ dateString)
          (DailyGoals.storage st) in
  saved (DailyGoals.goals st ++ [DailyGoal.mk uuid dateString categoryId 60])
    (DailyGoals.addGoal getDateString uuid categoryId st {| db := Some d |})
  ∧ saved ((λ goal,
              if bool_decide (DailyGoal.id goal = goalId)
              then DailyGoal.mk (DailyGoal.id goal) (DailyGoal.date goal)
                     (DailyGoal.categoryId goal) targetMinutes
              else goal) <$> DailyGoals.goals st)
      (DailyGoals.updateGoal getDateString goalId targetMinutes st
         {| db := Some d |})
  ∧ saved (filter (λ goal, DailyGoal.id goal ≠ goalId) (DailyGoals.goals st))
      (DailyGoals.removeGoal getDateString goalId st {| db := Some d |}).
Proof.
  intros Hsync dateString saved.
  assert (∀ g, g ∈ DailyGoals.goals st → DailyGoal.date g = dateString)
    as Hdates.
  { intros g Hg. rewrite Hsync in Hg.
    by apply list_elem_of_filter in Hg as [Hg _]. }
  assert (∀ updatedGoals title,
            (∀ g, g ∈ updatedGoals → DailyGoal.date g = dateString) →
            saved updatedGoals
              (let '(st', this') :=
                 DailyGoals.saveGoals getDateString updatedGoals st
                   {| db := Some d |} in
               (DailyGoals.toast title st', this'))) as Hsaved.
  { intros updatedGoals title Hu.
    destruct (saveGoals_opened getDateString updatedGoals st d Hu)
      as (st' & -> & Hg & Hs & Hsel & _ & Hp).
    subst saved. cbn [fst snd DailyGoals.toast DailyGoals.goals
      DailyGoals.goalProgress DailyGoals.selectedDate DailyGoals.storage].
    split; [done|]. split; [done|]. split; [done|]. split; [done|].
    unfold DailyGoals.in_sync.
    cbn [DailyGoals.toast DailyGoals.goals DailyGoals.selectedDate
         DailyGoals.storage].
    rewrite Hsel, Hs, !filter_app, !list_filter_filter. fold dateString.
    split.
    - rewrite filter_none by (intros g _ [H1 H2]; exact (H2 H1)).
      by rewrite filter_all, Hg.
    - rewrite (filter_none _ updatedGoals)
        by (intros g Hin H; exact (H (Hu g Hin))).
      rewrite app_nil_r. apply list_filter_iff. tauto. }
  split; [|split].
  - apply Hsaved. intros g [Hg|Hg]%elem_of_app; [by apply Hdates|].
    by apply list_elem_of_singleton in Hg as ->.
  - apply Hsaved. intros g (g0 & -> & Hg)%list_elem_of_fmap.
    destruct (bool_decide _); simpl; by apply Hdates.
  - apply Hsaved. intros g [_ Hg]%list_elem_of_filter. by apply Hdates.
Qed.

Lemma goals_saved_witness :
  DailyGoals.goals
    (DailyGoals.removeGoal sample_getDateString "g1" sample_goals_page
       {| db := Some sample_db_v1 |}).1
  = filter (λ goal, DailyGoal.id goal ≠ "g1"%string)
      (DailyGoals.goals sample_goals_page).
Proof.
  destruct (goals_saved sample_getDateString "u" "play" "g1" 30
              sample_goals_page sample_db_v1) as (_ & _ & _ & H & _).
  - vm_compute. reflexivity.
  - exact H.
Defined.

End DailyGoalsProperties.


(** ** Before [init] *)

(** X24. Before [init], every method of the manager that the source has
    rejects with the error of a database not initialised and leaves the
    manager as it is, a range query even when its bounds are out of order;
    the dashboard then shows its error toast and keeps the day it showed,
    and the calendar and the goals page keep their state. *)
Theorem not_initialized_rejects (call : DatabaseV1.Call)
    (now startDate endDate uuid bonusId : string) (completed : bool)
    (getDateString : Z → string) (isSameMonth : Z → bool)
    (addDays : Z → Z → Z) (calendarStart : Z)
    (dashboard : Dashboard.State) (monthData : list DayData.t)
    (page : DailyGoals.State) :
  (∀ snapshot, call ≠ DatabaseV1.ImportAll snapshot) →
  let this : DatabaseManager DatabaseV1.IDB.t := {| db := None |} in
  DatabaseV1.run call this = (Rejected NotInitialized, this)
  ∧ DatabaseV1.exportData now this = (Rejected NotInitialized, this)
  ∧ DatabaseV1.getCategories this = (Rejected NotInitialized, this)
  ∧ DatabaseV1.getActivitiesByDate startDate this
    = (Rejected NotInitialized, this)
  ∧ DatabaseV1.getActivitiesInRange startDate endDate this
    = (Rejected NotInitialized, this)
  ∧ Dashboard.loadDayData getDateString dashboard this
    = (Dashboard.toast "Error" dashboard, this)
  ∧ Dashboard.handleVitalityToggle getDateString uuid bonusId completed
      dashboard this
    = (Dashboard.toast "Error" dashboard, this)
  ∧ MonthlyOverview.loadMonthData getDateString isSameMonth addDays
      calendarStart (Dashboard.categories dashboard)
      (Dashboard.vitalityBonuses dashboard) monthData this
    = (monthData, this)
  ∧ DailyGoals.loadData getDateString page this = (page, this).
Proof.
  intros Hcall this. split; [|split; [|split; [|split; [|split;
    [|split; [|split; [|split]]]]]]]; try reflexivity.
  - destruct call; try reflexivity. by destruct (Hcall snapshot).
  - unfold Dashboard.handleVitalityToggle.
    by destruct (List.find _ (Dashboard.vitalityEntries dashboard)).
Qed.

Lemma not_initialized_rejects_witness :
  DatabaseV1.clearAllData {| db := None |}
  = (Rejected NotInitialized, {| db := None |}).
Proof.
  destruct (not_initialized_rejects DatabaseV1.ClearAllData "" "" "" "" ""
              true sample_getDateString (λ _, true) Z.add 0
              sample_dashboard [] sample_goals_page) as [H _].
  - intros snapshot. discriminate.
  - exact H.
Defined.
